(** * Dashboard rendering of [domain/transformers/chat_responses.py]

    A shallow embedding of the Markdown dashboard renderers and of the
    helpers they are built from, followed by the properties established
    for them.

    Conventions of the embedding.
    - A Python [str] is a [string] (UTF-8 bytes); a value that may be
      [None] is an [option]; [x.get(k)] on a record is the option-valued
      field, [None] standing both for an absent key and for a null value.
    - The top-level keys of the dashboard snapshot are optional fields of
      [Dashboard]: subscripting an absent one raises [KeyError].
    - A raised exception is the [Raise] result; nothing is returned with it.
    - [datetime.now(pytz.utc)] reads the clock: the clock is a sequence of
      readings and the state threaded through a call is the number of
      readings taken so far. *)

From Stdlib Require Import ZArith Lia.
From stdpp Require Import base option list strings pretty gmap.

Local Open Scope string_scope.
Local Open Scope list_scope.

(** ** Strings *)

Definition nl : string := String (Ascii.ascii_of_nat 10) EmptyString.

(** [sep.join(items)] on items that are all [str]. *)
Definition join (sep : string) (items : list string) : string :=
  String.concat sep items.

(** [f"{x}"] for a value that may be [None]. *)
Definition py_str (x : option string) : string :=
  match x with
  | Some s => s
  | None => "None"
  end.

(** Truthiness of a [str] or [None]: [None] and the empty string are falsy. *)
Definition truthy (x : option string) : bool :=
  match x with
  | Some s => negb (String.eqb s "")
  | None => false
  end.

(** [a == b] on values that are a [str] or [None]. *)
Definition py_eq (a b : option string) : bool :=
  match a, b with
  | Some x, Some y => String.eqb x y
  | None, None => true
  | _, _ => false
  end.

(** Truthiness of an optional list argument: [None] and [[]] are falsy. *)
Definition nonempty {A} (x : option (list A)) : bool :=
  match x with
  | Some (_ :: _) => true
  | _ => false
  end.

(** [x or []] *)
Definition or_empty {A} (x : option (list A)) : list A :=
  match x with
  | Some l => l
  | None => []
  end.

(** ** Exceptions *)

Inductive Error : Type :=
| KeyError (key : string)
| TypeError (what : string)
| ValueError (what : string).

Inductive Result (A : Type) : Type :=
| Ok (a : A)
| Raise (e : Error).
Arguments Ok {A} a.
Arguments Raise {A} e.

#[export] Instance Result_ret : MRet Result := fun _ a => Ok a.
#[export] Instance Result_bind : MBind Result := fun _ _ f r =>
  match r with
  | Ok a => f a
  | Raise e => Raise e
  end.
#[export] Instance Result_fmap : FMap Result := fun _ _ f r =>
  match r with
  | Ok a => Ok (f a)
  | Raise e => Raise e
  end.

(** [d[key]] for a top-level key of the snapshot. *)
Definition subscript {A} (key : string) (field : option A) : Result A :=
  match field with
  | Some v => Ok v
  | None => Raise (KeyError key)
  end.

(** ** Status icons *)

Module Icon.
Definition blue : string := "🔵".
Definition yellow : string := "🟡".
Definition green : string := "🟢".
Definition red : string := "🔴".
Definition white : string := "⚪".
Definition purple : string := "🟣".
Definition orange : string := "🟠".
Definition placeholder : string := "⨂".
End Icon.

Definition get_state_icon (state : string) (has_warnings : bool) : string :=
  if String.eqb state "Executing" then Icon.blue
  else if String.eqb state "Success" then
    (if has_warnings then Icon.yellow else Icon.green)
  else if String.eqb state "Failed" then Icon.red
  else if String.eqb state "Canceled" then Icon.white
  else if String.eqb state "TimedOut" then Icon.red
  else if String.eqb state "Cancelling" then Icon.red
  else if String.eqb state "Queued" then Icon.purple
  else Icon.white.

Definition get_github_state_icon (status conclusion : option string) : string :=
  if py_eq status (Some "in_progress") then Icon.blue
  else if py_eq status (Some "queued") then Icon.purple
  else if py_eq conclusion (Some "success") then Icon.green
  else if py_eq conclusion (Some "failure") || py_eq conclusion (Some "timed_out")
  then Icon.red
  else if py_eq conclusion (Some "action_required") then Icon.orange
  else if py_eq conclusion (Some "cancelled") || py_eq conclusion (Some "neutral")
          || py_eq conclusion (Some "skipped")
  then Icon.white
  else Icon.white.

(** ** Data model

    The dictionaries of the snapshot, one record per shape.  A field read
    with [.get] or tested for truthiness is an [option].  A key that the
    code subscripts on an entry is taken to be there: its field is an
    [option] only because its value may be [None]. *)

Record Environment := {
  env_Id : string;
  env_Name : string }.

Record ProjectGroup := {
  pg_Id : string;
  pg_Name : string;
  pg_EnvironmentIds : list string }.

Record Project := {
  proj_Id : string;
  proj_Name : string;
  proj_ProjectGroupId : string }.

Record Deployment := {
  dep_ProjectId : string;
  dep_EnvironmentId : string;
  dep_TenantId : option string;
  dep_ReleaseId : string;
  dep_ReleaseVersion : string;
  dep_DeploymentId : string;
  dep_ChannelId : string;
  dep_Created : string;
  dep_State : string;
  dep_HasWarningsOrErrors : bool }.

(** An entry of [dashboard["Releases"]]: [release["Release"]["Id"]] and the
    dictionary [release["Deployments"]] from environment id to deployments. *)
Record ReleaseEntry := {
  rel_Id : string;
  rel_Deployments : gmap string (list Deployment) }.

(** [tenant.get("ProjectEnvironments", {})]: an absent key is the empty map. *)
Record Tenant := {
  ten_Id : option string;
  ten_Name : string;
  ten_ProjectEnvironments : gmap string (list string) }.

Record RunbookRun := {
  run_TenantId : option string;
  run_Created : string;
  run_State : string;
  run_HasWarningsOrErrors : bool }.

Record Runbook := { rb_Name : string }.

Record GithubRepo := {
  repo_ProjectId : string;
  repo_Owner : string;
  repo_Repo : string }.

Record GithubActionStatus := {
  gas_ProjectId : string;
  gas_Status : option string;
  gas_Conclusion : option string;
  gas_Name : option string;
  gas_ShortSha : option string;
  gas_Url : option string;
  gas_CreatedAt : option Z }.

Record WorkflowRun := {
  wf_ReleaseId : string;
  wf_Status : option string;
  wf_Conclusion : option string;
  wf_Name : option string;
  wf_ShortSha : option string;
  wf_Url : option string }.

(** Pull request and issue summaries have the same shape. *)
Record CountSummary := {
  cnt_ProjectId : string;
  cnt_Count : option Z }.

Record DeploymentHighlight := {
  hl_DeploymentId : string;
  hl_Highlights : string }.

Record Channel := { chan_Name : string }.

(** [dashboard["RunbookRuns"]] is iterated in insertion order and
    subscripted by key: an association list. *)
Record Dashboard := {
  ProjectGroups : option (list ProjectGroup);
  Environments : option (list Environment);
  Projects : option (list Project);
  Items : option (list Deployment);
  Releases : option (list ReleaseEntry);
  Tenants : option (list Tenant);
  RunbookRuns : option (list (string * list RunbookRun)) }.

(** [d[key]] on an association list. *)
Fixpoint dict_get {V} (d : list (string * V)) (key : string) : Result V :=
  match d with
  | [] => Raise (KeyError key)
  | (k, v) :: d' => if String.eqb k key then Ok v else dict_get d' key
  end.

(** ** The clock

    A call threads the number of clock readings taken so far; the [n]-th
    reading of the clock is [clock n]. *)

Definition Clocked (A : Type) : Type := nat -> Result (A * nat).

#[export] Instance Clocked_ret : MRet Clocked := fun _ a n => Ok (a, n).
#[export] Instance Clocked_bind : MBind Clocked := fun _ _ f m n =>
  match m n with
  | Ok (a, n') => f a n'
  | Raise e => Raise e
  end.

Definition lift {A} (r : Result A) : Clocked A := fun n =>
  match r with
  | Ok a => Ok (a, n)
  | Raise e => Raise e
  end.

(** The value a call returns when started at reading [n], if any. *)
Definition returned {A} (r : Result (A * nat)) : Result A :=
  match r with
  | Ok (a, _) => Ok a
  | Raise e => Raise e
  end.

(** ** Formatting *)

Definition string_of_Z (z : Z) : string :=
  pretty z.

(** [f"{count}"] for an [int] or [None]. *)
Definition py_str_int (x : option Z) : string :=
  match x with
  | Some z => string_of_Z z
  | None => "None"
  end.

(** [sep.join(items)]: raises [TypeError] on an item that is [None]. *)
Definition join_checked (sep : string) (items : list (option string)) : Result string :=
  strs ← mapM (fun x => match x with
                        | Some s => Ok s
                        | None => Raise (TypeError "sequence item: expected str instance, NoneType found")
                        end) items;
  Ok (join sep strs).

(** ** Table primitives *)

Definition build_markdown_table_row (columns : list (option string)) : Result string :=
  match columns with
  | [] => Ok ""
  | _ => body ← join_checked " | " columns; Ok ("| " +:+ body +:+ " |" +:+ nl)
  end.

Definition build_markdown_table_header_separator (count : nat) : string :=
  match count with
  | O => ""
  | _ => join "-" (replicate (count + 1) "|") +:+ nl
  end.

Definition get_env_name (dashboard : Dashboard) (environment_id : string)
  : Result (option string) :=
  environments ← subscript "Environments" (Environments dashboard);
  match List.find (fun e => String.eqb (env_Id e) environment_id) environments with
  | None => Ok None
  | Some environment => Ok (Some (env_Name environment))
  end.

Definition build_deployment_url
  (octopus_url space_id project_id release_version deployment_id : string) : string :=
  octopus_url +:+ "/app#/" +:+ space_id +:+ "/projects/" +:+ project_id
  +:+ "/deployments/releases/" +:+ release_version +:+ "/deployments/" +:+ deployment_id.

Definition build_repo_link (github_repo : option GithubRepo) : list string :=
  match github_repo with
  | Some r => ["🗎 [GitHub Repo](https://github.com/" +:+ repo_Owner r +:+ "/" +:+ repo_Repo r +:+ ")"]
  | None => []
  end.

(** ['s' if count != 1 else ''] *)
Definition plural (count : option Z) : string :=
  match count with
  | Some 1%Z => ""
  | _ => "s"
  end.

Definition build_pr_response (pull_requests : option CountSummary)
  (github_repo : option GithubRepo) : list string :=
  match pull_requests, github_repo with
  | Some pr, Some r =>
      ["🔁 [" +:+ py_str_int (cnt_Count pr) +:+ " PR" +:+ plural (cnt_Count pr)
       +:+ "](https://github.com/" +:+ repo_Owner r +:+ "/" +:+ repo_Repo r +:+ "/pulls)"]
  | _, _ => []
  end.

Definition build_pr_response_for_project (pull_requests : option (list CountSummary))
  (project_id : string) (github_repo : option GithubRepo) : list string :=
  if nonempty pull_requests then
    let status := List.find (fun x => String.eqb (cnt_ProjectId x) project_id)
                            (or_empty pull_requests) in
    build_pr_response status github_repo
  else [].

Definition build_issue_response (issues : option CountSummary)
  (github_repo : option GithubRepo) : list string :=
  match issues, github_repo with
  | Some i, Some r =>
      ["🐛 [" +:+ py_str_int (cnt_Count i) +:+ " issue" +:+ plural (cnt_Count i)
       +:+ "](https://github.com/" +:+ repo_Owner r +:+ "/" +:+ repo_Repo r +:+ "/issues)"]
  | _, _ => []
  end.

Definition build_issue_response_for_project (issues : option (list CountSummary))
  (project_id : string) (github_repo : option GithubRepo) : list string :=
  if nonempty issues then
    let status := List.find (fun x => String.eqb (cnt_ProjectId x) project_id)
                            (or_empty issues) in
    build_issue_response status github_repo
  else [].

(** Modelled from the spec: [yield_first] of [domain/sanitizers/sanitized_list.py]
    is not among the sources; the spec has the workflow-run lookup use
    only the first of the matches it is given, so it yields the first
    item of its argument and stops. *)
Definition yield_first {A} (items : list A) : list A :=
  match items with
  | [] => []
  | x :: _ => [x]
  end.

(** ** The renderers

    [clock] is the system clock.  [parse_unknown_format_date],
    [get_date_difference_summary] and [get_channel_cached] are imported
    from modules that are not among the sources and are taken as given:
    a date parser that returns an instant or raises, the summary of a
    duration, and the lookup of a channel, which returns it or raises.
    Instants and durations are integers. *)

Section Renderers.

Variable clock : nat -> Z.
Variable parse_unknown_format_date : string -> Result Z.
Variable get_date_difference_summary : Z -> string.
Variable get_channel_cached : string -> string -> string -> string -> Result Channel.

(** [datetime.now(pytz.utc)] *)
Definition datetime_now : Clocked Z := fun n => Ok (clock n, S n).

(** The line of a workflow run or of a workflow status:
    [f"{icon} [{name} {sha}]({url})"]. *)
Definition workflow_line (status conclusion name short_sha url : option string) : string :=
  get_github_state_icon status conclusion +:+ " "
  +:+ "[" +:+ py_str name +:+ " " +:+ py_str short_sha +:+ "](" +:+ py_str url +:+ ")".

Definition get_project_workflow_status
  (github_actions_statuses : option (list GithubActionStatus)) (project_id : string)
  : Clocked (list string) :=
  now ← datetime_now;
  if nonempty github_actions_statuses then
    match List.find (fun x => String.eqb (gas_ProjectId x) project_id && truthy (gas_Status x))
                    (or_empty github_actions_statuses) with
    | Some github_actions_status =>
        let line := workflow_line (gas_Status github_actions_status)
                      (gas_Conclusion github_actions_status) (gas_Name github_actions_status)
                      (gas_ShortSha github_actions_status) (gas_Url github_actions_status) in
        match gas_CreatedAt github_actions_status with
        | Some created_at =>
            mret [line; "🕗 " +:+ get_date_difference_summary (now - created_at)%Z +:+ " ago"]
        | None => mret [line]
        end
    | None => mret []
    end
  else mret [].

(** *** Space dashboard *)

(** The messages of a deployment shown on the space dashboard. *)
Definition deployment_messages (now : Z) (octopus_url space_id : string) (d : Deployment)
  : Result (list string) :=
  created ← parse_unknown_format_date (dep_Created d);
  let difference := get_date_difference_summary (now - created)%Z in
  let icon := get_state_icon (dep_State d) (dep_HasWarningsOrErrors d) in
  let url := build_deployment_url octopus_url space_id (dep_ProjectId d)
               (dep_ReleaseVersion d) (dep_DeploymentId d) in
  Ok [icon +:+ " [" +:+ dep_ReleaseVersion d +:+ "](" +:+ url +:+ ")";
      "🕗 " +:+ difference +:+ " ago"].

(** The deployments of a project to an environment, in the order of
    [dashboard["Items"]]. *)
Definition project_environment_deployments (project : Project) (environment : string)
  (items : list Deployment) : list Deployment :=
  List.filter (fun d => String.eqb (dep_ProjectId d) (proj_Id project)
                        && String.eqb (dep_EnvironmentId d) environment) items.

(** What one pass of the loop over [project_group["EnvironmentIds"]]
    appends to the table. *)
Definition environment_cell (now : Z) (octopus_url space_id : string)
  (dashboard : Dashboard) (project : Project) (environment : string) : Result string :=
  items ← subscript "Items" (Items dashboard);
  match project_environment_deployments project environment items with
  | last_deployment :: _ =>
      messages ← deployment_messages now octopus_url space_id last_deployment;
      Ok ("| " +:+ join "<br/>" messages)
  | [] => Ok ("| " +:+ Icon.placeholder +:+ " ")
  end.

(** What the GitHub column appends for a project: nothing when no
    workflow statuses were given. *)
Definition github_cell (github_actions : option (list GithubRepo))
  (github_actions_status : option (list GithubActionStatus))
  (pull_requests issues : option (list CountSummary)) (project : Project)
  : Clocked (list string) :=
  let github_repo :=
    if nonempty github_actions then
      List.find (fun x => String.eqb (repo_ProjectId x) (proj_Id project)
                          && truthy (Some (repo_Repo x)) && truthy (Some (repo_Owner x)))
                (or_empty github_actions)
    else None in
  if nonempty github_actions_status then
    workflow ← get_project_workflow_status github_actions_status (proj_Id project);
    let github_messages :=
      build_repo_link github_repo ++ workflow
      ++ build_pr_response_for_project pull_requests (proj_Id project) github_repo
      ++ build_issue_response_for_project issues (proj_Id project) github_repo in
    match github_messages with
    | [] => mret ["| " +:+ Icon.placeholder +:+ " "]
    | _ => mret ["| " +:+ join "<br/>" github_messages]
    end
  else mret [].

(** The cells appended for a project, each as it is appended to the
    table, before the closing pipe of the row. *)
Definition project_row_cells (now : Z) (octopus_url space_id : string) (dashboard : Dashboard)
  (github_actions : option (list GithubRepo))
  (github_actions_status : option (list GithubActionStatus))
  (pull_requests issues : option (list CountSummary))
  (project_group : ProjectGroup) (project : Project) : Clocked (list string) :=
  github ← github_cell github_actions github_actions_status pull_requests issues project;
  environments ← lift (mapM (environment_cell now octopus_url space_id dashboard project)
                            (pg_EnvironmentIds project_group));
  mret (("| " +:+ proj_Name project +:+ " ") :: github ++ environments).

Definition project_row (now : Z) (octopus_url space_id : string) (dashboard : Dashboard)
  (github_actions : option (list GithubRepo))
  (github_actions_status : option (list GithubActionStatus))
  (pull_requests issues : option (list CountSummary))
  (project_group : ProjectGroup) (project : Project) : Clocked string :=
  cells ← project_row_cells now octopus_url space_id dashboard github_actions
            github_actions_status pull_requests issues project_group project;
  mret (join "" cells +:+ "|" +:+ nl).

(** The columns declared by the header of a project group. *)
Definition project_group_columns (dashboard : Dashboard)
  (github_actions_status : option (list GithubActionStatus)) (project_group : ProjectGroup)
  : Result (list (option string)) :=
  names ← mapM (get_env_name dashboard) (pg_EnvironmentIds project_group);
  let environment_names :=
    (if nonempty github_actions_status then [Some "GitHub"] else []) ++ names in
  Ok (Some (pg_Name project_group) :: environment_names).

Definition project_group_table (now : Z) (octopus_url space_id : string) (dashboard : Dashboard)
  (github_actions : option (list GithubRepo))
  (github_actions_status : option (list GithubActionStatus))
  (pull_requests issues : option (list CountSummary))
  (project_group : ProjectGroup) : Clocked string :=
  columns ← lift (project_group_columns dashboard github_actions_status project_group);
  header ← lift (build_markdown_table_row columns);
  let separator := build_markdown_table_header_separator (length columns) in
  all_projects ← lift (subscript "Projects" (Projects dashboard));
  let projects := List.filter (fun p => String.eqb (proj_ProjectGroupId p) (pg_Id project_group))
                              all_projects in
  rows ← mapM (project_row now octopus_url space_id dashboard github_actions
                 github_actions_status pull_requests issues project_group) projects;
  mret (header +:+ separator +:+ join "" rows +:+ nl).

Definition get_dashboard_response (octopus_url space_id space_name : string)
  (dashboard : Dashboard)
  (github_actions : option (list GithubRepo))
  (github_actions_status : option (list GithubActionStatus))
  (pull_requests issues : option (list CountSummary)) : Clocked string :=
  now ← datetime_now;
  project_groups ← lift (subscript "ProjectGroups" (ProjectGroups dashboard));
  tables ← mapM (project_group_table now octopus_url space_id dashboard github_actions
                   github_actions_status pull_requests issues) project_groups;
  mret ("# " +:+ space_name +:+ nl +:+ nl +:+ join "" tables).

(** *** Project dashboard *)

(** The test of the filter over the workflow runs. *)
Definition workflow_run_matches (release_id : string) (x : WorkflowRun) : bool :=
  String.eqb (wf_ReleaseId x) release_id && truthy (wf_ShortSha x) && truthy (wf_Url x).

(** The workflow runs offered to [yield_first] for a release. *)
Definition matching_workflow_runs (release_id : string)
  (release_workflow_runs : option (list WorkflowRun)) : list WorkflowRun :=
  List.filter (workflow_run_matches release_id) (or_empty release_workflow_runs).

(** The workflow lines appended to the messages of a deployment. *)
Definition workflow_messages (release_id : string)
  (release_workflow_runs : option (list WorkflowRun)) : list string :=
  List.map (fun x => workflow_line (wf_Status x) (wf_Conclusion x) (wf_Name x)
                       (wf_ShortSha x) (wf_Url x))
           (yield_first (matching_workflow_runs release_id release_workflow_runs)).

Definition highlight_messages (deployment_id : string)
  (deployment_highlights : option (list DeploymentHighlight)) : list string :=
  List.map hl_Highlights
           (List.filter (fun x => String.eqb (hl_DeploymentId x) deployment_id)
                        (or_empty deployment_highlights)).

(** What one deployment of a release appends to the table. *)
Definition release_deployment_cell (now : Z) (octopus_url space_id : string)
  (release_workflow_runs : option (list WorkflowRun))
  (deployment_highlights : option (list DeploymentHighlight))
  (release : ReleaseEntry) (deployment : Deployment) : Result string :=
  messages ← deployment_messages now octopus_url space_id deployment;
  let messages := messages
                  ++ workflow_messages (rel_Id release) release_workflow_runs
                  ++ highlight_messages (dep_DeploymentId deployment) deployment_highlights in
  Ok ("| " +:+ join "<br/>" messages).

(** What one pass of the loop over [dashboard["Releases"]] appends for
    an environment, cell by cell. *)
Definition release_cells (now : Z) (octopus_url space_id : string)
  (release_workflow_runs : option (list WorkflowRun))
  (deployment_highlights : option (list DeploymentHighlight))
  (environment : Environment) (release : ReleaseEntry) : Result (list string) :=
  match rel_Deployments release !! env_Id environment with
  | Some deployments =>
      mapM (release_deployment_cell now octopus_url space_id release_workflow_runs
              deployment_highlights release) deployments
  | None => Ok ["| " +:+ Icon.placeholder +:+ " "]
  end.

(** The cells of the single data row, in the order they are appended. *)
Definition project_dashboard_cells (now : Z) (octopus_url space_id : string)
  (dashboard : Dashboard)
  (release_workflow_runs : option (list WorkflowRun))
  (deployment_highlights : option (list DeploymentHighlight)) : Result (list string) :=
  environments ← subscript "Environments" (Environments dashboard);
  per_environment ← mapM (fun environment =>
      releases ← subscript "Releases" (Releases dashboard);
      per_release ← mapM (release_cells now octopus_url space_id release_workflow_runs
                            deployment_highlights environment) releases;
      Ok (concat per_release)) environments;
  Ok (concat per_environment).

(** The title and the lines about the repository above the table. *)
Definition project_heading (space_name project_name : string) (message : list string) : string :=
  "# " +:+ space_name +:+ " / " +:+ project_name +:+ nl +:+ nl
  +:+ match message with
      | [] => ""
      | _ => join "<br/>" message +:+ nl +:+ nl
      end.

Definition project_message (project_id : string) (github_repo : option GithubRepo)
  (github_actions_statuses : option (list GithubActionStatus))
  (pull_requests issues : option CountSummary) : Clocked (list string) :=
  workflow ← get_project_workflow_status github_actions_statuses project_id;
  mret (build_repo_link github_repo ++ workflow
        ++ build_pr_response pull_requests github_repo
        ++ build_issue_response issues github_repo).

Definition get_project_dashboard_response
  (octopus_url space_id space_name project_name project_id : string) (dashboard : Dashboard)
  (github_repo : option GithubRepo)
  (github_actions_statuses : option (list GithubActionStatus))
  (pull_requests issues : option CountSummary)
  (release_workflow_runs : option (list WorkflowRun))
  (deployment_highlights : option (list DeploymentHighlight)) : Clocked string :=
  now ← datetime_now;
  message ← project_message project_id github_repo github_actions_statuses pull_requests issues;
  environments ← lift (subscript "Environments" (Environments dashboard));
  let environment_names := List.map (fun e => Some (env_Name e)) environments in
  header ← lift (build_markdown_table_row environment_names);
  let separator := build_markdown_table_header_separator (length environment_names) in
  cells ← lift (project_dashboard_cells now octopus_url space_id dashboard
                  release_workflow_runs deployment_highlights);
  mret (project_heading space_name project_name message
        +:+ header +:+ separator +:+ join "" cells +:+ "|  ").

(** *** Tenant progression *)

Definition get_tenant_environments (tenant : Tenant) (dashboard : Dashboard)
  (project_id : string) : Result (list string) :=
  environments ← subscript "Environments" (Environments dashboard);
  Ok (List.map env_Id
        (List.filter (fun project_environment =>
           if truthy (ten_Id tenant) then
             bool_decide (env_Id project_environment
                          ∈ default [] (ten_ProjectEnvironments tenant !! project_id))
           else true) environments)).

Definition get_tenant_environment_details (environments_ids : list string)
  (dashboard : Dashboard) : Result (list Environment) :=
  found ← mapM (fun environment =>
      environment_name ← get_env_name dashboard environment;
      match environment_name with
      | Some name =>
          if truthy (Some name)
          then Ok [ {| env_Id := environment; env_Name := name |} ]
          else Ok []
      | None => Ok []
      end) environments_ids;
  Ok (concat found).

(** The test of the scan over [dashboard["Items"]] for a tenant and one
    of its environments. *)
Definition tenant_deployment_match (tenant : Tenant) (environment : Environment)
  (deployment : Deployment) : bool :=
  let tenanted := py_eq (dep_TenantId deployment) (ten_Id tenant) in
  let environment_match := String.eqb (dep_EnvironmentId deployment) (env_Id environment) in
  environment_match && tenanted.

(** The deployment shown for a tenant in an environment: the scan stops
    at the first match. *)
Definition tenant_deployment (tenant : Tenant) (environment : Environment)
  (items : list Deployment) : option Deployment :=
  List.find (tenant_deployment_match tenant environment) items.

Definition tenant_deployment_messages (now : Z) (space_id api_key url : string)
  (release_workflow_runs : option (list WorkflowRun))
  (deployment_highlights : option (list DeploymentHighlight))
  (deployment : Deployment) : Result (list string) :=
  let icon := get_state_icon (dep_State deployment) (dep_HasWarningsOrErrors deployment) in
  created ← parse_unknown_format_date (dep_Created deployment);
  let difference := get_date_difference_summary (now - created)%Z in
  channel ← get_channel_cached space_id (dep_ChannelId deployment) api_key url;
  let release_url := build_deployment_url url space_id (dep_ProjectId deployment)
                       (dep_ReleaseVersion deployment) (dep_DeploymentId deployment) in
  Ok ([icon +:+ " [" +:+ dep_ReleaseVersion deployment +:+ "](" +:+ release_url +:+ ")";
       "🔀 " +:+ chan_Name channel;
       "🕗 " +:+ difference +:+ " ago"]
      ++ workflow_messages (dep_ReleaseId deployment) release_workflow_runs
      ++ highlight_messages (dep_DeploymentId deployment) deployment_highlights).

(** The entry appended to [columns] for an environment of a tenant. *)
Definition tenant_column (now : Z) (space_id api_key url : string) (dashboard : Dashboard)
  (release_workflow_runs : option (list WorkflowRun))
  (deployment_highlights : option (list DeploymentHighlight))
  (tenant : Tenant) (environment : Environment) : Result string :=
  items ← subscript "Items" (Items dashboard);
  match tenant_deployment tenant environment items with
  | Some deployment =>
      messages ← tenant_deployment_messages now space_id api_key url release_workflow_runs
                   deployment_highlights deployment;
      Ok (join "<br/>" messages)
  | None => Ok Icon.placeholder
  end.

(** The list [columns] built for a tenant by the loop over its
    environments. *)
Definition tenant_columns (now : Z) (space_id api_key url : string) (dashboard : Dashboard)
  (release_workflow_runs : option (list WorkflowRun))
  (deployment_highlights : option (list DeploymentHighlight))
  (tenant : Tenant) (environments : list Environment) : Result (list string) :=
  mapM (tenant_column now space_id api_key url dashboard release_workflow_runs
          deployment_highlights tenant) environments.

(** The table of a tenant, from its environment ids on: header,
    separator and body. *)
Definition tenant_table (now : Z) (space_id api_key url : string) (dashboard : Dashboard)
  (release_workflow_runs : option (list WorkflowRun))
  (deployment_highlights : option (list DeploymentHighlight))
  (tenant : Tenant) (environments_ids : list string) : Result string :=
  environments ← get_tenant_environment_details environments_ids dashboard;
  let environment_names := List.map (fun e => Some (env_Name e)) environments in
  header ← build_markdown_table_row environment_names;
  let separator := build_markdown_table_header_separator (length environments) in
  columns ← tenant_columns now space_id api_key url dashboard release_workflow_runs
              deployment_highlights tenant environments;
  body ← match columns with
         | [] => Ok (nl +:+ "No deployments")
         | _ => build_markdown_table_row (List.map Some columns)
         end;
  Ok (header +:+ separator +:+ body +:+ nl +:+ nl).

Definition tenant_section (now : Z) (space_id project_id api_key url : string)
  (dashboard : Dashboard)
  (release_workflow_runs : option (list WorkflowRun))
  (deployment_highlights : option (list DeploymentHighlight))
  (tenant : Tenant) : Result string :=
  environments_ids ← get_tenant_environments tenant dashboard project_id;
  table ← tenant_table now space_id api_key url dashboard release_workflow_runs
            deployment_highlights tenant environments_ids;
  Ok ("## " +:+ ten_Name tenant +:+ nl +:+ table).

Definition get_project_tenant_progression_response
  (space_id space_name project_name project_id : string) (dashboard : Dashboard)
  (github_repo : option GithubRepo)
  (github_actions_statuses : option (list GithubActionStatus))
  (release_workflow_runs : option (list WorkflowRun))
  (pull_requests issues : option CountSummary)
  (deployment_highlights : option (list DeploymentHighlight))
  (api_key url : string) : Clocked string :=
  now ← datetime_now;
  message ← project_message project_id github_repo github_actions_statuses pull_requests issues;
  tenants ← lift (subscript "Tenants" (Tenants dashboard));
  sections ← lift (mapM (tenant_section now space_id project_id api_key url dashboard
                           release_workflow_runs deployment_highlights) tenants);
  mret (project_heading space_name project_name message +:+ join "" sections).

(** *** Runbook dashboard *)

(** ["Untenanted" if not run['TenantId'] else run['TenantId']] *)
Definition run_tenant (run : RunbookRun) : string :=
  match run_TenantId run with
  | Some tenant_id => if truthy (Some tenant_id) then tenant_id else "Untenanted"
  | None => "Untenanted"
  end.

(** One pass of the inner loop of [get_tenants]. *)
Definition add_tenant (tenants : list string) (run : RunbookRun) : list string :=
  let tenant := run_tenant run in
  if bool_decide (tenant ∈ tenants) then tenants else tenants ++ [tenant].

Definition get_tenants (dashboard : Dashboard) : Result (list string) :=
  runbook_runs ← subscript "RunbookRuns" (RunbookRuns dashboard);
  foldl (fun acc environment =>
           tenants ← acc;
           runs ← dict_get runbook_runs environment;
           Ok (foldl add_tenant tenants runs))
        (Ok []) (List.map fst runbook_runs).

Definition build_runbook_run_columns (run : RunbookRun) (now : Z)
  (get_tenant : string -> string) : Result (list (option string)) :=
  let tenant_name :=
    match run_TenantId run with
    | Some tenant_id => if truthy (Some tenant_id) then get_tenant tenant_id else "Untenanted"
    | None => "Untenanted"
    end in
  created ← parse_unknown_format_date (run_Created run);
  let difference := get_date_difference_summary (now - created)%Z in
  let icon := get_state_icon (run_State run) (run_HasWarningsOrErrors run) in
  Ok [Some tenant_name; Some (icon +:+ " " +:+ difference +:+ " ago")].

(** The test selecting the runs of a tenant. *)
Definition run_matches (tenant : string) (run : RunbookRun) : bool :=
  py_eq (run_TenantId run) (Some tenant)
  || (negb (truthy (run_TenantId run)) && String.eqb tenant "Untenanted").

(** The row emitted for a run. *)
Definition runbook_row (dt : Z) (get_tenant : string -> string) (run : RunbookRun)
  : Result string :=
  columns ← build_runbook_run_columns run dt get_tenant;
  build_markdown_table_row columns.

(** The rows emitted for a tenant and an environment. *)
Definition runbook_rows (dt : Z) (get_tenant : string -> string)
  (runbook_runs : list (string * list RunbookRun)) (tenant environment : string)
  : Result (list string) :=
  all_runs ← dict_get runbook_runs environment;
  let runs := List.filter (run_matches tenant) all_runs in
  mapM (runbook_row dt get_tenant) runs.

(** All body rows, tenant by tenant and environment by environment. *)
Definition runbook_body (dt : Z) (get_tenant : string -> string) (dashboard : Dashboard)
  (tenants environment_ids : list string) : Result (list string) :=
  per_tenant ← mapM (fun tenant =>
      per_environment ← mapM (fun environment =>
          runbook_runs ← subscript "RunbookRuns" (RunbookRuns dashboard);
          runbook_rows dt get_tenant runbook_runs tenant environment) environment_ids;
      Ok (concat per_environment)) tenants;
  Ok (concat per_tenant).

Definition get_runbook_dashboard_response (project : Project) (runbook : Runbook)
  (dashboard : Dashboard) (get_tenant : string -> string) : Clocked string :=
  dt ← datetime_now;
  tenants ← lift (get_tenants dashboard);
  runbook_runs ← lift (subscript "RunbookRuns" (RunbookRuns dashboard));
  let environment_ids := List.map fst runbook_runs in
  environment_names ← lift (mapM (get_env_name dashboard) environment_ids);
  let columns := Some "" :: environment_names in
  header ← lift (build_markdown_table_row columns);
  let separator := build_markdown_table_header_separator (length columns) in
  rows ← lift (runbook_body dt get_tenant dashboard tenants environment_ids);
  mret (proj_Name project +:+ " / " +:+ rb_Name runbook +:+ nl +:+ nl
        +:+ header +:+ separator +:+ join "" rows).

End Renderers.

(** ** Project names

    [str.strip()] removes from both ends the characters for which
    [str.isspace()] holds; on UTF-8 text these are the byte sequences
    listed in [whitespace]. *)

Definition utf8 (bytes : list nat) : string :=
  List.fold_right (fun b s => String (Ascii.ascii_of_nat b) s) EmptyString bytes.

Definition whitespace_bytes : list (list nat) :=
  [ [9]; [10]; [11]; [12]; [13]; [28]; [29]; [30]; [31]; [32];
    [194; 133]; [194; 160]; [225; 154; 128];
    [226; 128; 128]; [226; 128; 129]; [226; 128; 130]; [226; 128; 131];
    [226; 128; 132]; [226; 128; 133]; [226; 128; 134]; [226; 128; 135];
    [226; 128; 136]; [226; 128; 137]; [226; 128; 138];
    [226; 128; 168]; [226; 128; 169]; [226; 128; 175]; [226; 129; 159];
    [227; 128; 128] ].

Definition whitespace : list string := List.map utf8 whitespace_bytes.

(** The whitespace characters read from the end of a text. *)
Definition whitespace_reversed : list string :=
  List.map (fun bytes => utf8 (List.rev bytes)) whitespace_bytes.

(** [s] without the prefix [p], when it starts with it. *)
Fixpoint without_prefix (p s : string) : option string :=
  match p, s with
  | EmptyString, _ => Some s
  | String a p', String b s' => if Ascii.eqb a b then without_prefix p' s' else None
  | String _ _, EmptyString => None
  end.

(** [s] without its first character, when that is one of [chars]. *)
Fixpoint without_first (chars : list string) (s : string) : option string :=
  match chars with
  | [] => None
  | c :: chars' =>
      match without_prefix c s with
      | Some rest => Some rest
      | None => without_first chars' s
      end
  end.

Fixpoint drop_leading (chars : list string) (fuel : nat) (s : string) : string :=
  match fuel with
  | O => s
  | S fuel' =>
      match without_first chars s with
      | Some rest => drop_leading chars fuel' rest
      | None => s
      end
  end.

Definition lstrip (s : string) : string :=
  drop_leading whitespace (String.length s) s.

Definition rstrip (s : string) : string :=
  String.rev (drop_leading whitespace_reversed (String.length s) (String.rev s)).

(** [s.strip()] *)
Definition strip (s : string) : string := rstrip (lstrip s).

(** [space_name is None or not space_name.strip()] *)
Definition no_space_name (space_name : option string) : bool :=
  match space_name with
  | None => true
  | Some s => String.eqb (strip s) ""
  end.

Definition double_quote : string := String (Ascii.ascii_of_nat 34) EmptyString.

Definition get_octopus_project_names_response (space_name : option string)
  (projects : list string) : string :=
  let count := string_of_Z (Z.of_nat (length projects)) in
  if bool_decide (projects = []) && no_space_name space_name then
    "I found no projects."
  else if bool_decide (projects = []) then
    "I found no projects in the space " +:+ py_str space_name +:+ "."
  else if no_space_name space_name then
    "I found " +:+ count +:+ " projects:" +:+ nl +:+ "* " +:+ join (nl +:+ " * ") projects
  else
    "I found " +:+ count +:+ " projects in the space " +:+ double_quote
    +:+ strip (py_str space_name) +:+ double_quote +:+ ":" +:+ nl
    +:+ "* " +:+ join (nl +:+ "* ") projects.

(** ** General queries

    [answer_general_query] of [domain/tools/general_query.py].  The
    sanitizers, [build_hcl_prompt] and the callback are not among the
    sources: the sanitizers are the fields of [Sanitizers], each
    returning a value or raising, and the other two are arguments.  The
    calls made to [logging] are recorded, in order, beside the result;
    calling a [logging] that is [None] raises [TypeError]. *)

Record Sanitizers (Value : Type) := {
  sanitize_space : string -> Value -> Result Value;
  sanitize_projects : Value -> Result Value;
  sanitize_runbooks : Value -> Result Value;
  sanitize_targets : Value -> Result Value;
  sanitize_tenants : Value -> Result Value;
  sanitize_library_variable_sets : Value -> Result Value;
  sanitize_environments : string -> Value -> Result Value;
  sanitize_feeds : Value -> Result Value;
  sanitize_accounts : Value -> Result Value;
  sanitize_certificates : Value -> Result Value;
  sanitize_lifecycles : Value -> Result Value;
  sanitize_workerpools : Value -> Result Value;
  sanitize_machinepolicies : Value -> Result Value;
  sanitize_tenanttagsets : Value -> Result Value;
  sanitize_projectgroups : Value -> Result Value;
  sanitize_channels : Value -> Result Value;
  sanitize_releases : Value -> Result Value;
  sanitize_steps : Value -> Result Value;
  sanitize_gitcredentials : Value -> Result Value;
  sanitize_dates : Value -> Result Value }.

(** The named arguments of [answer_general_query]. *)
Record Entities (Value : Type) := {
  arg_space : Value;
  arg_projects : Value;
  arg_runbooks : Value;
  arg_targets : Value;
  arg_tenants : Value;
  arg_library_variable_sets : Value;
  arg_environments : Value;
  arg_feeds : Value;
  arg_accounts : Value;
  arg_certificates : Value;
  arg_lifecycles : Value;
  arg_worker_pools : Value;
  arg_machine_policies : Value;
  arg_tag_sets : Value;
  arg_project_groups : Value;
  arg_channels : Value;
  arg_releases : Value;
  arg_steps : Value;
  arg_variables : Value;
  arg_git_credentials : Value;
  arg_dates : Value }.

(** A result together with the calls made to [logging] on the way. *)
Definition Logged (A : Type) : Type := (list (string * string) * Result A)%type.

#[export] Instance Logged_ret : MRet Logged := fun _ a => ([], Ok a).
#[export] Instance Logged_bind : MBind Logged := fun _ _ f m =>
  match m with
  | (calls, Ok a) => let (calls', r) := f a in (calls ++ calls', r)
  | (calls, Raise e) => (calls, Raise e)
  end.

Definition unlogged {A} (r : Result A) : Logged A := ([], r).

(** [logging(a, b)]: [logging] is a function, or [None] when [false]. *)
Definition call_logging (logging : bool) (a b : string) : Logged unit :=
  if logging then ([(a, b)], Ok tt)
  else ([], Raise (TypeError "'NoneType' object is not callable")).

Section GeneralQuery.

Context {Value Messages Answer : Type}.
Variable sanitizers : Sanitizers Value.
Variable build_hcl_prompt : Result Messages.

(** The dictionary literal [body]. *)
Definition general_query_body (query : string) (args : Entities Value)
  : Result (list (string * Value)) :=
  space_name ← sanitize_space _ sanitizers query (arg_space _ args);
  project_names ← sanitize_projects _ sanitizers (arg_projects _ args);
  runbook_names ← sanitize_runbooks _ sanitizers (arg_runbooks _ args);
  target_names ← sanitize_targets _ sanitizers (arg_targets _ args);
  tenant_names ← sanitize_tenants _ sanitizers (arg_tenants _ args);
  library_variable_sets ← sanitize_library_variable_sets _ sanitizers
                            (arg_library_variable_sets _ args);
  environment_names ← sanitize_environments _ sanitizers query (arg_environments _ args);
  feed_names ← sanitize_feeds _ sanitizers (arg_feeds _ args);
  account_names ← sanitize_accounts _ sanitizers (arg_accounts _ args);
  certificate_names ← sanitize_certificates _ sanitizers (arg_certificates _ args);
  lifecycle_names ← sanitize_lifecycles _ sanitizers (arg_lifecycles _ args);
  workerpool_names ← sanitize_workerpools _ sanitizers (arg_worker_pools _ args);
  machinepolicy_names ← sanitize_machinepolicies _ sanitizers (arg_machine_policies _ args);
  tagset_names ← sanitize_tenanttagsets _ sanitizers (arg_tag_sets _ args);
  projectgroup_names ← sanitize_projectgroups _ sanitizers (arg_project_groups _ args);
  channel_names ← sanitize_channels _ sanitizers (arg_channels _ args);
  release_versions ← sanitize_releases _ sanitizers (arg_releases _ args);
  step_names ← sanitize_steps _ sanitizers (arg_steps _ args);
  variable_names ← sanitize_steps _ sanitizers (arg_variables _ args);
  gitcredential_names ← sanitize_gitcredentials _ sanitizers (arg_git_credentials _ args);
  dates ← sanitize_dates _ sanitizers (arg_dates _ args);
  Ok [ ("space_name", space_name);
       ("project_names", project_names);
       ("runbook_names", runbook_names);
       ("target_names", target_names);
       ("tenant_names", tenant_names);
       ("library_variable_sets", library_variable_sets);
       ("environment_names", environment_names);
       ("feed_names", feed_names);
       ("account_names", account_names);
       ("certificate_names", certificate_names);
       ("lifecycle_names", lifecycle_names);
       ("workerpool_names", workerpool_names);
       ("machinepolicy_names", machinepolicy_names);
       ("tagset_names", tagset_names);
       ("projectgroup_names", projectgroup_names);
       ("channel_names", channel_names);
       ("release_versions", release_versions);
       ("step_names", step_names);
       ("variable_names", variable_names);
       ("gitcredential_names", gitcredential_names);
       ("dates", dates) ].

(** The loop over [kwargs.items()]. *)
Fixpoint merge_kwargs (logging : bool) (body kwargs : list (string * Value))
  : Logged (list (string * Value)) :=
  match kwargs with
  | [] => mret body
  | (key, value) :: kwargs' =>
      if bool_decide (key ∈ List.map fst body) then
        _ ← call_logging logging ("Conflicting Key: " +:+ key) "Value: {value}";
        merge_kwargs logging body kwargs'
      else merge_kwargs logging (body ++ [(key, value)]) kwargs'
  end.

Definition answer_general_query (query : string)
  (callback : string -> list (string * Value) -> Messages -> Result Answer)
  (logging : bool) (args : Entities Value) (kwargs : list (string * Value))
  : Logged Answer :=
  _ ← (if logging then call_logging logging "Enter:" "answer_general_query" else mret tt);
  body ← unlogged (general_query_body query args);
  body ← merge_kwargs logging body kwargs;
  messages ← unlogged build_hcl_prompt;
  unlogged (callback query body messages).

End GeneralQuery.

(** The keys of [body] before the keyword arguments are merged. *)
Definition general_query_keys : list string :=
  [ "space_name"; "project_names"; "runbook_names"; "target_names"; "tenant_names";
    "library_variable_sets"; "environment_names"; "feed_names"; "account_names";
    "certificate_names"; "lifecycle_names"; "workerpool_names"; "machinepolicy_names";
    "tagset_names"; "projectgroup_names"; "channel_names"; "release_versions";
    "step_names"; "variable_names"; "gitcredential_names"; "dates" ].

(** ** Deployment logs

    [answer_project_deployment_logs] of
    [domain/tools/wrapper/project_logs.py]; [build_plain_text_prompt] and
    the callback are not among the sources and are arguments. *)

Record LogsArguments (Value : Type) := {
  logs_space : Value;
  logs_project : Value;
  logs_environment : Value;
  logs_channel : Value;
  logs_tenant : Value;
  logs_release : Value;
  logs_steps : Value;
  logs_lines : Value }.

Section ProjectLogs.

Context {Value Messages Answer : Type}.
Variable build_plain_text_prompt : Result Messages.

(** The loop over [kwargs.items()]. *)
Fixpoint log_unexpected (logging : bool) (kwargs : list (string * Value)) : Logged unit :=
  match kwargs with
  | [] => mret tt
  | (key, value) :: kwargs' =>
      _ ← (if logging
           then call_logging logging ("Unexpected Key: " +:+ key) "Value: {value}"
           else mret tt);
      log_unexpected logging kwargs'
  end.

Definition answer_project_deployment_logs (query : string)
  (callback : string -> Messages -> LogsArguments Value -> Result Answer)
  (logging : bool) (args : LogsArguments Value) (kwargs : list (string * Value))
  : Logged Answer :=
  _ ← (if logging then call_logging logging "Enter:" "answer_logs_usage" else mret tt);
  _ ← log_unexpected logging kwargs;
  messages ← unlogged build_plain_text_prompt;
  unlogged (callback query messages args).

End ProjectLogs.

(** A keyword argument whose name is a key of [body]. *)
Definition names_body_key {Value} (kwarg : string * Value) : bool :=
  bool_decide (fst kwarg ∈ general_query_keys).

(** ** Notions of the statements *)

(** An environment id is known when the snapshot lists an environment
    with that id. *)
Definition known_environment (dashboard : Dashboard) (environment_id : string) : bool :=
  match Environments dashboard with
  | Some environments =>
      existsb (fun e => String.eqb (env_Id e) environment_id) environments
  | None => false
  end.

(** The number of columns the GitHub enrichment adds to the space
    dashboard. *)
Definition github_columns (github_actions_status : option (list GithubActionStatus)) : nat :=
  if nonempty github_actions_status then 1 else 0.

(** The distinct items of a list, each at the place of its first
    occurrence. *)
Fixpoint distinct (l : list string) : list string :=
  match l with
  | [] => []
  | x :: l' => x :: List.filter (fun y => negb (String.eqb y x)) (distinct l')
  end.

(** What is listed for an environment id, given the environments of the
    snapshot: the id with the name of the first environment that has it,
    when there is one and its name is not empty. *)
Definition environment_detail (environments : list Environment) (environment : string)
  : list Environment :=
  match List.find (fun e => String.eqb (env_Id e) environment) environments with
  | Some e =>
      if truthy (Some (env_Name e))
      then [ {| env_Id := environment; env_Name := env_Name e |} ]
      else []
  | None => []
  end.

(** An item is fresh when it is not among those collected so far. *)
Definition fresh (acc : list string) (x : string) : bool :=
  negb (bool_decide (x ∈ acc)).

(** The number of occurrences of a character in a text. *)
Fixpoint count_char (c : Ascii.ascii) (s : string) : nat :=
  match s with
  | EmptyString => 0
  | String a s' => (if Ascii.eqb a c then 1 else 0) + count_char c s'
  end.

Definition pipe : Ascii.ascii := Ascii.ascii_of_nat 124.
Definition dash : Ascii.ascii := Ascii.ascii_of_nat 45.

(** The text [str.strip()] leaves of a space name, nothing for [None]. *)
Definition stripped (space_name : option string) : string :=
  match space_name with
  | None => ""
  | Some s => strip s
  end.

(** The test [get_tenant_environments] applies to the environments of the
    snapshot: whether the tenant shows the environment for the project. *)
Definition tenant_shows (tenant : Tenant) (project_id : string) (environment : Environment)
  : bool :=
  if truthy (ten_Id tenant) then
    bool_decide (env_Id environment
                 ∈ default [] (ten_ProjectEnvironments tenant !! project_id))
  else true.

(** The number of cells a release contributes to the project dashboard
    for an environment: one for each deployment listed for the
    environment, or one placeholder when the release has no entry for
    it. *)
Definition release_cell_count (environment : Environment) (release : ReleaseEntry) : nat :=
  match rel_Deployments release !! env_Id environment with
  | Some deployments => length deployments
  | None => 1
  end.

(** The number of project rows of the space dashboard: for each project
    group, the projects of [Projects] that name it as their group. *)
Definition rendered_projects (project_groups : list ProjectGroup) (projects : list Project)
  : nat :=
  list_sum (List.map (fun project_group =>
                        length (List.filter
                                  (fun p => String.eqb (proj_ProjectGroupId p)
                                                       (pg_Id project_group))
                                  projects))
                     project_groups).

(** The text of a row of the space dashboard: its cells one after the
    other, the closing pipe and a line feed. *)
Definition row_text (cells : list string) : string :=
  join "" cells +:+ "|" +:+ nl.

(** The text of a table row of text cells, the cells between pipes; no
    cell, no text. *)
Definition table_row_text (cells : list string) : string :=
  match cells with
  | [] => ""
  | _ => "| " +:+ join " | " cells +:+ " |" +:+ nl
  end.

(** A run is shown as a row at the instant [dt]: the first cell is the
    name [get_tenant] gives for the tenant of the run, or "Untenanted"
    for a run without a tenant id; the second is the icon of its state
    and how long before [dt] it was created. *)
Definition run_shown_as (parse_unknown_format_date : string -> Result Z)
  (get_date_difference_summary : Z -> string) (dt : Z) (get_tenant : string -> string)
  (run : RunbookRun) (row : string) : Prop :=
  exists name created,
    (run_TenantId run = None \/ run_TenantId run = Some "" -> name = "Untenanted")
    /\ (forall tenant_id, run_TenantId run = Some tenant_id -> tenant_id <> "" ->
                          name = get_tenant tenant_id)
    /\ parse_unknown_format_date (run_Created run) = Ok created
    /\ row = table_row_text
               [name;
                get_state_icon (run_State run) (run_HasWarningsOrErrors run) +:+ " "
                +:+ get_date_difference_summary (dt - created)%Z +:+ " ago"].

(** A creation date held by the snapshot: that of a deployment of
    [Items], of a deployment of a release or of a runbook run. *)
Definition created_text (dashboard : Dashboard) (text : string) : Prop :=
  (exists items deployment,
     Items dashboard = Some items /\ deployment ∈ items /\ dep_Created deployment = text)
  \/ (exists releases release environment deployments deployment,
        Releases dashboard = Some releases /\ release ∈ releases
        /\ rel_Deployments release !! environment = Some deployments
        /\ deployment ∈ deployments /\ dep_Created deployment = text)
  \/ (exists runbook_runs environment runs run,
        RunbookRuns dashboard = Some runbook_runs /\ (environment, runs) ∈ runbook_runs
        /\ run ∈ runs /\ run_Created run = text).

(** Two instants give the same relative-time phrase for every creation
    date of the snapshot that can be parsed. *)
Definition same_deployment_phrases (parse_unknown_format_date : string -> Result Z)
  (get_date_difference_summary : Z -> string) (dashboard : Dashboard) (now1 now2 : Z)
  : Prop :=
  forall text created,
    created_text dashboard text ->
    parse_unknown_format_date text = Ok created ->
    get_date_difference_summary (now1 - created)%Z
    = get_date_difference_summary (now2 - created)%Z.

(** Two instants give the same relative-time phrase for the creation
    instant of every workflow status. *)
Definition same_status_phrases (get_date_difference_summary : Z -> string)
  (github_actions_statuses : option (list GithubActionStatus)) (now1 now2 : Z) : Prop :=
  forall status created,
    status ∈ or_empty github_actions_statuses ->
    gas_CreatedAt status = Some created ->
    get_date_difference_summary (now1 - created)%Z
    = get_date_difference_summary (now2 - created)%Z.

(** ** Sample inputs *)

(** The lines of a text, split at line feeds. *)
Fixpoint lines (s : string) : list string :=
  match s with
  | EmptyString => [""]
  | String c s' =>
      if Ascii.eqb c (Ascii.ascii_of_nat 10) then "" :: lines s'
      else match lines s' with
           | l :: ls => String c l :: ls
           | [] => [String c ""]
           end
  end.

(** Modelled from the spec: [get_date_difference_summary] of
    [domain/date/date_difference.py] is not among the sources; the spec
    has it name the largest whole unit of a non-negative duration, with
    the unit in the plural unless the count is one, a zero duration being
    "0 seconds" and an hour "1 hour".  Durations are in seconds; days are
    the largest unit here. *)
Definition date_difference_summary (seconds : Z) : string :=
  let phrase (count : Z) (unit : string) :=
    string_of_Z count +:+ " " +:+ unit +:+ (if (count =? 1)%Z then "" else "s") in
  if (seconds <? 60)%Z then phrase seconds "second"
  else if (seconds <? 3600)%Z then phrase (seconds / 60)%Z "minute"
  else if (seconds <? 86400)%Z then phrase (seconds / 3600)%Z "hour"
  else phrase (seconds / 86400)%Z "day".

Module Sample.

(** A clock that stands still, a date parser that reads a decimal
    number of seconds, and a channel lookup that knows one channel. *)
Definition frozen (now : Z) : nat -> Z := fun _ => now.

Fixpoint parse_digits (s : string) (acc : Z) : Result Z :=
  match s with
  | EmptyString => Ok acc
  | String c s' =>
      let d := Z.of_nat (Ascii.nat_of_ascii c) in
      if ((48 <=? d) && (d <=? 57))%Z
      then parse_digits s' (10 * acc + (d - 48))%Z
      else Raise (ValueError "not a date")
  end.

Definition parse_seconds (s : string) : Result Z :=
  match s with
  | EmptyString => Raise (ValueError "no date")
  | _ => parse_digits s 0
  end.

Definition one_channel (space_id channel_id api_key url : string) : Result Channel :=
  Ok {| chan_Name := "Default" |}.

Definition no_keys : Dashboard :=
  {| ProjectGroups := None; Environments := None; Projects := None; Items := None;
     Releases := None; Tenants := None; RunbookRuns := None |}.

Definition dev : Environment := {| env_Id := "E1"; env_Name := "Dev" |}.

Definition default_group : ProjectGroup :=
  {| pg_Id := "PG1"; pg_Name := "Default"; pg_EnvironmentIds := ["E1"] |}.

Definition webapp : Project :=
  {| proj_Id := "P1"; proj_Name := "WebApp"; proj_ProjectGroupId := "PG1" |}.

(** One project group, one environment, one project, no deployment. *)
Definition space_dashboard : Dashboard :=
  {| ProjectGroups := Some [default_group];
     Environments := Some [dev];
     Projects := Some [webapp];
     Items := Some [];
     Releases := None; Tenants := None; RunbookRuns := None |}.

(** A project group without environments, in a snapshot that has
    neither the key Environments nor the key Items. *)
Definition no_environments : Dashboard :=
  {| ProjectGroups := Some [ {| pg_Id := "PG1"; pg_Name := "Default";
                                pg_EnvironmentIds := [] |} ];
     Environments := None;
     Projects := Some [webapp];
     Items := None;
     Releases := None; Tenants := None; RunbookRuns := None |}.

End Sample.

Module TenantSample.

Definition untenanted : Tenant :=
  {| ten_Id := None; ten_Name := "Untenanted"; ten_ProjectEnvironments := ∅ |}.

Definition blank_id : Tenant :=
  {| ten_Id := Some ""; ten_Name := "Blank"; ten_ProjectEnvironments := ∅ |}.

Definition deployment : Deployment :=
  {| dep_ProjectId := "P1"; dep_EnvironmentId := "E1"; dep_TenantId := None;
     dep_ReleaseId := "R1"; dep_ReleaseVersion := "1.0.0"; dep_DeploymentId := "D1";
     dep_ChannelId := "C1"; dep_Created := "3600"; dep_State := "Success";
     dep_HasWarningsOrErrors := false |}.

Definition dashboard : Dashboard :=
  {| ProjectGroups := None;
     Environments := Some [Sample.dev];
     Projects := None;
     Items := Some [deployment];
     Releases := None;
     Tenants := Some [untenanted; blank_id];
     RunbookRuns := None |}.

End TenantSample.

Module WorkflowSample.

Definition build (sha : option string) (name : string) : WorkflowRun :=
  {| wf_ReleaseId := "R1"; wf_Status := Some "completed"; wf_Conclusion := Some "success";
     wf_Name := Some name; wf_ShortSha := sha; wf_Url := Some "https://ci.example/run" |}.

(** A run without a sha, then two runs that pass the test. *)
Definition runs : list WorkflowRun :=
  [build None "Lint"; build (Some "abc1234") "Build"; build (Some "def5678") "Deploy"].

End WorkflowSample.

Module ProjectSample.

Definition release (id : string) : ReleaseEntry :=
  {| rel_Id := id; rel_Deployments := ∅ |}.

(** One environment and two releases, neither deployed to it. *)
Definition dashboard : Dashboard :=
  {| ProjectGroups := None;
     Environments := Some [Sample.dev];
     Projects := None; Items := None;
     Releases := Some [release "R1"; release "R2"];
     Tenants := None; RunbookRuns := None |}.

End ProjectSample.

Module RunbookSample.

Definition run (tenant_id : option string) (state : string) : RunbookRun :=
  {| run_TenantId := tenant_id; run_Created := "3600"; run_State := state;
     run_HasWarningsOrErrors := false |}.

(** Two environments; the tenant Tenants-1 has two runs in the first. *)
Definition runs : list (string * list RunbookRun) :=
  [ ("E1", [run (Some "Tenants-1") "Success"; run None "Failed";
            run (Some "Tenants-1") "Executing"]);
    ("E2", [run (Some "Tenants-2") "Success"; run (Some "") "Queued"]) ].

Definition dashboard : Dashboard :=
  {| ProjectGroups := None;
     Environments := Some [Sample.dev; {| env_Id := "E2"; env_Name := "Test" |}];
     Projects := None; Items := None; Releases := None; Tenants := None;
     RunbookRuns := Some runs |}.

Definition backup : Runbook := {| rb_Name := "Backup" |}.

Definition tenant_name (tenant_id : string) : string := "Tenant " +:+ tenant_id.

End RunbookSample.

Module ClockSample.

(** A workflow status of the project WebApp, created at the instant
    7200. *)
Definition statuses : list GithubActionStatus :=
  [ {| gas_ProjectId := "P1"; gas_Status := Some "completed";
       gas_Conclusion := Some "success"; gas_Name := Some "Build";
       gas_ShortSha := Some "abc1234"; gas_Url := Some "https://ci.example/run";
       gas_CreatedAt := Some 7200%Z |} ].

(** A clock whose first reading is 7200 and whose later readings are
    one second later. *)
Definition ticking (n : nat) : Z :=
  match n with
  | O => 7200%Z
  | S _ => 7201%Z
  end.

(** A clock that shows 7200 twice and the epoch from then on. *)
Definition twice (n : nat) : Z :=
  match n with
  | O | S O => 7200%Z
  | _ => 0%Z
  end.

End ClockSample.

Module TenantedSample.

Definition test : Environment := {| env_Id := "E2"; env_Name := "Test" |}.

(** A tenant that lists Test and an environment the snapshot does not
    have for the project P1. *)
Definition acme : Tenant :=
  {| ten_Id := Some "Tenants-1"; ten_Name := "Acme";
     ten_ProjectEnvironments := {[ "P1" := ["E2"; "E9"] ]} |}.

(** A tenant for which no environment is listed. *)
Definition newcomer : Tenant :=
  {| ten_Id := Some "Tenants-3"; ten_Name := "Newcomer"; ten_ProjectEnvironments := ∅ |}.

Definition later_deployment : Deployment :=
  {| dep_ProjectId := "P1"; dep_EnvironmentId := "E1"; dep_TenantId := None;
     dep_ReleaseId := "R2"; dep_ReleaseVersion := "1.0.1"; dep_DeploymentId := "D2";
     dep_ChannelId := "C1"; dep_Created := "7000"; dep_State := "Failed";
     dep_HasWarningsOrErrors := false |}.

Definition dashboard : Dashboard :=
  {| ProjectGroups := None;
     Environments := Some [Sample.dev; test];
     Projects := None;
     Items := Some [TenantSample.deployment; later_deployment];
     Releases := None;
     Tenants := Some [acme; TenantSample.untenanted];
     RunbookRuns := None |}.

End TenantedSample.

Module ReleaseSample.

(** A release deployed twice to Dev, with an empty list for Test. *)
Definition deployed : ReleaseEntry :=
  {| rel_Id := "R1";
     rel_Deployments := {[ "E1" := [TenantSample.deployment;
                                    TenantedSample.later_deployment];
                           "E2" := [] ]} |}.

Definition dashboard : Dashboard :=
  {| ProjectGroups := None;
     Environments := Some [Sample.dev; TenantedSample.test];
     Projects := None; Items := None;
     Releases := Some [deployed; ProjectSample.release "R2"];
     Tenants := None; RunbookRuns := None |}.

End ReleaseSample.

Module RepositorySample.

(** A repository entry of the project WebApp without an owner. *)
Definition ownerless : GithubRepo :=
  {| repo_ProjectId := "P1"; repo_Owner := ""; repo_Repo := "webapp" |}.

Definition three_open : CountSummary := {| cnt_ProjectId := "P1"; cnt_Count := Some 3%Z |}.

End RepositorySample.

Module EmptySample.

(** A snapshot whose only key is an empty list of project groups. *)
Definition no_groups : Dashboard :=
  {| ProjectGroups := Some []; Environments := None; Projects := None; Items := None;
     Releases := None; Tenants := None; RunbookRuns := None |}.

(** A snapshot whose only key is an empty dictionary of runs. *)
Definition no_runs : Dashboard :=
  {| ProjectGroups := None; Environments := None; Projects := None; Items := None;
     Releases := None; Tenants := None; RunbookRuns := Some [] |}.

End EmptySample.

Module QuerySample.

(** Sanitizers that return what they are given. *)
Definition keep : Sanitizers (list string) :=
  {| sanitize_space := fun _ v => Ok v;
     sanitize_projects := Ok; sanitize_runbooks := Ok; sanitize_targets := Ok;
     sanitize_tenants := Ok; sanitize_library_variable_sets := Ok;
     sanitize_environments := fun _ v => Ok v;
     sanitize_feeds := Ok; sanitize_accounts := Ok; sanitize_certificates := Ok;
     sanitize_lifecycles := Ok; sanitize_workerpools := Ok;
     sanitize_machinepolicies := Ok; sanitize_tenanttagsets := Ok;
     sanitize_projectgroups := Ok; sanitize_channels := Ok; sanitize_releases := Ok;
     sanitize_steps := Ok; sanitize_gitcredentials := Ok; sanitize_dates := Ok |}.

Definition args : Entities (list string) :=
  {| arg_space := ["Default"]; arg_projects := ["WebApp"]; arg_runbooks := [];
     arg_targets := []; arg_tenants := []; arg_library_variable_sets := [];
     arg_environments := ["Dev"]; arg_feeds := []; arg_accounts := [];
     arg_certificates := []; arg_lifecycles := []; arg_worker_pools := [];
     arg_machine_policies := []; arg_tag_sets := []; arg_project_groups := [];
     arg_channels := []; arg_releases := []; arg_steps := []; arg_variables := [];
     arg_git_credentials := []; arg_dates := [] |}.

(** A callback that answers with the keys of the body it is given. *)
Definition keys_of (query : string) (body : list (string * list string))
  (messages : list string) : Result (list string) :=
  Ok (List.map fst body).

(** A keyword of the body and one that is not. *)
Definition kwargs : list (string * list string) :=
  [ ("project_names", ["Injected"]); ("machines", ["M1"]) ].

End QuerySample.

(** * Properties *)

(** ** Results and loops *)

Section ResultLoops.

Context {A B : Type}.
Implicit Types (f g : A -> Result B) (l : list A) (k : list B).

Lemma mapM_Result_cons f x l :
  mapM f (x :: l)
  = match f x with
    | Ok y => match mapM f l with
              | Ok k => Ok (y :: k)
              | Raise e => Raise e
              end
    | Raise e => Raise e
    end.
Proof. simpl. destruct (f x); reflexivity. Qed.

(** A loop returns exactly when each of its passes returns, with the
    results in the order of the passes. *)
Lemma mapM_Ok_Forall2 f l k :
  mapM f l = Ok k <-> Forall2 (fun x y => f x = Ok y) l k.
Proof.
  revert k. induction l as [ | x l IH]; intros k.
  - simpl. split.
    + intros [= <-]. constructor.
    + intros H. inversion H. reflexivity.
  - rewrite mapM_Result_cons. split.
    + destruct (f x) as [y | e] eqn:Hx; [ | discriminate].
      destruct (mapM f l) as [k' | e] eqn:Hl; [ | discriminate].
      intros [= <-]. constructor; [exact Hx | apply IH; reflexivity].
    + intros H. inversion H as [ | ? y ? k' Hx Hl]; subst.
      rewrite Hx. apply IH in Hl. rewrite Hl. reflexivity.
Qed.

Lemma mapM_Ok_length f l k : mapM f l = Ok k -> length k = length l.
Proof. rewrite mapM_Ok_Forall2. intros H. symmetry. exact (Forall2_length _ _ _ H). Qed.

Lemma mapM_Ok_lookup f l k i x :
  mapM f l = Ok k -> l !! i = Some x -> exists y, k !! i = Some y /\ f x = Ok y.
Proof.
  rewrite mapM_Ok_Forall2. intros H Hx.
  destruct (Forall2_lookup_l _ _ _ _ _ H Hx) as (y & Hy & Hf). eauto.
Qed.

Lemma mapM_Ok_map f (h : A -> B) l :
  (forall x, x ∈ l -> f x = Ok (h x)) -> mapM f l = Ok (List.map h l).
Proof.
  intros H. apply mapM_Ok_Forall2. induction l as [ | x l IH]; simpl; constructor.
  - apply H. left.
  - apply IH. intros y Hy. apply H. right. exact Hy.
Qed.

(** The same for a loop whose results are then put together. *)
Lemma mapM_then_Ok {C} f l (h : list B -> C) (r : C) :
  (mapM f l ≫= fun k => Ok (h k)) = Ok r
  <-> exists k, Forall2 (fun x y => f x = Ok y) l k /\ r = h k.
Proof.
  split.
  - destruct (mapM f l) as [k | e] eqn:Hk; simpl; [ | discriminate].
    intros [= <-]. exists k. split; [apply mapM_Ok_Forall2; exact Hk | reflexivity].
  - intros (k & Hk & ->). apply mapM_Ok_Forall2 in Hk. rewrite Hk. reflexivity.
Qed.

End ResultLoops.

Section ClockedLoops.

Context {A B : Type}.

Lemma Clocked_bind_Ok (m : Clocked A) (f : A -> Clocked B) (n n' : nat) (b : B) :
  (m ≫= f) n = Ok (b, n') -> exists a n1, m n = Ok (a, n1) /\ f a n1 = Ok (b, n').
Proof.
  unfold mbind, Clocked_bind. destruct (m n) as [[a n1] | e]; [ | discriminate].
  intros H. exists a, n1. split; [reflexivity | exact H].
Qed.

Lemma lift_Ok (r : Result A) (n n' : nat) (a : A) :
  lift r n = Ok (a, n') -> r = Ok a /\ n' = n.
Proof. destruct r; simpl; intros [= -> ->]; split; reflexivity. Qed.

Lemma mret_Ok (a a' : A) (n n' : nat) :
  (mret a : Clocked A) n = Ok (a', n') -> a' = a /\ n' = n.
Proof. intros [= -> ->]. split; reflexivity. Qed.

End ClockedLoops.

Lemma Clocked_bind_ext {A B} (m1 m2 : Clocked A) (f1 f2 : A -> Clocked B) (n : nat) :
  m1 n = m2 n -> (forall a n', f1 a n' = f2 a n') -> (m1 ≫= f1) n = (m2 ≫= f2) n.
Proof.
  intros Hm Hf. unfold mbind, Clocked_bind. rewrite Hm.
  destruct (m2 n) as [[a n'] | e]; [apply Hf | reflexivity].
Qed.

Lemma Result_bind_ext {A B} (r1 r2 : Result A) (f1 f2 : A -> Result B) :
  r1 = r2 -> (forall a, f1 a = f2 a) -> (r1 ≫= f1) = (r2 ≫= f2).
Proof. intros -> Hf. destruct r2 as [a | e]; [apply Hf | reflexivity]. Qed.

Lemma Result_mapM_ext {A B} (f g : A -> Result B) (l : list A) :
  (forall x, f x = g x) -> mapM f l = mapM g l.
Proof.
  intros Hfg. induction l as [ | x l IH]; [reflexivity | ].
  rewrite !mapM_Result_cons, Hfg, IH. reflexivity.
Qed.

(** When a loop in the clock monad returns, each pass has returned. *)
Lemma Clocked_mapM_Ok_pass {A B} (f : A -> Clocked B) (l : list A) (n n' : nat) (k : list B) :
  mapM f l n = Ok (k, n') ->
  forall x, x ∈ l -> exists n1 y n2, f x n1 = Ok (y, n2).
Proof.
  revert n n' k. induction l as [ | x l IH]; intros n n' k H z Hz; [inversion Hz | ].
  simpl in H. apply Clocked_bind_Ok in H as (y & n1 & Hx & H).
  apply Clocked_bind_Ok in H as (k' & n2 & Hl & _).
  apply elem_of_cons in Hz as [-> | Hz]; [eauto | exact (IH _ _ _ Hl z Hz)].
Qed.

(** ** Binds and table rows *)

Lemma Result_bind_Ok {A B} (r : Result A) (f : A -> Result B) (b : B) :
  (r ≫= f) = Ok b -> exists a, r = Ok a /\ f a = Ok b.
Proof.
  destruct r as [a | e]; [ | discriminate].
  intros H. exists a. split; [reflexivity | exact H].
Qed.

(** When a loop in the clock monad returns, its passes have returned
    one after the other, each with its result. *)
Lemma Clocked_mapM_Ok_Forall2 {A B} (f : A -> Clocked B) (l : list A) (n n' : nat)
  (k : list B) :
  mapM f l n = Ok (k, n') -> Forall2 (fun x y => exists m m', f x m = Ok (y, m')) l k.
Proof.
  revert n n' k. induction l as [ | x l IH]; intros n n' k H.
  - injection H as <- _. constructor.
  - simpl in H. apply Clocked_bind_Ok in H as (y & n1 & Hx & H).
    apply Clocked_bind_Ok in H as (k' & n2 & Hl & H).
    apply mret_Ok in H as [-> _]. constructor; [eauto | exact (IH _ _ _ Hl)].
Qed.

Lemma datetime_now_bind {B} (clock : nat -> Z) (f : Z -> Clocked B) (n : nat) :
  (datetime_now clock ≫= f) n = f (clock n) (S n).
Proof. reflexivity. Qed.

Lemma join_checked_texts (sep : string) (cells : list string) :
  join_checked sep (List.map Some cells) = Ok (join sep cells).
Proof.
  unfold join_checked.
  rewrite (mapM_Ok_map _ (fun x : option string => default "" x)).
  - simpl. rewrite List.map_map. simpl. rewrite List.map_id. reflexivity.
  - intros x Hx. apply list_elem_of_fmap in Hx as (cell & -> & _). reflexivity.
Qed.

Lemma join_checked_None (sep : string) (columns : list (option string)) :
  None ∈ columns -> exists what, join_checked sep columns = Raise (TypeError what).
Proof.
  intros Hin. unfold join_checked.
  induction columns as [ | [cell | ] columns IH].
  - inversion Hin.
  - apply elem_of_cons in Hin as [[=] | Hin]. destruct (IH Hin) as [what Hwhat].
    rewrite mapM_Result_cons.
    destruct (mapM _ columns) as [strs | e]; [discriminate | ].
    injection Hwhat as ->. exists what. reflexivity.
  - eexists. rewrite mapM_Result_cons. reflexivity.
Qed.

Lemma build_markdown_table_row_texts (cells : list string) :
  build_markdown_table_row (List.map Some cells)
  = Ok (match cells with
        | [] => ""
        | _ => "| " +:+ join " | " cells +:+ " |" +:+ nl
        end).
Proof.
  destruct cells as [ | cell cells]; [reflexivity | ].
  unfold build_markdown_table_row.
  change (List.map Some (cell :: cells)) with (Some cell :: List.map Some cells).
  cbv iota. change (Some cell :: List.map Some cells) with (List.map Some (cell :: cells)).
  rewrite join_checked_texts. reflexivity.
Qed.

Lemma build_markdown_table_row_None (columns : list (option string)) :
  None ∈ columns -> exists what, build_markdown_table_row columns = Raise (TypeError what).
Proof.
  intros Hin. destruct (join_checked_None " | " columns Hin) as [what Hwhat].
  exists what. unfold build_markdown_table_row.
  destruct columns; [inversion Hin | ]. rewrite Hwhat. reflexivity.
Qed.

Lemma columns_texts (columns : list (option string)) :
  None ∉ columns -> columns = List.map Some (omap id columns).
Proof.
  intros Hnot. induction columns as [ | [cell | ] columns IH]; [reflexivity | | ].
  - simpl. f_equal. apply IH. intros Hin. apply Hnot. right. exact Hin.
  - exfalso. apply Hnot. left.
Qed.

(** A row that is built is a row of text cells. *)
Lemma build_markdown_table_row_Ok (columns : list (option string)) (row : string) :
  build_markdown_table_row columns = Ok row ->
  exists cells, columns = List.map Some cells /\ row = table_row_text cells.
Proof.
  intros Hrow. destruct (decide (None ∈ columns)) as [Hin | Hnot].
  - destruct (build_markdown_table_row_None columns Hin) as [what Hwhat]. congruence.
  - exists (omap id columns). pose proof (columns_texts columns Hnot) as Hcolumns.
    split; [exact Hcolumns | ].
    rewrite Hcolumns, build_markdown_table_row_texts in Hrow. injection Hrow as <-.
    reflexivity.
Qed.

(** ** Status icons *)

(** C6. [get_state_icon] maps Executing to the blue circle, Success with
    warnings to the yellow one and without warnings to the green one,
    Failed, TimedOut and Cancelling to the red one, Canceled to the white
    one, Queued to the purple one, and every other state to the white
    one; being a function it returns a glyph for every pair and raises
    nothing. *)
Theorem get_state_icon_mapping :
  (forall w, get_state_icon "Executing" w = "🔵")
  /\ get_state_icon "Success" true = "🟡"
  /\ get_state_icon "Success" false = "🟢"
  /\ (forall w, get_state_icon "Failed" w = "🔴")
  /\ (forall w, get_state_icon "Canceled" w = "⚪")
  /\ (forall w, get_state_icon "TimedOut" w = "🔴")
  /\ (forall w, get_state_icon "Cancelling" w = "🔴")
  /\ (forall w, get_state_icon "Queued" w = "🟣")
  /\ (forall state w,
        state ∉ ["Executing"; "Success"; "Failed"; "Canceled"; "TimedOut"; "Cancelling"; "Queued"] ->
        get_state_icon state w = "⚪").
Proof.
  repeat split; try (intros []; reflexivity); try reflexivity.
  intros state w Hnot. unfold get_state_icon.
  repeat match goal with
  | |- context [String.eqb state ?k] =>
      destruct (String.eqb_spec state k) as [-> | _];
        [ exfalso; apply Hnot; repeat constructor | ]
  end.
  reflexivity.
Qed.

Lemma get_state_icon_mapping_witness :
  get_state_icon "Paused" true = "⚪" /\ get_state_icon "" false = "⚪".
Proof.
  destruct get_state_icon_mapping as (_ & _ & _ & _ & _ & _ & _ & _ & Hdefault).
  split; apply Hdefault; intros Hin; repeat (apply elem_of_cons in Hin as [Hin | Hin]; [discriminate Hin | ]);
    inversion Hin.
Defined.

(** C7. [get_github_state_icon]: status in_progress gives the blue circle
    and queued the purple one whatever the conclusion; for any other
    status the conclusion decides: success green, failure and timed_out
    red, action_required orange, cancelled, neutral and skipped white,
    anything else white; (completed, failure) is red. *)
Theorem get_github_state_icon_mapping :
  (forall conclusion, get_github_state_icon (Some "in_progress") conclusion = "🔵")
  /\ (forall conclusion, get_github_state_icon (Some "queued") conclusion = "🟣")
  /\ (forall status, status <> Some "in_progress" -> status <> Some "queued" ->
        get_github_state_icon status (Some "success") = "🟢"
        /\ get_github_state_icon status (Some "failure") = "🔴"
        /\ get_github_state_icon status (Some "timed_out") = "🔴"
        /\ get_github_state_icon status (Some "action_required") = "🟠"
        /\ get_github_state_icon status (Some "cancelled") = "⚪"
        /\ get_github_state_icon status (Some "neutral") = "⚪"
        /\ get_github_state_icon status (Some "skipped") = "⚪"
        /\ (forall conclusion,
              conclusion ∉ [Some "success"; Some "failure"; Some "timed_out";
                            Some "action_required"] ->
              get_github_state_icon status conclusion = "⚪"))
  /\ get_github_state_icon (Some "completed") (Some "failure") = "🔴".
Proof.
  assert (Hpy : forall a k, a <> Some k -> py_eq a (Some k) = false).
  { intros [a|] k Hne; simpl; [ | reflexivity].
    destruct (String.eqb_spec a k) as [-> | _]; [congruence | reflexivity]. }
  split; [ intros c; reflexivity | ].
  split; [ intros c; reflexivity | ].
  split; [ | reflexivity ].
  intros status H1 H2. unfold get_github_state_icon.
  rewrite (Hpy _ _ H1), (Hpy _ _ H2).
  repeat split; try reflexivity.
  intros conclusion Hnot.
  assert (Hc : forall k, k ∈ ["success"; "failure"; "timed_out"; "action_required"] ->
                         py_eq conclusion (Some k) = false).
  { intros k Hk. apply Hpy. intros ->. apply Hnot.
    change (Some k ∈ Some <$> ["success"; "failure"; "timed_out"; "action_required"]).
    apply list_elem_of_fmap_2. exact Hk. }
  rewrite !Hc by (repeat constructor). simpl.
  destruct (_ || _); reflexivity.
Qed.

Lemma get_github_state_icon_mapping_witness :
  get_github_state_icon (Some "completed") (Some "stale") = "⚪"
  /\ get_github_state_icon None None = "⚪"
  /\ get_github_state_icon (Some "completed") (Some "action_required") = "🟠".
Proof.
  destruct get_github_state_icon_mapping as (_ & _ & Hconclusion & _).
  split; [ | split ].
  - apply (Hconclusion (Some "completed")); [discriminate | discriminate | ].
    intros Hin; repeat (apply elem_of_cons in Hin as [Hin | Hin]; [discriminate Hin | ]);
      inversion Hin.
  - apply (Hconclusion None); [discriminate | discriminate | ].
    intros Hin; repeat (apply elem_of_cons in Hin as [Hin | Hin]; [discriminate Hin | ]);
      inversion Hin.
  - apply (Hconclusion (Some "completed")); discriminate.
Defined.

(** ** The space dashboard of the one-project scenario *)

(** C2, as the code has it. For the dashboard with the project group
    Default over the environment Dev, the project WebApp and no
    deployment, and no enrichment collection, [get_dashboard_response]
    returns the title followed by the header row [| Default | Dev |], the
    separator [|-|-|], the body row [| WebApp | ⨂ |] and an empty line. *)
Theorem get_dashboard_response_scenario
  (clock : nat -> Z) (parse_unknown_format_date : string -> Result Z)
  (get_date_difference_summary : Z -> string)
  (octopus_url space_id space_name : string) (n : nat) :
  returned (get_dashboard_response clock parse_unknown_format_date get_date_difference_summary
              octopus_url space_id space_name Sample.space_dashboard None None None None n)
  = Ok ("# " +:+ space_name +:+ nl +:+ nl
        +:+ "| Default | Dev |" +:+ nl
        +:+ "|-|-|" +:+ nl
        +:+ "| WebApp | ⨂ |" +:+ nl
        +:+ nl).
Proof. reflexivity. Qed.

(** C2, as the claim has it, fails: the rendering of the scenario has
    neither [|--|--|] nor [| WebApp | ⨂|] among its lines. *)
Lemma get_dashboard_response_scenario_claimed_lines :
  exists out,
    returned (get_dashboard_response (Sample.frozen 0) Sample.parse_seconds
                date_difference_summary "https://octopus.example" "Spaces-1" "Default"
                Sample.space_dashboard None None None None 0) = Ok out
    /\ ("|--|--|" ∉ lines out)
    /\ ("| WebApp | ⨂|" ∉ lines out).
Proof.
  eexists. split; [ vm_compute; reflexivity | ].
  split; intros Hin; vm_compute in Hin;
    repeat (apply elem_of_cons in Hin as [Hin | Hin]; [discriminate Hin | ]); inversion Hin.
Qed.

(** ** Tenants and untenanted deployments *)

Section TenantMatch.

Variables (tenant : Tenant) (environment : Environment) (deployment : Deployment).

Lemma py_eq_None_l (x : option string) : py_eq None x = true <-> x = None.
Proof. destruct x; simpl; split; congruence. Qed.

Lemma tenant_deployment_match_spec :
  tenant_deployment_match tenant environment deployment = true
  <-> dep_EnvironmentId deployment = env_Id environment
      /\ py_eq (dep_TenantId deployment) (ten_Id tenant) = true.
Proof.
  unfold tenant_deployment_match. rewrite andb_true_iff, String.eqb_eq. reflexivity.
Qed.

End TenantMatch.

Lemma find_some_holds {A} (f : A -> bool) (l : list A) (x : A) :
  List.find f l = Some x -> x ∈ l /\ f x = true.
Proof.
  intros H. apply List.find_some in H as [Hin Hf]. split; [ | exact Hf].
  apply list_elem_of_In. exact Hin.
Qed.

(** C4. A deployment without a tenant id passes the tenant test of the
    progression exactly for the tenants without an id (in the
    deployment's environment); it is never the deployment shown for a
    tenant that has an id, and in particular not for a tenant whose id
    is the empty string. *)
Theorem untenanted_deployment_matches_untenanted_tenant
  (tenant : Tenant) (environment : Environment) (deployment : Deployment) :
  dep_TenantId deployment = None ->
  (tenant_deployment_match tenant environment deployment = true
   <-> ten_Id tenant = None /\ dep_EnvironmentId deployment = env_Id environment)
  /\ (forall items, tenant_deployment tenant environment items = Some deployment ->
                    ten_Id tenant = None)
  /\ (ten_Id tenant = Some "" ->
      tenant_deployment_match tenant environment deployment = false
      /\ forall items, tenant_deployment tenant environment items <> Some deployment).
Proof.
  intros Hnone.
  assert (Hiff : tenant_deployment_match tenant environment deployment = true
                 <-> ten_Id tenant = None /\ dep_EnvironmentId deployment = env_Id environment).
  { rewrite tenant_deployment_match_spec, Hnone, py_eq_None_l. tauto. }
  split; [exact Hiff | ].
  split.
  - intros items Hfind. apply find_some_holds in Hfind as [_ Hm].
    apply Hiff in Hm. tauto.
  - intros Hempty. split.
    + apply not_true_is_false. intros Hm. apply Hiff in Hm as [Hm _]. congruence.
    + intros items Hfind. apply find_some_holds in Hfind as [_ Hm].
      apply Hiff in Hm as [Hm _]. congruence.
Qed.

Lemma untenanted_deployment_matches_untenanted_tenant_witness :
  tenant_deployment_match TenantSample.untenanted Sample.dev TenantSample.deployment = true
  /\ tenant_deployment_match TenantSample.blank_id Sample.dev TenantSample.deployment = false.
Proof.
  split.
  - apply (untenanted_deployment_matches_untenanted_tenant
             TenantSample.untenanted Sample.dev TenantSample.deployment eq_refl).
    split; reflexivity.
  - apply (untenanted_deployment_matches_untenanted_tenant
             TenantSample.blank_id Sample.dev TenantSample.deployment eq_refl).
    reflexivity.
Defined.

(** ** Workflow runs *)

Lemma truthy_spec (x : option string) :
  truthy x = true <-> exists s, x = Some s /\ s <> "".
Proof.
  destruct x as [s|]; simpl.
  - rewrite negb_true_iff, String.eqb_neq. split.
    + intros H. exists s. split; [reflexivity | exact H].
    + intros (s' & [= <-] & H). exact H.
  - split; [discriminate | intros (s & [=] & _)].
Qed.

Lemma filter_first_match {A} (f : A -> bool) (before after : list A) (x : A) :
  Forall (fun y => f y = false) before -> f x = true ->
  List.filter f (before ++ x :: after) = x :: List.filter f after.
Proof.
  intros Hbefore Hx. induction Hbefore as [ | y before Hy _ IH]; simpl.
  - rewrite Hx. reflexivity.
  - rewrite Hy. exact IH.
Qed.

Lemma filter_no_match {A} (f : A -> bool) (l : list A) :
  Forall (fun y => f y = false) l -> List.filter f l = [].
Proof.
  induction 1 as [ | y l Hy _ IH]; simpl; [reflexivity | ].
  rewrite Hy. exact IH.
Qed.

Lemma yield_first_length {A} (l : list A) : length (yield_first l) <= 1.
Proof. destruct l; simpl; lia. Qed.



(** ** Environments of a tenant *)

Section TenantEnvironments.

Variable parse_unknown_format_date : string -> Result Z.
Variable get_date_difference_summary : Z -> string.
Variable get_channel_cached : string -> string -> string -> string -> Result Channel.

Variables (dashboard : Dashboard) (environments : list Environment).
Hypothesis Henvironments : Environments dashboard = Some environments.

Lemma get_env_name_listed (environment : string) :
  get_env_name dashboard environment
  = Ok (env_Name <$> List.find (fun e => String.eqb (env_Id e) environment) environments).
Proof.
  unfold get_env_name. rewrite Henvironments. simpl.
  destruct (List.find _ environments); reflexivity.
Qed.

Lemma known_environment_find (environment : string) :
  known_environment dashboard environment = false
  <-> List.find (fun e => String.eqb (env_Id e) environment) environments = None.
Proof.
  unfold known_environment. rewrite Henvironments.
  clear Henvironments.
  induction environments as [ | e l IH]; simpl; [tauto | ].
  destruct (String.eqb (env_Id e) environment); simpl; [ | exact IH].
  split; discriminate.
Qed.

Lemma get_tenant_environment_details_listed (environments_ids : list string) :
  get_tenant_environment_details environments_ids dashboard
  = Ok (concat (List.map (environment_detail environments) environments_ids)).
Proof.
  unfold get_tenant_environment_details.
  rewrite (mapM_Ok_map _ (environment_detail environments)); [reflexivity | ].
  intros environment _. rewrite get_env_name_listed. unfold environment_detail.
  destruct (List.find _ environments) as [e | ]; simpl; [ | reflexivity].
  destruct (negb _); reflexivity.
Qed.

Lemma detail_unknown (environment : string) :
  known_environment dashboard environment = false -> environment_detail environments environment = [].
Proof. intros H. apply known_environment_find in H. unfold environment_detail. rewrite H. reflexivity. Qed.

Lemma details_filter_known (environments_ids : list string) :
  concat (List.map (environment_detail environments) (List.filter (known_environment dashboard) environments_ids))
  = concat (List.map (environment_detail environments) environments_ids).
Proof.
  induction environments_ids as [ | environment l IH]; simpl; [reflexivity | ].
  destruct (known_environment dashboard environment) eqn:Hknown; simpl.
  - rewrite IH. reflexivity.
  - rewrite (detail_unknown _ Hknown), IH. reflexivity.
Qed.

Lemma details_all_unknown (environments_ids : list string) :
  Forall (fun environment => known_environment dashboard environment = false) environments_ids ->
  concat (List.map (environment_detail environments) environments_ids) = [].
Proof.
  induction 1 as [ | environment l Hunknown _ IH]; simpl; [reflexivity | ].
  rewrite (detail_unknown _ Hunknown), IH. reflexivity.
Qed.

Lemma details_ids (environments_ids : list string) (e : Environment) :
  e ∈ concat (List.map (environment_detail environments) environments_ids) ->
  env_Id e ∈ environments_ids /\ known_environment dashboard (env_Id e) = true.
Proof.
  induction environments_ids as [ | environment l IH]; simpl; [inversion 1 | ].
  rewrite elem_of_app. intros [Hhere | Hlater].
  - destruct (known_environment dashboard environment) eqn:Hknown.
    + unfold environment_detail in Hhere. destruct (List.find _ environments) as [e' | ]; [ | inversion Hhere].
      destruct (truthy _); [ | inversion Hhere].
      apply list_elem_of_singleton in Hhere. subst e. simpl.
      split; [left | exact Hknown].
    + rewrite (detail_unknown _ Hknown) in Hhere. inversion Hhere.
  - destruct (IH Hlater) as [Hin Hknown]. split; [right; exact Hin | exact Hknown].
Qed.

(** C10. With the environments of the snapshot at hand, an environment
    id of a tenant's list for which the snapshot has no environment is
    left out of the details the table is built from, so that the table
    of the tenant is the table of the list without such ids: it has no
    header cell and no placeholder cell for them.  When no id of the
    list is known the table is the text "No deployments". *)
Theorem unknown_tenant_environments_omitted
  (now : Z) (space_id api_key url : string)
  (release_workflow_runs : option (list WorkflowRun))
  (deployment_highlights : option (list DeploymentHighlight))
  (tenant : Tenant) (environments_ids : list string) :
  (exists details,
     get_tenant_environment_details environments_ids dashboard = Ok details
     /\ forall environment,
          known_environment dashboard environment = false ->
          environment ∉ List.map env_Id details)
  /\ tenant_table parse_unknown_format_date get_date_difference_summary get_channel_cached
       now space_id api_key url dashboard release_workflow_runs deployment_highlights
       tenant environments_ids
     = tenant_table parse_unknown_format_date get_date_difference_summary get_channel_cached
         now space_id api_key url dashboard release_workflow_runs deployment_highlights
         tenant (List.filter (known_environment dashboard) environments_ids)
  /\ (Forall (fun environment => known_environment dashboard environment = false)
             environments_ids ->
      tenant_table parse_unknown_format_date get_date_difference_summary get_channel_cached
        now space_id api_key url dashboard release_workflow_runs deployment_highlights
        tenant environments_ids
      = Ok (nl +:+ "No deployments" +:+ nl +:+ nl)).
Proof.
  split; [ | split ].
  - eexists. split; [apply get_tenant_environment_details_listed | ].
    intros environment Hunknown Hin.
    apply list_elem_of_fmap in Hin as (e & -> & He).
    apply details_ids in He as [_ Hknown]. congruence.
  - unfold tenant_table.
    rewrite !get_tenant_environment_details_listed, details_filter_known. reflexivity.
  - intros Hunknown. unfold tenant_table.
    rewrite get_tenant_environment_details_listed, (details_all_unknown _ Hunknown).
    reflexivity.
Qed.

End TenantEnvironments.

Lemma unknown_tenant_environments_omitted_witness :
  tenant_table Sample.parse_seconds date_difference_summary Sample.one_channel
    7200 "Spaces-1" "API-KEY" "https://octopus.example" TenantSample.dashboard None None
    TenantSample.untenanted ["E9"]
  = Ok (nl +:+ "No deployments" +:+ nl +:+ nl).
Proof.
  apply (unknown_tenant_environments_omitted Sample.parse_seconds date_difference_summary
           Sample.one_channel TenantSample.dashboard [Sample.dev] eq_refl).
  repeat constructor.
Defined.

(** ** Cells and columns *)

Section Cells.

Variable clock : nat -> Z.
Variable parse_unknown_format_date : string -> Result Z.
Variable get_date_difference_summary : Z -> string.
Variable get_channel_cached : string -> string -> string -> string -> Result Channel.

Lemma get_project_workflow_status_returns statuses project_id n :
  exists lines, get_project_workflow_status clock get_date_difference_summary
                  statuses project_id n = Ok (lines, S n).
Proof.
  unfold get_project_workflow_status, datetime_now, mbind, Clocked_bind.
  destruct (nonempty statuses); [ | eexists; reflexivity].
  destruct (List.find _ _) as [status | ]; [ | eexists; reflexivity].
  destruct (gas_CreatedAt status); eexists; reflexivity.
Qed.

Lemma github_cell_length github_actions github_actions_status pull_requests issues project
  n cells n' :
  github_cell clock get_date_difference_summary github_actions github_actions_status
    pull_requests issues project n = Ok (cells, n') ->
  length cells = github_columns github_actions_status.
Proof.
  unfold github_cell, github_columns.
  destruct (nonempty github_actions_status).
  - intros H. apply Clocked_bind_Ok in H as (workflow & n1 & _ & H).
    destruct (_ ++ _ ++ _ ++ _); apply mret_Ok in H as [-> _]; reflexivity.
  - intros H. apply mret_Ok in H as [-> _]. reflexivity.
Qed.

Lemma project_group_columns_length dashboard github_actions_status project_group columns :
  project_group_columns dashboard github_actions_status project_group = Ok columns ->
  length columns
  = 1 + github_columns github_actions_status + length (pg_EnvironmentIds project_group).
Proof.
  unfold project_group_columns, github_columns.
  destruct (mapM _ _) as [names | e] eqn:Hnames; simpl; [ | discriminate].
  intros [= <-]. apply mapM_Ok_length in Hnames. simpl.
  rewrite length_app, Hnames. destruct (nonempty github_actions_status); reflexivity.
Qed.

Lemma environment_cell_placeholder now octopus_url space_id dashboard project environment items :
  Items dashboard = Some items ->
  project_environment_deployments project environment items = [] ->
  environment_cell parse_unknown_format_date get_date_difference_summary now octopus_url
    space_id dashboard project environment = Ok "| ⨂ ".
Proof.
  intros Hitems Hnone. unfold environment_cell. rewrite Hitems. simpl.
  rewrite Hnone. reflexivity.
Qed.

Lemma tenant_column_placeholder now space_id api_key url dashboard runs highlights
  tenant environment items :
  Items dashboard = Some items ->
  tenant_deployment tenant environment items = None ->
  tenant_column parse_unknown_format_date get_date_difference_summary get_channel_cached
    now space_id api_key url dashboard runs highlights tenant environment = Ok "⨂".
Proof.
  intros Hitems Hnone. unfold tenant_column. rewrite Hitems. simpl.
  rewrite Hnone. reflexivity.
Qed.

Lemma cells_match_columns :
  (forall now octopus_url space_id dashboard github_actions github_actions_status
          pull_requests issues project_group project n columns cells n',
     project_group_columns dashboard github_actions_status project_group = Ok columns ->
     project_row_cells clock parse_unknown_format_date get_date_difference_summary
       now octopus_url space_id dashboard github_actions github_actions_status
       pull_requests issues project_group project n = Ok (cells, n') ->
     length cells = length columns
     /\ forall i environment items,
          pg_EnvironmentIds project_group !! i = Some environment ->
          Items dashboard = Some items ->
          project_environment_deployments project environment items = [] ->
          cells !! (1 + github_columns github_actions_status + i) = Some "| ⨂ ")
  /\ (forall now space_id api_key url dashboard release_workflow_runs deployment_highlights
             tenant environments columns,
        tenant_columns parse_unknown_format_date get_date_difference_summary
          get_channel_cached now space_id api_key url dashboard release_workflow_runs
          deployment_highlights tenant environments = Ok columns ->
        length columns = length environments
        /\ forall i environment items,
             environments !! i = Some environment ->
             Items dashboard = Some items ->
             tenant_deployment tenant environment items = None ->
             columns !! i = Some "⨂").
Proof.
  split.
  - intros now octopus_url space_id dashboard github_actions github_actions_status
      pull_requests issues project_group project n columns cells n' Hcolumns Hcells.
    apply project_group_columns_length in Hcolumns.
    unfold project_row_cells in Hcells.
    apply Clocked_bind_Ok in Hcells as (github & n1 & Hgithub & Hcells).
    apply Clocked_bind_Ok in Hcells as (cells_env & n2 & Henv & Hcells).
    apply mret_Ok in Hcells as [-> _].
    apply lift_Ok in Henv as [Henv _].
    apply github_cell_length in Hgithub.
    split.
    + rewrite Hcolumns. simpl. rewrite length_app, Hgithub, (mapM_Ok_length _ _ _ Henv).
      reflexivity.
    + intros i environment items Hi Hitems Hnone.
      destruct (mapM_Ok_lookup _ _ _ _ _ Henv Hi) as (cell & Hcell & Hrender).
      rewrite (environment_cell_placeholder _ _ _ _ _ _ _ Hitems Hnone) in Hrender.
      injection Hrender as <-.
      change (1 + github_columns github_actions_status + i)
        with (S (github_columns github_actions_status + i)).
      simpl. rewrite <- Hgithub, lookup_app_r by lia.
      replace (length github + i - length github) with i by lia. exact Hcell.
  - intros now space_id api_key url dashboard release_workflow_runs deployment_highlights
      tenant environments columns Hcolumns.
    unfold tenant_columns in Hcolumns. split.
    + exact (mapM_Ok_length _ _ _ Hcolumns).
    + intros i environment items Hi Hitems Hnone.
      destruct (mapM_Ok_lookup _ _ _ _ _ Hcolumns Hi) as (cell & Hcell & Hrender).
      rewrite (tenant_column_placeholder _ _ _ _ _ _ _ _ _ _ Hitems Hnone) in Hrender.
      injection Hrender as <-. exact Hcell.
Qed.

(** Every cell of a row of the space dashboard opens with a pipe. *)
Lemma project_row_cells_open now octopus_url space_id dashboard github_actions
  github_actions_status pull_requests issues project_group project n cells n' :
  project_row_cells clock parse_unknown_format_date get_date_difference_summary
    now octopus_url space_id dashboard github_actions github_actions_status
    pull_requests issues project_group project n = Ok (cells, n') ->
  Forall (fun cell => exists content, cell = "| " +:+ content) cells.
Proof.
  unfold project_row_cells. intros Hcells.
  apply Clocked_bind_Ok in Hcells as (github & n1 & Hgithub & Hcells).
  apply Clocked_bind_Ok in Hcells as (cells_env & n2 & Henv & Hcells).
  apply mret_Ok in Hcells as [-> _].
  apply lift_Ok in Henv as [Henv _].
  constructor; [eexists; reflexivity | ]. apply Forall_app. split.
  - unfold github_cell in Hgithub.
    destruct (nonempty github_actions_status).
    + apply Clocked_bind_Ok in Hgithub as (workflow & n3 & _ & Hgithub).
      destruct (_ ++ _ ++ _ ++ _); apply mret_Ok in Hgithub as [-> _];
        repeat constructor; eexists; reflexivity.
    + apply mret_Ok in Hgithub as [-> _]. constructor.
  - apply mapM_Ok_Forall2 in Henv. eapply Forall2_Forall_r; [exact Henv | ].
    apply Forall_forall. intros environment _ cell. unfold environment_cell.
    destruct (Items dashboard) as [items | ]; simpl; [ | discriminate].
    destruct (project_environment_deployments project environment items)
      as [ | deployment rest].
    + intros [= <-]. eexists. reflexivity.
    + intros Hcell. apply Result_bind_Ok in Hcell as (messages & _ & [= <-]).
      eexists. reflexivity.
Qed.

Lemma Forall2_exists_map {A B C} (g : C -> B) (P : A -> C -> Prop) (l : list A)
  (k : list B) :
  Forall2 (fun x y => exists z, y = g z /\ P x z) l k ->
  exists zs, k = List.map g zs /\ Forall2 P l zs.
Proof.
  induction 1 as [ | x y l k (z & -> & Hz) _ (zs & -> & IH)].
  - exists []. split; [reflexivity | constructor].
  - exists (z :: zs). split; [reflexivity | constructor; assumption].
Qed.


End Cells.



(** ** Absent keys *)

Section AbsentKeys.

Variable clock : nat -> Z.
Variable parse_unknown_format_date : string -> Result Z.
Variable get_date_difference_summary : Z -> string.
Variable get_channel_cached : string -> string -> string -> string -> Result Channel.

Lemma project_message_returns project_id github_repo statuses pull_requests issues n :
  exists message,
    project_message clock get_date_difference_summary project_id github_repo statuses
      pull_requests issues n = Ok (message, S n).
Proof.
  unfold project_message, mbind, Clocked_bind.
  destruct (get_project_workflow_status_returns clock get_date_difference_summary
              statuses project_id n) as [workflow ->].
  eexists. reflexivity.
Qed.

Lemma project_group_columns_without_environments dashboard github_actions_status project_group :
  Environments dashboard = None ->
  pg_EnvironmentIds project_group <> [] ->
  project_group_columns dashboard github_actions_status project_group
  = Raise (KeyError "Environments").
Proof.
  intros Hnone Hids. unfold project_group_columns.
  destruct (pg_EnvironmentIds project_group) as [ | environment ids]; [congruence | ].
  rewrite mapM_Result_cons. unfold get_env_name. rewrite Hnone. reflexivity.
Qed.


End AbsentKeys.



(** ** Runbook runs *)

Section Distinct.

Implicit Types (l acc : list string) (x : string).

Lemma filter_filter_and {A} (f g : A -> bool) (items : list A) :
  List.filter f (List.filter g items) = List.filter (fun a => g a && f a) items.
Proof.
  induction items as [ | a items IH]; simpl; [reflexivity | ].
  destruct (g a); simpl; [ | exact IH].
  destruct (f a); rewrite IH; reflexivity.
Qed.

Lemma distinct_elem_of l x : x ∈ distinct l <-> x ∈ l.
Proof.
  induction l as [ | y l IH]; simpl; [reflexivity | ].
  rewrite !elem_of_cons, list_elem_of_In, List.filter_In, <- list_elem_of_In, IH.
  rewrite negb_true_iff, String.eqb_neq.
  destruct (String.eqb_spec x y) as [-> | Hne]; [tauto | ]. tauto.
Qed.

Lemma distinct_NoDup l : NoDup (distinct l).
Proof.
  induction l as [ | y l IH]; simpl; constructor.
  - rewrite list_elem_of_In, List.filter_In, negb_true_iff, String.eqb_neq. tauto.
  - apply NoDup_ListNoDup, List.NoDup_filter, NoDup_ListNoDup, IH.
Qed.

Lemma foldl_add_tenant acc (runs : list RunbookRun) :
  foldl add_tenant acc runs
  = acc ++ List.filter (fresh acc) (distinct (List.map run_tenant runs)).
Proof.
  revert acc. induction runs as [ | run runs IH]; intros acc; simpl.
  - rewrite app_nil_r. reflexivity.
  - rewrite IH. unfold add_tenant, fresh at 2.
    destruct (bool_decide_reflect (run_tenant run ∈ acc)) as [Hin | Hnotin]; simpl.
    + f_equal. rewrite filter_filter_and. apply List.filter_ext. intros y.
      destruct (String.eqb_spec y (run_tenant run)) as [-> | _]; simpl; [ | reflexivity].
      unfold fresh. rewrite bool_decide_eq_true_2 by exact Hin. reflexivity.
    + rewrite <- app_assoc. simpl. do 2 f_equal.
      rewrite filter_filter_and. apply List.filter_ext. intros y. unfold fresh.
      destruct (String.eqb_spec y (run_tenant run)) as [-> | Hne]; simpl.
      * rewrite bool_decide_eq_true_2; [reflexivity | ]. apply elem_of_app. right. left.
      * destruct (bool_decide_reflect (y ∈ acc)) as [Hy | Hy].
        -- rewrite bool_decide_eq_true_2; [reflexivity | ]. apply elem_of_app. left. exact Hy.
        -- rewrite bool_decide_eq_false_2; [reflexivity | ].
           rewrite elem_of_app, list_elem_of_singleton. tauto.
Qed.

Lemma foldl_add_tenant_nil (runs : list RunbookRun) :
  foldl add_tenant [] runs = distinct (List.map run_tenant runs).
Proof.
  rewrite foldl_add_tenant. simpl.
  induction (distinct _) as [ | x l IH]; [reflexivity | ].
  change (List.filter (fresh []) (x :: l)) with (x :: List.filter (fresh []) l).
  f_equal. exact IH.
Qed.

End Distinct.

Lemma list_elem_of_concat {A} (x : A) (ls : list (list A)) :
  x ∈ concat ls <-> exists l, x ∈ l /\ l ∈ ls.
Proof.
  rewrite list_elem_of_In, List.in_concat. split.
  - intros (l & Hl & Hx). exists l. rewrite !list_elem_of_In. tauto.
  - intros (l & Hx & Hl). exists l. rewrite <- !list_elem_of_In. tauto.
Qed.

Section Dictionary.

Context {V : Type}.
Implicit Types (d : list (string * V)).

Lemma dict_get_elem_of d key v :
  NoDup (List.map fst d) -> (key, v) ∈ d -> dict_get d key = Ok v.
Proof.
  induction d as [ | [k w] d IH]; simpl; intros Hnodup Hin; [inversion Hin | ].
  apply NoDup_cons in Hnodup as [Hk Hnodup].
  apply elem_of_cons in Hin as [[= -> ->] | Hin].
  - rewrite String.eqb_refl. reflexivity.
  - destruct (String.eqb_spec k key) as [-> | _]; [ | exact (IH Hnodup Hin)].
    exfalso. apply Hk. change key with (fst (key, v)).
    apply (list_elem_of_fmap_2 fst). exact Hin.
Qed.

End Dictionary.

Section RunbookDashboard.

Variable clock : nat -> Z.
Variable parse_unknown_format_date : string -> Result Z.
Variable get_date_difference_summary : Z -> string.

Variables (dashboard : Dashboard) (runbook_runs : list (string * list RunbookRun)).
Hypothesis Hruns : RunbookRuns dashboard = Some runbook_runs.
Hypothesis Hkeys : NoDup (List.map fst runbook_runs).

Lemma get_tenants_fold (rest : list (string * list RunbookRun)) (acc : list string) :
  (forall key runs, (key, runs) ∈ rest -> dict_get runbook_runs key = Ok runs) ->
  foldl (fun acc environment =>
           tenants ← acc;
           runs ← dict_get runbook_runs environment;
           Ok (foldl add_tenant tenants runs))
        (Ok acc) (List.map fst rest)
  = Ok (foldl add_tenant acc (concat (List.map snd rest))).
Proof.
  revert acc. induction rest as [ | [key runs] rest IH]; intros acc Hget; simpl.
  - reflexivity.
  - rewrite (Hget key runs) by left. simpl.
    rewrite foldl_app. apply IH. intros k v Hin. apply Hget. right. exact Hin.
Qed.

Lemma get_tenants_distinct :
  get_tenants dashboard
  = Ok (distinct (List.map run_tenant (concat (List.map snd runbook_runs)))).
Proof.
  unfold get_tenants. rewrite Hruns. simpl.
  rewrite get_tenants_fold, foldl_add_tenant_nil; [reflexivity | ].
  intros key runs Hin. apply dict_get_elem_of; assumption.
Qed.

Lemma run_tenant_spec (run : RunbookRun) :
  (run_TenantId run = None \/ run_TenantId run = Some "" -> run_tenant run = "Untenanted")
  /\ (forall tenant_id, run_TenantId run = Some tenant_id -> tenant_id <> "" ->
                        run_tenant run = tenant_id).
Proof.
  unfold run_tenant. split.
  - intros [-> | ->]; reflexivity.
  - intros tenant_id -> Hne. simpl.
    destruct (String.eqb_spec tenant_id "") as [-> | _]; [congruence | reflexivity].
Qed.

Lemma run_matches_spec (tenant : string) (run : RunbookRun) :
  run_matches tenant run = true
  <-> run_TenantId run = Some tenant
      \/ ((run_TenantId run = None \/ run_TenantId run = Some "") /\ tenant = "Untenanted").
Proof.
  unfold run_matches. rewrite orb_true_iff, andb_true_iff, negb_true_iff, String.eqb_eq.
  destruct (run_TenantId run) as [tenant_id | ]; simpl.
  - rewrite String.eqb_eq, negb_false_iff, String.eqb_eq. split.
    + intros [-> | [-> ->]]; [left; reflexivity | right; tauto].
    + intros [[= ->] | [[[=] | [= ->]] ->]]; tauto.
  - split.
    + intros [[=] | [_ ->]]. right. tauto.
    + intros [[=] | [_ ->]]. tauto.
Qed.

Lemma runbook_rows_Forall2 (dt : Z) (get_tenant : string -> string)
  (tenant environment : string) (runs : list RunbookRun) (rows : list string) :
  (environment, runs) ∈ runbook_runs ->
  runbook_rows parse_unknown_format_date get_date_difference_summary dt get_tenant
    runbook_runs tenant environment = Ok rows
  <-> Forall2 (fun run row =>
                 runbook_row parse_unknown_format_date get_date_difference_summary
                   dt get_tenant run = Ok row)
              (List.filter (run_matches tenant) runs) rows.
Proof.
  intros Hin. unfold runbook_rows.
  rewrite (dict_get_elem_of _ _ _ Hkeys Hin). simpl. apply mapM_Ok_Forall2.
Qed.

Lemma runbook_body_Forall2 (dt : Z) (get_tenant : string -> string)
  (tenants environment_ids : list string) (rows : list string) :
  runbook_body parse_unknown_format_date get_date_difference_summary dt get_tenant
    dashboard tenants environment_ids = Ok rows
  <-> exists per_tenant,
        Forall2 (fun tenant rows_of_tenant =>
                   exists per_environment,
                     Forall2 (fun environment rows_of_environment =>
                                runbook_rows parse_unknown_format_date
                                  get_date_difference_summary dt get_tenant runbook_runs
                                  tenant environment = Ok rows_of_environment)
                             environment_ids per_environment
                     /\ rows_of_tenant = concat per_environment)
                tenants per_tenant
        /\ rows = concat per_tenant.
Proof.
  unfold runbook_body.
  split.
  - intros Hbody. apply mapM_then_Ok in Hbody as (per_tenant & Hper & ->).
    exists per_tenant. split; [ | reflexivity].
    eapply Forall2_impl; [exact Hper | ]. cbv beta.
    intros tenant rows_of_tenant Htenant.
    apply mapM_then_Ok in Htenant as (per_environment & Hper_env & ->).
    exists per_environment. split; [ | reflexivity].
    eapply Forall2_impl; [exact Hper_env | ]. cbv beta.
    intros environment rows_of_environment. rewrite Hruns. exact id.
  - intros (per_tenant & Hper & ->).
    apply mapM_then_Ok. exists per_tenant. split; [ | reflexivity].
    eapply Forall2_impl; [exact Hper | ]. cbv beta.
    intros tenant rows_of_tenant (per_environment & Hper_env & ->).
    apply mapM_then_Ok. exists per_environment. split; [ | reflexivity].
    eapply Forall2_impl; [exact Hper_env | ]. cbv beta.
    intros environment rows_of_environment. rewrite Hruns. exact id.
Qed.

Lemma runbook_row_shown (dt : Z) (get_tenant : string -> string) (run : RunbookRun)
  (row : string) :
  runbook_row parse_unknown_format_date get_date_difference_summary dt get_tenant run
  = Ok row
  <-> run_shown_as parse_unknown_format_date get_date_difference_summary dt get_tenant
        run row.
Proof.
  unfold runbook_row, build_runbook_run_columns, run_shown_as. split.
  - destruct (parse_unknown_format_date (run_Created run)) as [created | e];
      [ | discriminate].
    intros Hrow. eexists _, created.
    split; [ | split; [ | split; [reflexivity | ] ] ]; cycle 2.
    + injection Hrow as <-. reflexivity.
    + intros [-> | ->]; reflexivity.
    + intros tenant_id -> Hne. simpl.
      destruct (String.eqb_spec tenant_id "") as [-> | _]; [congruence | reflexivity].
  - intros (name & created & Hnone & Hsome & -> & ->).
    assert (Hname : match run_TenantId run with
                    | Some tenant_id =>
                        if truthy (Some tenant_id) then get_tenant tenant_id
                        else "Untenanted"
                    | None => "Untenanted"
                    end = name).
    { destruct (run_TenantId run) as [tenant_id | ]; [ | symmetry; auto]. simpl.
      destruct (String.eqb_spec tenant_id "") as [-> | Hne]; simpl; symmetry; auto. }
    rewrite Hname. reflexivity.
Qed.

Lemma Forall2_impl_elem {A B} (P Q : A -> B -> Prop) (l : list A) (k : list B) :
  Forall2 P l k -> (forall x y, x ∈ l -> P x y -> Q x y) -> Forall2 Q l k.
Proof.
  induction 1 as [ | x y l k Hxy _ IH]; intros Himpl; constructor.
  - apply Himpl; [left | exact Hxy].
  - apply IH. intros x' y' Hin. apply Himpl. right. exact Hin.
Qed.

(** C8. The tenants of the runbook dashboard are the distinct tenant
    identifiers of the runs of all environments, a run without a tenant
    id counting as "Untenanted", in the order in which they are first
    seen.  The header is the row of an empty cell and the names of the
    environments; the body has, tenant by tenant in that order and
    environment by environment in the order of the keys of RunbookRuns,
    one row for each run of the environment that matches the tenant, in
    the order of the runs: a tenant and an environment with k matching
    runs give k rows, each the line of the name of the tenant of the
    run and of the icon and the age of the run. *)
Theorem runbook_dashboard_tenants_and_rows :
  get_tenants dashboard
  = Ok (distinct (List.map run_tenant (concat (List.map snd runbook_runs))))
  /\ NoDup (distinct (List.map run_tenant (concat (List.map snd runbook_runs))))
  /\ (forall tenant,
        tenant ∈ distinct (List.map run_tenant (concat (List.map snd runbook_runs)))
        <-> exists environment runs run,
              (environment, runs) ∈ runbook_runs /\ run ∈ runs /\ run_tenant run = tenant)
  /\ (forall run,
        (run_TenantId run = None \/ run_TenantId run = Some "" ->
         run_tenant run = "Untenanted")
        /\ (forall tenant_id, run_TenantId run = Some tenant_id -> tenant_id <> "" ->
                              run_tenant run = tenant_id))
  /\ (forall tenant run,
        run_matches tenant run = true
        <-> run_TenantId run = Some tenant
            \/ ((run_TenantId run = None \/ run_TenantId run = Some "")
                /\ tenant = "Untenanted"))
  /\ (forall dt get_tenant run row,
        runbook_row parse_unknown_format_date get_date_difference_summary dt get_tenant run
        = Ok row
        <-> run_shown_as parse_unknown_format_date get_date_difference_summary dt
              get_tenant run row)
  /\ (forall dt get_tenant tenant environment runs rows,
        (environment, runs) ∈ runbook_runs ->
        (runbook_rows parse_unknown_format_date get_date_difference_summary dt get_tenant
           runbook_runs tenant environment = Ok rows
         <-> Forall2 (run_shown_as parse_unknown_format_date get_date_difference_summary
                        dt get_tenant)
                     (List.filter (run_matches tenant) runs) rows)
        /\ (runbook_rows parse_unknown_format_date get_date_difference_summary dt
              get_tenant runbook_runs tenant environment = Ok rows ->
            length rows = length (List.filter (run_matches tenant) runs)))
  /\ (forall project runbook get_tenant n out n',
        get_runbook_dashboard_response clock parse_unknown_format_date
          get_date_difference_summary project runbook dashboard get_tenant n
        = Ok (out, n') ->
        exists names per_tenant,
          Forall2 (fun environment name =>
                     get_env_name dashboard environment = Ok (Some name))
                  (List.map fst runbook_runs) names
          /\ Forall2 (fun tenant rows_of_tenant =>
                        exists per_environment,
                          Forall2 (fun environment_runs rows_of_environment =>
                                     Forall2 (run_shown_as parse_unknown_format_date
                                                get_date_difference_summary (clock n)
                                                get_tenant)
                                             (List.filter (run_matches tenant)
                                                          (snd environment_runs))
                                             rows_of_environment)
                                  runbook_runs per_environment
                          /\ rows_of_tenant = concat per_environment)
                     (distinct (List.map run_tenant (concat (List.map snd runbook_runs))))
                     per_tenant
          /\ out = proj_Name project +:+ " / " +:+ rb_Name runbook +:+ nl +:+ nl
                   +:+ table_row_text ("" :: names)
                   +:+ build_markdown_table_header_separator (1 + length runbook_runs)
                   +:+ join "" (concat per_tenant)).
Proof.
  assert (Hrows_shown : forall dt get_tenant tenant environment runs rows,
             (environment, runs) ∈ runbook_runs ->
             runbook_rows parse_unknown_format_date get_date_difference_summary dt
               get_tenant runbook_runs tenant environment = Ok rows
             <-> Forall2 (run_shown_as parse_unknown_format_date
                            get_date_difference_summary dt get_tenant)
                         (List.filter (run_matches tenant) runs) rows).
  { intros dt get_tenant tenant environment runs rows Hin.
    rewrite (runbook_rows_Forall2 dt get_tenant tenant environment runs rows Hin).
    split; intros Hrows; (eapply Forall2_impl; [exact Hrows | ]);
      intros run row; apply runbook_row_shown. }
  split; [exact get_tenants_distinct | ].
  split; [apply distinct_NoDup | ].
  split.
  { intros tenant. rewrite distinct_elem_of, list_elem_of_fmap. split.
    - intros (run & -> & Hrun). apply list_elem_of_concat in Hrun as (runs & Hrun & Hin).
      apply list_elem_of_fmap in Hin as ([environment runs'] & -> & Hin).
      exists environment, runs', run. auto.
    - intros (environment & runs & run & Hin & Hrun & <-).
      exists run. split; [reflexivity | ].
      apply list_elem_of_concat. exists runs. split; [exact Hrun | ].
      apply list_elem_of_fmap. exists (environment, runs). auto. }
  split; [exact run_tenant_spec | ].
  split; [exact run_matches_spec | ].
  split; [exact runbook_row_shown | ].
  split.
  - intros dt get_tenant tenant environment runs rows Hin.
    pose proof (Hrows_shown dt get_tenant tenant environment runs rows Hin) as Hiff.
    split; [exact Hiff | ].
    intros Hrows. apply Hiff in Hrows. symmetry. exact (Forall2_length _ _ _ Hrows).
  - intros project runbook get_tenant n out n' Hcall.
    unfold get_runbook_dashboard_response in Hcall.
    apply Clocked_bind_Ok in Hcall as (dt & n1 & Hnow & Hcall).
    injection Hnow as <- <-.
    apply Clocked_bind_Ok in Hcall as (tenants & n2 & Htenants & Hcall).
    apply lift_Ok in Htenants as [Htenants _].
    rewrite get_tenants_distinct in Htenants. injection Htenants as <-.
    apply Clocked_bind_Ok in Hcall as (runs & n3 & Hsub & Hcall).
    apply lift_Ok in Hsub as [Hsub _]. rewrite Hruns in Hsub. injection Hsub as <-.
    apply Clocked_bind_Ok in Hcall as (names & n4 & Hnames & Hcall).
    apply lift_Ok in Hnames as [Hnames _].
    apply Clocked_bind_Ok in Hcall as (header & n5 & Hheader & Hcall).
    apply lift_Ok in Hheader as [Hheader _].
    apply build_markdown_table_row_Ok in Hheader as (cells & Hcells & ->).
    destruct cells as [ | first texts]; [discriminate | ].
    injection Hcells as <- ->.
    apply Clocked_bind_Ok in Hcall as (rows & n6 & Hrows & Hcall).
    apply lift_Ok in Hrows as [Hrows _].
    apply mret_Ok in Hcall as [-> _].
    apply runbook_body_Forall2 in Hrows as (per_tenant & Hper & ->).
    exists texts, per_tenant.
    split; [ | split].
    + apply mapM_Ok_Forall2 in Hnames. apply Forall2_fmap_r in Hnames. exact Hnames.
    + eapply Forall2_impl; [exact Hper | ]. cbv beta.
      intros tenant rows_of_tenant (per_environment & Hper_env & ->).
      exists per_environment. split; [ | reflexivity].
      apply Forall2_fmap_l in Hper_env.
      eapply Forall2_impl_elem; [exact Hper_env | ]. cbv beta.
      intros [environment runs] rows_of_environment Hin Hrows.
      exact (proj1 (Hrows_shown _ _ _ _ _ _ Hin) Hrows).
    + apply mapM_Ok_length in Hnames. rewrite !length_map in Hnames.
      simpl length. rewrite length_map, Hnames. reflexivity.
Qed.

End RunbookDashboard.

Lemma runbook_dashboard_tenants_and_rows_witness :
  get_tenants RunbookSample.dashboard = Ok ["Tenants-1"; "Untenanted"; "Tenants-2"]
  /\ (forall rows,
        runbook_rows Sample.parse_seconds date_difference_summary 7200
          RunbookSample.tenant_name RunbookSample.runs "Tenants-1" "E1" = Ok rows ->
        Forall2 (run_shown_as Sample.parse_seconds date_difference_summary 7200
                   RunbookSample.tenant_name)
                [RunbookSample.run (Some "Tenants-1") "Success";
                 RunbookSample.run (Some "Tenants-1") "Executing"] rows)
  /\ runbook_row Sample.parse_seconds date_difference_summary 7200
       RunbookSample.tenant_name (RunbookSample.run (Some "Tenants-1") "Success")
     = Ok ("| Tenant Tenants-1 | 🟢 1 hour ago |" +:+ nl).
Proof.
  assert (Hkeys : NoDup (List.map fst RunbookSample.runs)).
  { apply (bool_decide_unpack _). vm_compute. exact I. }
  destruct (runbook_dashboard_tenants_and_rows (Sample.frozen 7200) Sample.parse_seconds
              date_difference_summary RunbookSample.dashboard RunbookSample.runs
              eq_refl Hkeys) as (Htenants & _ & _ & _ & _ & Hrow & Hrows & _).
  split; [exact Htenants | ].
  split.
  - intros rows Hcall.
    destruct (Hrows 7200%Z RunbookSample.tenant_name "Tenants-1" "E1"
                [RunbookSample.run (Some "Tenants-1") "Success";
                 RunbookSample.run None "Failed";
                 RunbookSample.run (Some "Tenants-1") "Executing"] rows) as [Hshown _].
    + left.
    + exact (proj1 Hshown Hcall).
  - apply Hrow. exists "Tenant Tenants-1", 3600%Z.
    split; [intros [H | H]; discriminate H | ].
    split; [intros tenant_id [= <-] _; reflexivity | ].
    split; vm_compute; reflexivity.
Defined.

(** ** The clock *)

Lemma Clocked_bind_ext_Ok {A B} (m1 m2 : Clocked A) (f1 f2 : A -> Clocked B) (n : nat) :
  m1 n = m2 n -> (forall a n', m2 n = Ok (a, n') -> f1 a n' = f2 a n') ->
  (m1 ≫= f1) n = (m2 ≫= f2) n.
Proof.
  intros Hm Hf. unfold mbind, Clocked_bind. rewrite Hm.
  destruct (m2 n) as [[a n'] | e]; [apply Hf; reflexivity | reflexivity].
Qed.

Lemma Result_bind_ext_Ok {A B} (r1 r2 : Result A) (f1 f2 : A -> Result B) :
  r1 = r2 -> (forall a, r2 = Ok a -> f1 a = f2 a) -> (r1 ≫= f1) = (r2 ≫= f2).
Proof. intros -> Hf. destruct r2 as [a | e]; [apply Hf; reflexivity | reflexivity]. Qed.

Lemma Result_mapM_ext_elem {A B} (f g : A -> Result B) (l : list A) :
  (forall x, x ∈ l -> f x = g x) -> mapM f l = mapM g l.
Proof.
  induction l as [ | x l IH]; intros Hfg; [reflexivity | ].
  rewrite !mapM_Result_cons, (Hfg x) by left.
  rewrite IH; [reflexivity | ]. intros y Hy. apply Hfg. right. exact Hy.
Qed.

(** The counter after a loop in the clock monad, when each pass advances
    it by an amount that depends on the item only. *)
Lemma Clocked_mapM_counter {A B} (f : A -> Clocked B) (c : A -> nat) (l : list A) :
  (forall x n y n', f x n = Ok (y, n') -> n' = n + c x) ->
  forall n k n', mapM f l n = Ok (k, n') -> n' = n + list_sum (List.map c l).
Proof.
  intros Hf. induction l as [ | x l IH]; intros n k n' H.
  - apply mret_Ok in H as [_ ->]. simpl. lia.
  - simpl in H. apply Clocked_bind_Ok in H as (y & n1 & Hx & H).
    apply Clocked_bind_Ok in H as (k' & n2 & Hl & H).
    apply mret_Ok in H as [_ ->].
    apply Hf in Hx. apply IH in Hl. simpl. lia.
Qed.

Lemma list_sum_cons (x : nat) (l : list nat) : list_sum (x :: l) = x + list_sum l.
Proof. reflexivity. Qed.

(** Two loops in the clock monad agree when their passes agree at
    every counter the loop can reach. *)
Lemma Clocked_mapM_ext_range {A B} (f g : A -> Clocked B) (cost : A -> nat) (lo hi : nat)
  (l : list A) :
  (forall x m y m', f x m = Ok (y, m') -> m' = m + cost x) ->
  (forall x m, x ∈ l -> lo <= m -> m + cost x <= hi -> f x m = g x m) ->
  forall n, lo <= n -> n + list_sum (List.map cost l) <= hi -> mapM f l n = mapM g l n.
Proof.
  intros Hcost. induction l as [ | x l IH]; intros Hfg n Hlo Hhi; [reflexivity | ].
  rewrite List.map_cons, list_sum_cons in Hhi. simpl.
  assert (Hx : f x n = g x n) by (apply Hfg; [left | exact Hlo | lia]).
  apply Clocked_bind_ext_Ok; [exact Hx | ].
  intros y n1 Hy. rewrite <- Hx in Hy. apply Hcost in Hy as ->.
  apply Clocked_bind_ext; [ | reflexivity].
  apply IH; [ | lia | lia]. intros z m Hz. apply Hfg. right. exact Hz.
Qed.

Lemma list_sum_const {A} (c : nat) (l : list A) :
  list_sum (List.map (fun _ => c) l) = c * length l.
Proof.
  induction l as [ | x l IH]; [simpl; lia | ].
  rewrite List.map_cons, list_sum_cons, IH. simpl length. lia.
Qed.

Lemma list_sum_scale {A} (c : nat) (f : A -> nat) (l : list A) :
  list_sum (List.map (fun x => c * f x) l) = c * list_sum (List.map f l).
Proof.
  induction l as [ | x l IH]; [simpl; lia | ].
  rewrite !List.map_cons, !list_sum_cons, IH. lia.
Qed.

Lemma subscript_Ok {A} (key : string) (field : option A) (v : A) :
  subscript key field = Ok v -> field = Some v.
Proof. destruct field; [intros [= ->]; reflexivity | discriminate]. Qed.

Lemma dict_get_Ok_elem {V} (d : list (string * V)) (key : string) (v : V) :
  dict_get d key = Ok v -> (key, v) ∈ d.
Proof.
  induction d as [ | [k w] d IH]; simpl; [discriminate | ].
  destruct (String.eqb_spec k key) as [-> | _].
  - intros [= ->]. left.
  - intros H. right. exact (IH H).
Qed.

Lemma filter_elem_of {A} (f : A -> bool) (l : list A) (x : A) :
  x ∈ List.filter f l -> x ∈ l.
Proof. rewrite !list_elem_of_In, List.filter_In. tauto. Qed.

Section Counters.

Variable clock : nat -> Z.
Variable parse_unknown_format_date : string -> Result Z.
Variable get_date_difference_summary : Z -> string.

Lemma project_message_counter project_id github_repo statuses pull_requests issues n
  message n' :
  project_message clock get_date_difference_summary project_id github_repo statuses
    pull_requests issues n = Ok (message, n') ->
  n' = S n.
Proof.
  destruct (project_message_returns clock get_date_difference_summary project_id github_repo
              statuses pull_requests issues n) as [message' ->].
  intros [= _ <-]. reflexivity.
Qed.

Lemma github_cell_counter github_actions github_actions_status pull_requests issues project
  n cells n' :
  github_cell clock get_date_difference_summary github_actions github_actions_status
    pull_requests issues project n = Ok (cells, n') ->
  n' = n + github_columns github_actions_status.
Proof.
  unfold github_cell, github_columns.
  destruct (nonempty github_actions_status).
  - intros H. apply Clocked_bind_Ok in H as (workflow & n1 & Hworkflow & H).
    destruct (get_project_workflow_status_returns clock get_date_difference_summary
                github_actions_status (proj_Id project) n) as [lines Hlines].
    rewrite Hlines in Hworkflow. injection Hworkflow as _ <-.
    destruct (_ ++ _ ++ _ ++ _); apply mret_Ok in H as [_ ->]; lia.
  - intros H. apply mret_Ok in H as [_ ->]. lia.
Qed.

Lemma project_row_counter now octopus_url space_id dashboard github_actions
  github_actions_status pull_requests issues project_group project n row n' :
  project_row clock parse_unknown_format_date get_date_difference_summary now octopus_url
    space_id dashboard github_actions github_actions_status pull_requests issues
    project_group project n = Ok (row, n') ->
  n' = n + github_columns github_actions_status.
Proof.
  unfold project_row, project_row_cells. intros H.
  apply Clocked_bind_Ok in H as (cells & n1 & Hcells & H). apply mret_Ok in H as [_ ->].
  apply Clocked_bind_Ok in Hcells as (github & n2 & Hgithub & Hcells).
  apply github_cell_counter in Hgithub as ->.
  apply Clocked_bind_Ok in Hcells as (environments & n3 & Hstep & Hcells).
  apply lift_Ok in Hstep as [_ ->]. apply mret_Ok in Hcells as [_ ->]. reflexivity.
Qed.

Lemma project_group_table_counter now octopus_url space_id dashboard github_actions
  github_actions_status pull_requests issues project_group n table n' :
  project_group_table clock parse_unknown_format_date get_date_difference_summary now
    octopus_url space_id dashboard github_actions github_actions_status pull_requests
    issues project_group n = Ok (table, n') ->
  n' = n + github_columns github_actions_status
           * length (List.filter (fun p => String.eqb (proj_ProjectGroupId p)
                                                      (pg_Id project_group))
                                 (or_empty (Projects dashboard))).
Proof.
  intros Htable. unfold project_group_table in Htable.
  apply Clocked_bind_Ok in Htable as (columns & m1 & Hstep & Htable).
  apply lift_Ok in Hstep as [_ ->].
  apply Clocked_bind_Ok in Htable as (header & m1 & Hstep & Htable).
  apply lift_Ok in Hstep as [_ ->].
  apply Clocked_bind_Ok in Htable as (all_projects & m1 & Hstep & Htable).
  apply lift_Ok in Hstep as [Hstep ->]. apply subscript_Ok in Hstep. rewrite Hstep.
  apply Clocked_bind_Ok in Htable as (rows & m2 & Hrows & Htable).
  apply mret_Ok in Htable as [_ ->].
  apply (Clocked_mapM_counter _ (fun _ => github_columns github_actions_status))
    in Hrows; [ | intros project k row k'; apply project_row_counter ].
  rewrite Hrows, list_sum_const. reflexivity.
Qed.

End Counters.

Section ClockReadings.

Variable parse_unknown_format_date : string -> Result Z.
Variable get_date_difference_summary : Z -> string.
Variable get_channel_cached : string -> string -> string -> string -> Result Channel.

Section Instants.

Variable dashboard : Dashboard.
Variables now1 now2 : Z.
Hypothesis Hnow :
  same_deployment_phrases parse_unknown_format_date get_date_difference_summary dashboard
    now1 now2.

Lemma deployment_messages_instant octopus_url space_id deployment :
  created_text dashboard (dep_Created deployment) ->
  deployment_messages parse_unknown_format_date get_date_difference_summary now1
    octopus_url space_id deployment
  = deployment_messages parse_unknown_format_date get_date_difference_summary now2
      octopus_url space_id deployment.
Proof.
  intros Htext. unfold deployment_messages. apply Result_bind_ext_Ok; [reflexivity | ].
  intros created Hcreated. rewrite (Hnow _ _ Htext Hcreated). reflexivity.
Qed.

Lemma environment_cell_instant octopus_url space_id project environment :
  environment_cell parse_unknown_format_date get_date_difference_summary now1
    octopus_url space_id dashboard project environment
  = environment_cell parse_unknown_format_date get_date_difference_summary now2
      octopus_url space_id dashboard project environment.
Proof.
  unfold environment_cell. apply Result_bind_ext_Ok; [reflexivity | ].
  intros items Hitems. apply subscript_Ok in Hitems.
  destruct (project_environment_deployments project environment items)
    as [ | deployment rest] eqn:Hfilter; [reflexivity | ].
  rewrite deployment_messages_instant; [reflexivity | ].
  left. exists items, deployment. split; [exact Hitems | ]. split; [ | reflexivity].
  apply (filter_elem_of (fun d => String.eqb (dep_ProjectId d) (proj_Id project)
                                  && String.eqb (dep_EnvironmentId d) environment)).
  unfold project_environment_deployments in Hfilter. rewrite Hfilter. left.
Qed.

Lemma project_dashboard_cells_instant octopus_url space_id runs highlights :
  project_dashboard_cells parse_unknown_format_date get_date_difference_summary now1
    octopus_url space_id dashboard runs highlights
  = project_dashboard_cells parse_unknown_format_date get_date_difference_summary now2
      octopus_url space_id dashboard runs highlights.
Proof.
  unfold project_dashboard_cells. apply Result_bind_ext; [reflexivity | ].
  intros environments. apply Result_bind_ext; [ | reflexivity].
  apply Result_mapM_ext. intros environment.
  apply Result_bind_ext_Ok; [reflexivity | intros releases Hreleases].
  apply subscript_Ok in Hreleases.
  apply Result_bind_ext; [ | reflexivity].
  apply Result_mapM_ext_elem. intros release Hrelease. unfold release_cells.
  destruct (rel_Deployments release !! env_Id environment) as [deployments | ]
    eqn:Hdeployments; [ | reflexivity].
  apply Result_mapM_ext_elem. intros deployment Hdeployment.
  unfold release_deployment_cell.
  rewrite deployment_messages_instant; [reflexivity | ].
  right. left. exists releases, release, (env_Id environment), deployments, deployment.
  auto 6.
Qed.

Lemma tenant_section_instant space_id project_id api_key url runs highlights tenant :
  tenant_section parse_unknown_format_date get_date_difference_summary get_channel_cached
    now1 space_id project_id api_key url dashboard runs highlights tenant
  = tenant_section parse_unknown_format_date get_date_difference_summary
      get_channel_cached now2 space_id project_id api_key url dashboard runs highlights
      tenant.
Proof.
  unfold tenant_section. apply Result_bind_ext; [reflexivity | intros environments_ids].
  apply Result_bind_ext; [ | reflexivity]. unfold tenant_table.
  apply Result_bind_ext; [reflexivity | intros environments].
  apply Result_bind_ext; [reflexivity | intros header].
  apply Result_bind_ext; [ | reflexivity]. unfold tenant_columns.
  apply Result_mapM_ext. intros environment. unfold tenant_column.
  apply Result_bind_ext_Ok; [reflexivity | intros items Hitems].
  apply subscript_Ok in Hitems.
  destruct (tenant_deployment tenant environment items) as [deployment | ] eqn:Hfind;
    [ | reflexivity].
  apply List.find_some in Hfind as [Hin _]. apply list_elem_of_In in Hin.
  apply Result_bind_ext; [ | reflexivity]. unfold tenant_deployment_messages.
  apply Result_bind_ext_Ok; [reflexivity | intros created Hcreated].
  rewrite (Hnow (dep_Created deployment) created); [reflexivity | | exact Hcreated].
  left. exists items, deployment. auto.
Qed.

Lemma runbook_body_instant get_tenant tenants environment_ids :
  runbook_body parse_unknown_format_date get_date_difference_summary now1 get_tenant
    dashboard tenants environment_ids
  = runbook_body parse_unknown_format_date get_date_difference_summary now2 get_tenant
      dashboard tenants environment_ids.
Proof.
  unfold runbook_body. apply Result_bind_ext; [ | reflexivity].
  apply Result_mapM_ext. intros tenant.
  apply Result_bind_ext; [ | reflexivity].
  apply Result_mapM_ext. intros environment.
  apply Result_bind_ext_Ok; [reflexivity | intros runbook_runs Hruns].
  apply subscript_Ok in Hruns. unfold runbook_rows.
  apply Result_bind_ext_Ok; [reflexivity | intros all_runs Hall].
  apply dict_get_Ok_elem in Hall.
  apply Result_mapM_ext_elem. intros run Hrun. apply filter_elem_of in Hrun.
  unfold runbook_row.
  apply Result_bind_ext; [ | reflexivity]. unfold build_runbook_run_columns.
  apply Result_bind_ext_Ok; [reflexivity | intros created Hcreated].
  rewrite (Hnow (run_Created run) created); [reflexivity | | exact Hcreated].
  right. right. exists runbook_runs, environment, all_runs, run. auto.
Qed.

End Instants.

Variables clock1 clock2 : nat -> Z.

Lemma get_project_workflow_status_phrases statuses project_id n :
  same_status_phrases get_date_difference_summary statuses (clock1 n) (clock2 n) ->
  get_project_workflow_status clock1 get_date_difference_summary statuses project_id n
  = get_project_workflow_status clock2 get_date_difference_summary statuses project_id n.
Proof.
  intros Hn. unfold get_project_workflow_status. rewrite !datetime_now_bind.
  destruct (nonempty statuses); [ | reflexivity].
  destruct (List.find _ (or_empty statuses)) as [status | ] eqn:Hfind; [ | reflexivity].
  apply List.find_some in Hfind as [Hin _]. apply list_elem_of_In in Hin.
  destruct (gas_CreatedAt status) as [created_at | ] eqn:Hcreated; [ | reflexivity].
  rewrite (Hn status created_at Hin Hcreated). reflexivity.
Qed.

Lemma project_message_phrases project_id github_repo statuses pull_requests issues n :
  same_status_phrases get_date_difference_summary statuses (clock1 n) (clock2 n) ->
  project_message clock1 get_date_difference_summary project_id github_repo statuses
    pull_requests issues n
  = project_message clock2 get_date_difference_summary project_id github_repo statuses
      pull_requests issues n.
Proof.
  intros Hn. unfold project_message.
  apply Clocked_bind_ext; [apply get_project_workflow_status_phrases; exact Hn | reflexivity].
Qed.

Lemma project_row_phrases dashboard now1 now2 octopus_url space_id github_actions
  github_actions_status pull_requests issues project_group project n :
  same_deployment_phrases parse_unknown_format_date get_date_difference_summary dashboard
    now1 now2 ->
  (github_columns github_actions_status = 1 ->
   same_status_phrases get_date_difference_summary github_actions_status
     (clock1 n) (clock2 n)) ->
  project_row clock1 parse_unknown_format_date get_date_difference_summary now1
    octopus_url space_id dashboard github_actions github_actions_status pull_requests
    issues project_group project n
  = project_row clock2 parse_unknown_format_date get_date_difference_summary now2
      octopus_url space_id dashboard github_actions github_actions_status pull_requests
      issues project_group project n.
Proof.
  intros Hnow Hn. unfold project_row.
  apply Clocked_bind_ext; [ | reflexivity]. unfold project_row_cells.
  apply Clocked_bind_ext.
  - unfold github_cell. unfold github_columns in Hn.
    destruct (nonempty github_actions_status); [ | reflexivity].
    apply Clocked_bind_ext; [ | reflexivity].
    apply get_project_workflow_status_phrases. apply Hn. reflexivity.
  - intros github n1. apply Clocked_bind_ext; [ | reflexivity].
    rewrite (Result_mapM_ext _ _ _ (environment_cell_instant dashboard now1 now2 Hnow
                                      octopus_url space_id project)).
    reflexivity.
Qed.

Lemma project_group_table_phrases dashboard now1 now2 octopus_url space_id github_actions
  github_actions_status pull_requests issues project_group (lo hi n : nat) :
  same_deployment_phrases parse_unknown_format_date get_date_difference_summary dashboard
    now1 now2 ->
  (forall m, lo <= m < hi ->
             same_status_phrases get_date_difference_summary github_actions_status
               (clock1 m) (clock2 m)) ->
  lo <= n ->
  n + github_columns github_actions_status
      * length (List.filter (fun p => String.eqb (proj_ProjectGroupId p)
                                                 (pg_Id project_group))
                            (or_empty (Projects dashboard))) <= hi ->
  project_group_table clock1 parse_unknown_format_date get_date_difference_summary now1
    octopus_url space_id dashboard github_actions github_actions_status pull_requests
    issues project_group n
  = project_group_table clock2 parse_unknown_format_date get_date_difference_summary now2
      octopus_url space_id dashboard github_actions github_actions_status pull_requests
      issues project_group n.
Proof.
  intros Hnow Hstatus Hlo Hhi. unfold project_group_table.
  apply Clocked_bind_ext_Ok; [reflexivity | intros columns n1 Hstep].
  apply lift_Ok in Hstep as [_ ->].
  apply Clocked_bind_ext_Ok; [reflexivity | intros header n1 Hstep].
  apply lift_Ok in Hstep as [_ ->].
  apply Clocked_bind_ext_Ok; [reflexivity | intros all_projects n1 Hstep].
  apply lift_Ok in Hstep as [Hprojects ->]. apply subscript_Ok in Hprojects.
  rewrite Hprojects in Hhi. simpl in Hhi.
  apply Clocked_bind_ext; [ | reflexivity].
  apply (Clocked_mapM_ext_range _ _ (fun _ => github_columns github_actions_status) lo hi).
  - intros project k row k'. apply project_row_counter.
  - intros project k _ Hk Hkhi. apply project_row_phrases; [exact Hnow | ].
    intros Hone. apply Hstatus. lia.
  - exact Hlo.
  - rewrite list_sum_const. exact Hhi.
Qed.

(** C3, as the code has it.  No entry point is given the present
    instant: each reads the clock when it starts, and
    [get_project_workflow_status] reads it again at each call.  The
    result of an entry point is determined by its arguments, the
    functions it calls and the relative-time phrases of the readings it
    takes: two calls with the same arguments have the same result
    whenever the reading each takes when it starts gives the same
    phrase for every creation date of the snapshot, and the readings
    taken after it (one by the two project renderers, one for each
    project row of the space dashboard when workflow statuses are
    given, none by the runbook dashboard) give the same phrase for the
    creation instant of every workflow status.  Readings that are not
    taken do not matter, and identical readings give identical
    results. *)
Theorem rendering_depends_on_clock_through_phrases :
  (forall octopus_url space_id space_name dashboard github_actions github_actions_status
          pull_requests issues n,
     same_deployment_phrases parse_unknown_format_date get_date_difference_summary
       dashboard (clock1 n) (clock2 n) ->
     (forall m,
        n < m <= n + github_columns github_actions_status
                     * rendered_projects (or_empty (ProjectGroups dashboard))
                                         (or_empty (Projects dashboard)) ->
        same_status_phrases get_date_difference_summary github_actions_status
          (clock1 m) (clock2 m)) ->
     get_dashboard_response clock1 parse_unknown_format_date get_date_difference_summary
       octopus_url space_id space_name dashboard github_actions github_actions_status
       pull_requests issues n
     = get_dashboard_response clock2 parse_unknown_format_date get_date_difference_summary
         octopus_url space_id space_name dashboard github_actions github_actions_status
         pull_requests issues n)
  /\ (forall octopus_url space_id space_name project_name project_id dashboard github_repo
             github_actions_statuses pull_requests issues release_workflow_runs
             deployment_highlights n,
        same_deployment_phrases parse_unknown_format_date get_date_difference_summary
          dashboard (clock1 n) (clock2 n) ->
        same_status_phrases get_date_difference_summary github_actions_statuses
          (clock1 (S n)) (clock2 (S n)) ->
        get_project_dashboard_response clock1 parse_unknown_format_date
          get_date_difference_summary octopus_url space_id space_name project_name
          project_id dashboard github_repo github_actions_statuses pull_requests issues
          release_workflow_runs deployment_highlights n
        = get_project_dashboard_response clock2 parse_unknown_format_date
            get_date_difference_summary octopus_url space_id space_name project_name
            project_id dashboard github_repo github_actions_statuses pull_requests issues
            release_workflow_runs deployment_highlights n)
  /\ (forall space_id space_name project_name project_id dashboard github_repo
             github_actions_statuses release_workflow_runs pull_requests issues
             deployment_highlights api_key url n,
        same_deployment_phrases parse_unknown_format_date get_date_difference_summary
          dashboard (clock1 n) (clock2 n) ->
        same_status_phrases get_date_difference_summary github_actions_statuses
          (clock1 (S n)) (clock2 (S n)) ->
        get_project_tenant_progression_response clock1 parse_unknown_format_date
          get_date_difference_summary get_channel_cached space_id space_name project_name
          project_id dashboard github_repo github_actions_statuses release_workflow_runs
          pull_requests issues deployment_highlights api_key url n
        = get_project_tenant_progression_response clock2 parse_unknown_format_date
            get_date_difference_summary get_channel_cached space_id space_name
            project_name project_id dashboard github_repo github_actions_statuses
            release_workflow_runs pull_requests issues deployment_highlights api_key url n)
  /\ (forall project runbook dashboard get_tenant n,
        same_deployment_phrases parse_unknown_format_date get_date_difference_summary
          dashboard (clock1 n) (clock2 n) ->
        get_runbook_dashboard_response clock1 parse_unknown_format_date
          get_date_difference_summary project runbook dashboard get_tenant n
        = get_runbook_dashboard_response clock2 parse_unknown_format_date
            get_date_difference_summary project runbook dashboard get_tenant n)
  /\ (forall dashboard statuses n,
        clock1 n = clock2 n ->
        same_deployment_phrases parse_unknown_format_date get_date_difference_summary
          dashboard (clock1 n) (clock2 n)
        /\ same_status_phrases get_date_difference_summary statuses
             (clock1 n) (clock2 n)).
Proof.
  split; [ | split; [ | split; [ | split ] ] ].
  - intros octopus_url space_id space_name dashboard github_actions github_actions_status
      pull_requests issues n Hnow Hstatus.
    unfold get_dashboard_response. rewrite !datetime_now_bind.
    apply Clocked_bind_ext_Ok; [reflexivity | intros project_groups n1 Hstep].
    apply lift_Ok in Hstep as [Hgroups ->]. apply subscript_Ok in Hgroups.
    rewrite Hgroups in Hstatus. simpl in Hstatus.
    apply Clocked_bind_ext; [ | reflexivity].
    apply (Clocked_mapM_ext_range _ _
             (fun project_group =>
                github_columns github_actions_status
                * length (List.filter (fun p => String.eqb (proj_ProjectGroupId p)
                                                           (pg_Id project_group))
                                      (or_empty (Projects dashboard))))
             (S n)
             (S n + github_columns github_actions_status
                    * rendered_projects project_groups (or_empty (Projects dashboard)))).
    + intros project_group m table m'. apply project_group_table_counter.
    + intros project_group m _ Hm Hmhi.
      apply (project_group_table_phrases dashboard (clock1 n) (clock2 n) octopus_url
               space_id github_actions github_actions_status pull_requests issues
               project_group (S n)
               (S n + github_columns github_actions_status
                      * rendered_projects project_groups (or_empty (Projects dashboard)))
               m Hnow); [ | exact Hm | exact Hmhi].
      intros k Hk. apply Hstatus. lia.
    + lia.
    + unfold rendered_projects. rewrite list_sum_scale. lia.
  - intros octopus_url space_id space_name project_name project_id dashboard github_repo
      github_actions_statuses pull_requests issues release_workflow_runs
      deployment_highlights n Hnow Hstatus.
    unfold get_project_dashboard_response. rewrite !datetime_now_bind.
    apply Clocked_bind_ext; [apply project_message_phrases; exact Hstatus | ].
    intros message n1.
    apply Clocked_bind_ext; [reflexivity | intros environments n2].
    apply Clocked_bind_ext; [reflexivity | intros header n3].
    apply Clocked_bind_ext; [ | reflexivity].
    rewrite (project_dashboard_cells_instant dashboard _ _ Hnow). reflexivity.
  - intros space_id space_name project_name project_id dashboard github_repo
      github_actions_statuses release_workflow_runs pull_requests issues
      deployment_highlights api_key url n Hnow Hstatus.
    unfold get_project_tenant_progression_response. rewrite !datetime_now_bind.
    apply Clocked_bind_ext; [apply project_message_phrases; exact Hstatus | ].
    intros message n1.
    apply Clocked_bind_ext; [reflexivity | intros tenants n2].
    apply Clocked_bind_ext; [ | reflexivity].
    rewrite (Result_mapM_ext _ _ _
               (tenant_section_instant dashboard _ _ Hnow space_id project_id api_key url
                  release_workflow_runs deployment_highlights)).
    reflexivity.
  - intros project runbook dashboard get_tenant n Hnow.
    unfold get_runbook_dashboard_response. rewrite !datetime_now_bind.
    apply Clocked_bind_ext; [reflexivity | intros tenants n1].
    apply Clocked_bind_ext; [reflexivity | intros runbook_runs n2].
    apply Clocked_bind_ext; [reflexivity | intros names n3].
    apply Clocked_bind_ext; [reflexivity | intros header n4].
    apply Clocked_bind_ext; [ | reflexivity].
    rewrite (runbook_body_instant dashboard _ _ Hnow). reflexivity.
  - intros dashboard statuses n Hn. rewrite Hn. split.
    + intros text created _ _. reflexivity.
    + intros status created _ _. reflexivity.
Qed.

End ClockReadings.

Lemma rendering_depends_on_clock_through_phrases_witness :
  get_project_dashboard_response (Sample.frozen 7200) Sample.parse_seconds
    date_difference_summary "https://octopus.example" "Spaces-1" "Default" "WebApp" "P1"
    ReleaseSample.dashboard None (Some ClockSample.statuses) None None None None 0
  = get_project_dashboard_response ClockSample.twice Sample.parse_seconds
      date_difference_summary "https://octopus.example" "Spaces-1" "Default" "WebApp" "P1"
      ReleaseSample.dashboard None (Some ClockSample.statuses) None None None None 0
  /\ get_dashboard_response (Sample.frozen 7200) Sample.parse_seconds
       date_difference_summary "https://octopus.example" "Spaces-1" "Default"
       Sample.space_dashboard None (Some ClockSample.statuses) None None 0
     = get_dashboard_response ClockSample.twice Sample.parse_seconds
         date_difference_summary "https://octopus.example" "Spaces-1" "Default"
         Sample.space_dashboard None (Some ClockSample.statuses) None None 0
  /\ get_runbook_dashboard_response (Sample.frozen 7200) Sample.parse_seconds
       date_difference_summary Sample.webapp RunbookSample.backup RunbookSample.dashboard
       RunbookSample.tenant_name 0
     = get_runbook_dashboard_response (Sample.frozen 7201) Sample.parse_seconds
         date_difference_summary Sample.webapp RunbookSample.backup
         RunbookSample.dashboard RunbookSample.tenant_name 0.
Proof.
  split; [ | split].
  - destruct (rendering_depends_on_clock_through_phrases Sample.parse_seconds
                date_difference_summary Sample.one_channel (Sample.frozen 7200)
                ClockSample.twice) as (_ & Hproject & _).
    apply Hproject.
    + intros text created _ _. reflexivity.
    + intros status created _ _. reflexivity.
  - destruct (rendering_depends_on_clock_through_phrases Sample.parse_seconds
                date_difference_summary Sample.one_channel (Sample.frozen 7200)
                ClockSample.twice) as (Hspace & _).
    apply Hspace.
    + intros text created _ _. reflexivity.
    + intros m Hm status created _ _. vm_compute in Hm.
      assert (m = 1) as -> by lia. reflexivity.
  - destruct (rendering_depends_on_clock_through_phrases Sample.parse_seconds
                date_difference_summary Sample.one_channel (Sample.frozen 7200)
                (Sample.frozen 7201)) as (_ & _ & _ & Hrunbook & _).
    apply Hrunbook.
    intros text created Htext Hparse.
    assert (Htext' : text = "3600").
    { destruct Htext as [(items & deployment & [=] & _) | [Htext | Htext] ].
      - destruct Htext as (releases & release & environment & deployments & deployment
                           & [=] & _).
      - destruct Htext as (runbook_runs & environment & runs & run & [= <-] & Hin & Hrun
                           & <-).
        apply elem_of_cons in Hin as [[= -> ->] | Hin];
          [ | apply elem_of_cons in Hin as [[= -> ->] | Hin];
              [ | apply elem_of_nil in Hin; destruct Hin] ];
          repeat (apply elem_of_cons in Hrun as [-> | Hrun]; [reflexivity | ]);
          apply elem_of_nil in Hrun; destruct Hrun. }
    subst text. injection Hparse as <-. reflexivity.
Defined.

(** C3 fails as stated: two calls of [get_dashboard_response] with the
    same arguments, whose clocks give the same instant when the call
    starts, differ in their result when the clock has moved on by the
    time the workflow status of a project is rendered. *)
Lemma same_start_different_rendering :
  Sample.frozen 7200 0 = ClockSample.ticking 0
  /\ returned (get_dashboard_response (Sample.frozen 7200) Sample.parse_seconds
                 date_difference_summary "https://octopus.example" "Spaces-1" "Default"
                 Sample.space_dashboard None (Some ClockSample.statuses) None None 0)
     <> returned (get_dashboard_response ClockSample.ticking Sample.parse_seconds
                    date_difference_summary "https://octopus.example" "Spaces-1" "Default"
                    Sample.space_dashboard None (Some ClockSample.statuses) None None 0).
Proof. split; [reflexivity | ]. vm_compute. discriminate. Qed.

(** * Further properties *)

(** ** Texts *)

Lemma append_cons (a : Ascii.ascii) (s1 s2 : string) :
  String a s1 +:+ s2 = String a (s1 +:+ s2).
Proof. reflexivity. Qed.

Lemma append_empty_r (s : string) : s +:+ "" = s.
Proof.
  induction s as [ | a s IH]; [reflexivity | ]. rewrite append_cons, IH. reflexivity.
Qed.

Lemma count_char_append (c : Ascii.ascii) (s1 s2 : string) :
  count_char c (s1 +:+ s2) = count_char c s1 + count_char c s2.
Proof.
  induction s1 as [ | a s1 IH]; [reflexivity | ].
  rewrite append_cons. simpl. rewrite IH. lia.
Qed.

Lemma join_cons (sep x y : string) (l : list string) :
  join sep (x :: y :: l) = x +:+ sep +:+ join sep (y :: l).
Proof. reflexivity. Qed.

(** The occurrences of a character in a joined text: those of the items
    and those of the separators between them. *)
Lemma count_char_join (c : Ascii.ascii) (sep : string) (l : list string) :
  count_char c (join sep l)
  = list_sum (List.map (count_char c) l) + (length l - 1) * count_char c sep.
Proof.
  induction l as [ | x [ | y l] IH]; [reflexivity | simpl; lia | ].
  rewrite join_cons, !count_char_append, IH. simpl. lia.
Qed.

(** ** Project names *)

Lemma no_space_name_stripped (space_name : option string) :
  no_space_name space_name = String.eqb (stripped space_name) "".
Proof. destruct space_name; reflexivity. Qed.

(** X1. With at least one project the answer depends on the space name
    only through what [strip] leaves of it: a missing name, an empty one
    and one of whitespace only give the same answer, and whitespace
    around a name does not show.  With no project a name that is not
    blank is printed as it was given, whitespace included. *)
Theorem project_names_response_strips_space_name
  (space_name1 space_name2 : option string) (projects : list string) :
  (projects <> [] ->
   stripped space_name1 = stripped space_name2 ->
   get_octopus_project_names_response space_name1 projects
   = get_octopus_project_names_response space_name2 projects)
  /\ (forall name, strip name <> "" ->
        get_octopus_project_names_response (Some name) []
        = "I found no projects in the space " +:+ name +:+ ".").
Proof.
  split.
  - intros Hprojects Hstripped. unfold get_octopus_project_names_response.
    rewrite bool_decide_eq_false_2 by exact Hprojects. simpl.
    rewrite !no_space_name_stripped, <- Hstripped.
    destruct (String.eqb (stripped space_name1) "") eqn:Hblank; [reflexivity | ].
    destruct space_name1 as [name1 | ]; [ | discriminate].
    destruct space_name2 as [name2 | ]; simpl in Hstripped, Hblank.
    + simpl. rewrite Hstripped. reflexivity.
    + rewrite Hstripped in Hblank. discriminate.
  - intros name Hname. unfold get_octopus_project_names_response. simpl.
    apply String.eqb_neq in Hname. rewrite Hname. reflexivity.
Qed.

Lemma project_names_response_strips_space_name_witness :
  get_octopus_project_names_response (Some "  Default ") ["WebApp"; "Api"]
  = get_octopus_project_names_response (Some "Default") ["WebApp"; "Api"]
  /\ get_octopus_project_names_response (Some " Default") []
     = "I found no projects in the space  Default.".
Proof.
  split.
  - apply (project_names_response_strips_space_name (Some "  Default ") (Some "Default")
             ["WebApp"; "Api"]); [discriminate | reflexivity].
  - apply (project_names_response_strips_space_name None None []). discriminate.
Defined.

(** ** Table primitives *)

Lemma join_replicate_pipes (count : nat) :
  join "-" (replicate (S count) "|") = "|" +:+ join "" (replicate count "-|").
Proof.
  induction count as [ | count IH]; [reflexivity | ].
  change (replicate (S (S count)) "|") with ("|" :: "|" :: replicate count "|").
  rewrite join_cons.
  change ("|" :: replicate count "|") with (replicate (S count) "|"). rewrite IH.
  destruct count; reflexivity.
Qed.

Lemma header_separator_nonzero (count : nat) :
  build_markdown_table_header_separator (S count)
  = "|" +:+ join "" (replicate (S count) "-|") +:+ nl.
Proof.
  unfold build_markdown_table_header_separator.
  replace (S count + 1) with (S (S count)) by lia.
  rewrite join_replicate_pipes. reflexivity.
Qed.

Lemma header_separator_counts (count : nat) :
  count_char pipe (build_markdown_table_header_separator (S count)) = S count + 1
  /\ count_char dash (build_markdown_table_header_separator (S count)) = S count.
Proof.
  unfold build_markdown_table_header_separator.
  rewrite !count_char_append, !count_char_join, !length_replicate.
  assert (Hsum : forall c n, list_sum (List.map (count_char c) (replicate n "|"))
                             = n * count_char c "|").
  { intros c n. induction n as [ | n IH]; simpl; [reflexivity | ].
    simpl in IH. rewrite IH. lia. }
  rewrite !Hsum. simpl. split; lia.
Qed.

(** X2. The header separator of no column is empty; that of [count]
    columns, [count] not zero, is a pipe followed by [count] times a dash
    and a pipe, and a line feed: it has [count + 1] pipes and [count]
    dashes. *)
Theorem header_separator_shape (count : nat) :
  build_markdown_table_header_separator 0 = ""
  /\ build_markdown_table_header_separator (S count)
     = "|" +:+ join "" (replicate (S count) "-|") +:+ nl
  /\ count_char pipe (build_markdown_table_header_separator (S count)) = S count + 1
  /\ count_char dash (build_markdown_table_header_separator (S count)) = S count.
Proof.
  split; [reflexivity | ].
  split; [apply header_separator_nonzero | apply header_separator_counts].
Qed.

(** X3. A table row is built exactly when no column is [None]: of text
    cells it is the cells between pipes, or the empty text when there is
    no cell; a column that is [None] makes the call raise [TypeError]
    whatever the other columns are. *)
Theorem table_row_needs_text_cells (columns : list (option string)) :
  (forall cells,
     columns = List.map Some cells ->
     build_markdown_table_row columns
     = Ok (match cells with
           | [] => ""
           | _ => "| " +:+ join " | " cells +:+ " |" +:+ nl
           end))
  /\ (None ∈ columns ->
      exists what, build_markdown_table_row columns = Raise (TypeError what))
  /\ ((exists row, build_markdown_table_row columns = Ok row) <-> None ∉ columns).
Proof.
  split; [intros cells ->; apply build_markdown_table_row_texts | ].
  split; [apply build_markdown_table_row_None | ].
  split.
  - intros [row Hrow] Hin.
    destruct (build_markdown_table_row_None columns Hin) as [what Hwhat]. congruence.
  - intros Hnot.
    assert (Hcolumns : columns = List.map Some (omap id columns)).
    { induction columns as [ | [cell | ] columns IH]; [reflexivity | | ].
      - simpl. f_equal. apply IH. intros Hin. apply Hnot. right. exact Hin.
      - exfalso. apply Hnot. left. }
    rewrite Hcolumns, build_markdown_table_row_texts. eexists. reflexivity.
Qed.

Lemma table_row_needs_text_cells_witness :
  build_markdown_table_row [Some "Default"; Some "Dev"] = Ok ("| Default | Dev |" +:+ nl)
  /\ exists what,
       build_markdown_table_row [Some "Default"; None; Some "Dev"] = Raise (TypeError what).
Proof.
  split.
  - apply (table_row_needs_text_cells [Some "Default"; Some "Dev"]) with
      (cells := ["Default"; "Dev"]). reflexivity.
  - apply (table_row_needs_text_cells [Some "Default"; None; Some "Dev"]).
    right. left.
Defined.

Lemma list_sum_zero {A} (f : A -> nat) (l : list A) :
  Forall (fun x => f x = 0) l -> list_sum (List.map f l) = 0.
Proof. induction 1 as [ | x l Hx _ IH]; simpl; [reflexivity | lia]. Qed.

(** X4. A row of cells that contain no pipe has one pipe more than it
    has cells, as many as the header separator for that number of
    columns. *)
Theorem table_row_pipes_match_separator (cells : list string) :
  cells <> [] ->
  Forall (fun cell => count_char pipe cell = 0) cells ->
  exists row,
    build_markdown_table_row (List.map Some cells) = Ok row
    /\ count_char pipe row = length cells + 1
    /\ count_char pipe row
       = count_char pipe (build_markdown_table_header_separator (length cells)).
Proof.
  intros Hcells Hpipes.
  pose proof (build_markdown_table_row_texts cells) as Htexts.
  destruct cells as [ | cell cells]; [congruence | ].
  eexists. split; [exact Htexts | ].
  assert (Hcount : count_char pipe ("| " +:+ join " | " (cell :: cells) +:+ " |" +:+ nl)
                   = length (cell :: cells) + 1).
  { rewrite !count_char_append, count_char_join.
    rewrite (list_sum_zero _ _ Hpipes). simpl. lia. }
  split; [exact Hcount | ].
  rewrite Hcount.
  destruct (header_separator_counts (length cells)) as [Hseparator _].
  simpl length. rewrite Hseparator. lia.
Qed.

Lemma table_row_pipes_match_separator_witness :
  exists row,
    build_markdown_table_row [Some "Default"; Some "Dev"; Some "Test"] = Ok row
    /\ count_char pipe row = 4
    /\ count_char pipe row = count_char pipe (build_markdown_table_header_separator 3).
Proof.
  apply (table_row_pipes_match_separator ["Default"; "Dev"; "Test"]).
  - discriminate.
  - repeat constructor.
Defined.

(** ** Environments *)

Lemma find_first_match {A} (f : A -> bool) (before after : list A) (x : A) :
  Forall (fun y => f y = false) before -> f x = true ->
  List.find f (before ++ x :: after) = Some x.
Proof.
  intros Hbefore Hx. induction Hbefore as [ | y before Hy _ IH]; simpl.
  - rewrite Hx. reflexivity.
  - rewrite Hy. exact IH.
Qed.

Lemma find_none_iff {A} (f : A -> bool) (l : list A) :
  List.find f l = None <-> forall x, x ∈ l -> f x = false.
Proof.
  induction l as [ | y l IH]; simpl.
  - split; [intros _ x Hx; inversion Hx | reflexivity].
  - destruct (f y) eqn:Hy.
    + split; [discriminate | ]. intros H. rewrite (H y) in Hy by left. discriminate.
    + rewrite IH. split.
      * intros H x Hx. apply elem_of_cons in Hx as [-> | Hx]; [exact Hy | exact (H x Hx)].
      * intros H x Hx. apply H. right. exact Hx.
Qed.

(** X5. [get_env_name] raises [KeyError] when the snapshot has no
    Environments; otherwise it returns [None] exactly when no environment
    has the id, and else the name of the first environment of the
    snapshot that has it, later ones with the same id being ignored. *)
Theorem get_env_name_first_environment (dashboard : Dashboard) (environment_id : string) :
  (Environments dashboard = None ->
   get_env_name dashboard environment_id = Raise (KeyError "Environments"))
  /\ (forall environments,
        Environments dashboard = Some environments ->
        (get_env_name dashboard environment_id = Ok None
         <-> forall e, e ∈ environments -> env_Id e <> environment_id)
        /\ (forall before e after,
              environments = before ++ e :: after ->
              Forall (fun x => env_Id x <> environment_id) before ->
              env_Id e = environment_id ->
              get_env_name dashboard environment_id = Ok (Some (env_Name e)))).
Proof.
  split.
  - intros Hnone. unfold get_env_name. rewrite Hnone. reflexivity.
  - intros environments Hsome. rewrite (get_env_name_listed _ _ Hsome). split.
    + split.
      * intros Hname e He.
        destruct (List.find _ environments) as [e' | ] eqn:Hfind; [discriminate | ].
        rewrite find_none_iff in Hfind. apply String.eqb_neq. exact (Hfind e He).
      * intros Hnone. replace (List.find _ environments) with (@None Environment);
          [reflexivity | ].
        symmetry. apply find_none_iff. intros e He. apply String.eqb_neq. exact (Hnone e He).
    + intros before e after -> Hbefore He.
      rewrite (find_first_match _ before after e); [reflexivity | | ].
      * eapply Forall_impl; [exact Hbefore | ]. intros x Hx. apply String.eqb_neq. exact Hx.
      * apply String.eqb_eq. exact He.
Qed.

Lemma get_env_name_first_environment_witness :
  get_env_name RunbookSample.dashboard "E2" = Ok (Some "Test")
  /\ get_env_name Sample.no_keys "E2" = Raise (KeyError "Environments").
Proof.
  destruct (get_env_name_first_environment RunbookSample.dashboard "E2") as [_ Hsome].
  destruct (get_env_name_first_environment Sample.no_keys "E2") as [Hnone _].
  split; [ | exact (Hnone eq_refl)].
  destruct (Hsome _ eq_refl) as [_ Hfirst].
  apply (Hfirst [Sample.dev] {| env_Id := "E2"; env_Name := "Test" |} []).
  - reflexivity.
  - repeat constructor. discriminate.
  - reflexivity.
Defined.

Section DerivedEnvironments.

Variables (dashboard : Dashboard) (environments : list Environment).
Hypothesis Henvironments : Environments dashboard = Some environments.

Variables (tenant : Tenant) (project_id : string).

Lemma get_tenant_environments_shown :
  get_tenant_environments tenant dashboard project_id
  = Ok (List.map env_Id (List.filter (tenant_shows tenant project_id) environments)).
Proof. unfold get_tenant_environments. rewrite Henvironments. reflexivity. Qed.

Lemma sublist_map_filter {A B} (f : A -> B) (g : A -> bool) (l : list A) :
  sublist (List.map f (List.filter g l)) (List.map f l).
Proof.
  induction l as [ | x l IH]; simpl; [constructor | ].
  destruct (g x); simpl; constructor; exact IH.
Qed.

Lemma known_environment_listed (e : Environment) :
  e ∈ environments -> known_environment dashboard (env_Id e) = true.
Proof.
  intros He. unfold known_environment. rewrite Henvironments.
  apply List.existsb_exists. exists e. split.
  - apply list_elem_of_In. exact He.
  - apply String.eqb_refl.
Qed.

(** X6. The environment ids derived for a tenant are ids of environments
    of the snapshot, in the order of the snapshot: a subsequence of the
    snapshot's environment ids, each of them known. *)
Theorem tenant_environments_are_known :
  exists environments_ids,
    get_tenant_environments tenant dashboard project_id = Ok environments_ids
    /\ sublist environments_ids (List.map env_Id environments)
    /\ Forall (fun environment => known_environment dashboard environment = true)
              environments_ids.
Proof.
  eexists. split; [apply get_tenant_environments_shown | ]. split.
  - apply sublist_map_filter.
  - apply Forall_forall. intros environment Hin.
    apply list_elem_of_fmap in Hin as (e & -> & He).
    apply list_elem_of_In, List.filter_In in He as [He _].
    apply known_environment_listed, list_elem_of_In. exact He.
Qed.

(** X7. A tenant without an id, or with an empty one, is shown all the
    environments of the snapshot; a tenant with an id is shown those
    whose id is listed for the project in its ProjectEnvironments, and
    none when the project has no entry there. *)
Theorem tenant_environments_by_tenant_id :
  (ten_Id tenant = None \/ ten_Id tenant = Some "" ->
   get_tenant_environments tenant dashboard project_id
   = Ok (List.map env_Id environments))
  /\ (forall tenant_id,
        ten_Id tenant = Some tenant_id -> tenant_id <> "" ->
        exists environments_ids,
          get_tenant_environments tenant dashboard project_id = Ok environments_ids
          /\ (forall environment,
                environment ∈ environments_ids
                <-> environment ∈ List.map env_Id environments
                    /\ exists allowed,
                         ten_ProjectEnvironments tenant !! project_id = Some allowed
                         /\ environment ∈ allowed)
          /\ (ten_ProjectEnvironments tenant !! project_id = None ->
              environments_ids = [])).
Proof.
  split.
  - intros Hid. rewrite get_tenant_environments_shown. do 2 f_equal.
    assert (Hfalsy : truthy (ten_Id tenant) = false) by (destruct Hid as [-> | ->]; reflexivity).
    clear Henvironments. induction environments as [ | e l IH]; [reflexivity | ].
    simpl. unfold tenant_shows at 1. rewrite Hfalsy, IH. reflexivity.
  - intros tenant_id Hid Hne.
    assert (Htruthy : truthy (ten_Id tenant) = true).
    { rewrite Hid. simpl. apply negb_true_iff, String.eqb_neq. exact Hne. }
    eexists. split; [apply get_tenant_environments_shown | ]. split.
    + intros environment. rewrite !list_elem_of_fmap. split.
      * intros (e & -> & He). apply list_elem_of_In, List.filter_In in He as [He Hshown].
        unfold tenant_shows in Hshown. rewrite Htruthy in Hshown.
        apply bool_decide_eq_true in Hshown.
        split; [exists e; split; [reflexivity | apply list_elem_of_In; exact He] | ].
        destruct (ten_ProjectEnvironments tenant !! project_id) as [allowed | ];
          [exists allowed; auto | inversion Hshown].
      * intros [(e & -> & He) (allowed & Hallowed & Hin)].
        exists e. split; [reflexivity | ].
        apply list_elem_of_In, List.filter_In. split; [apply list_elem_of_In; exact He | ].
        unfold tenant_shows. rewrite Htruthy, Hallowed. apply bool_decide_eq_true. exact Hin.
    + intros Hnone. clear Henvironments.
      induction environments as [ | e l IH]; [reflexivity | ].
      simpl. unfold tenant_shows at 1. rewrite Htruthy, Hnone. simpl. exact IH.
Qed.

Lemma environment_detail_listed (e : Environment) :
  NoDup (List.map env_Id environments) ->
  e ∈ environments -> env_Name e <> "" ->
  environment_detail environments (env_Id e) = [e].
Proof.
  intros Hnodup He Hname. unfold environment_detail.
  apply list_elem_of_split in He as (before & after & ->).
  rewrite (find_first_match _ before after e).
  - simpl. apply String.eqb_neq in Hname. rewrite Hname. destruct e; reflexivity.
  - rewrite List.map_app in Hnodup. simpl in Hnodup.
    apply NoDup_app in Hnodup as (_ & Hdisjoint & _).
    apply Forall_forall. intros x Hx. apply String.eqb_neq. intros Heq.
    apply (Hdisjoint (env_Id x)); [apply list_elem_of_fmap_2; exact Hx | ].
    rewrite Heq. left.
  - apply String.eqb_refl.
Qed.

(** X8. When the environments of the snapshot have distinct ids and
    names that are not empty, the environments a tenant's table is built
    from are the environments of the snapshot shown to the tenant, each
    one once and in the order of the snapshot: no derived environment is
    dropped and none is renamed. *)
Theorem tenant_table_environments :
  NoDup (List.map env_Id environments) ->
  Forall (fun e => env_Name e <> "") environments ->
  exists environments_ids,
    get_tenant_environments tenant dashboard project_id = Ok environments_ids
    /\ get_tenant_environment_details environments_ids dashboard
       = Ok (List.filter (tenant_shows tenant project_id) environments).
Proof.
  intros Hnodup Hnames.
  eexists. split; [apply get_tenant_environments_shown | ].
  rewrite (get_tenant_environment_details_listed _ _ Henvironments). f_equal.
  assert (Hall : forall l, (forall e, e ∈ l -> e ∈ environments) ->
                           concat (List.map (environment_detail environments)
                                            (List.map env_Id l)) = l).
  { induction l as [ | e l IH]; intros Hl; [reflexivity | ].
    simpl. rewrite environment_detail_listed; [ | exact Hnodup | apply Hl; left | ].
    - simpl. f_equal. apply IH. intros x Hx. apply Hl. right. exact Hx.
    - rewrite Forall_forall in Hnames. apply Hnames, Hl. left. }
  apply Hall. intros e He.
  apply list_elem_of_In, List.filter_In in He as [He _]. apply list_elem_of_In. exact He.
Qed.

End DerivedEnvironments.

Lemma tenant_environments_are_known_witness :
  exists environments_ids,
    get_tenant_environments TenantedSample.acme TenantedSample.dashboard "P1"
    = Ok environments_ids
    /\ sublist environments_ids ["E1"; "E2"]
    /\ Forall (fun environment =>
                 known_environment TenantedSample.dashboard environment = true)
              environments_ids.
Proof.
  exact (tenant_environments_are_known TenantedSample.dashboard
           [Sample.dev; TenantedSample.test] eq_refl TenantedSample.acme "P1").
Defined.

Lemma tenant_environments_by_tenant_id_witness :
  get_tenant_environments TenantSample.blank_id TenantedSample.dashboard "P1"
  = Ok ["E1"; "E2"]
  /\ exists environments_ids,
       get_tenant_environments TenantedSample.acme TenantedSample.dashboard "P1"
       = Ok environments_ids
       /\ ("E2" ∈ environments_ids <->
           "E2" ∈ ["E1"; "E2"]
           /\ exists allowed,
                ten_ProjectEnvironments TenantedSample.acme !! "P1" = Some allowed
                /\ "E2" ∈ allowed).
Proof.
  split.
  - apply (tenant_environments_by_tenant_id TenantedSample.dashboard
             [Sample.dev; TenantedSample.test] eq_refl TenantSample.blank_id "P1").
    right. reflexivity.
  - destruct (tenant_environments_by_tenant_id TenantedSample.dashboard
                [Sample.dev; TenantedSample.test] eq_refl TenantedSample.acme "P1")
      as [_ Htenanted].
    destruct (Htenanted "Tenants-1" eq_refl) as (ids & Hids & Hiff & _); [discriminate | ].
    exists ids. split; [exact Hids | exact (Hiff "E2")].
Defined.

Lemma tenant_table_environments_witness :
  exists environments_ids,
    get_tenant_environments TenantedSample.acme TenantedSample.dashboard "P1"
    = Ok environments_ids
    /\ get_tenant_environment_details environments_ids TenantedSample.dashboard
       = Ok [TenantedSample.test].
Proof.
  apply (tenant_table_environments TenantedSample.dashboard
           [Sample.dev; TenantedSample.test] eq_refl TenantedSample.acme "P1").
  - apply (bool_decide_unpack _). vm_compute. exact I.
  - repeat constructor; discriminate.
Defined.

(** ** The deployment of a cell *)

Section FirstDeployment.

Variable parse_unknown_format_date : string -> Result Z.
Variable get_date_difference_summary : Z -> string.
Variable get_channel_cached : string -> string -> string -> string -> Result Channel.

Variables (dashboard : Dashboard) (before after : list Deployment) (deployment : Deployment).
Hypothesis Hitems : Items dashboard = Some (before ++ deployment :: after).

(** X9. On the space dashboard the cell of a project and an environment
    shows the first deployment of [Items] that is of the project and to
    the environment; the deployments listed after it have no effect on
    the cell. *)
Theorem space_dashboard_shows_first_deployment
  (now : Z) (octopus_url space_id : string) (project : Project) (environment : string) :
  Forall (fun d => dep_ProjectId d <> proj_Id project \/ dep_EnvironmentId d <> environment)
         before ->
  dep_ProjectId deployment = proj_Id project ->
  dep_EnvironmentId deployment = environment ->
  environment_cell parse_unknown_format_date get_date_difference_summary now octopus_url
    space_id dashboard project environment
  = (messages ← deployment_messages parse_unknown_format_date get_date_difference_summary
                  now octopus_url space_id deployment;
     Ok ("| " +:+ join "<br/>" messages)).
Proof.
  intros Hbefore Hproject Henvironment.
  unfold environment_cell, project_environment_deployments. rewrite Hitems. simpl.
  rewrite filter_first_match; [reflexivity | | ].
  - eapply Forall_impl; [exact Hbefore | ]. intros d Hd. simpl in Hd.
    apply andb_false_iff. rewrite !String.eqb_neq. exact Hd.
  - apply andb_true_iff. rewrite !String.eqb_eq. auto.
Qed.

(** X10. In the tenant progression the column of a tenant and an
    environment shows the first deployment of [Items] whose environment
    is that environment and whose tenant id equals the tenant's id; the
    deployments listed after it have no effect on the column. *)
Theorem tenant_column_shows_first_deployment
  (now : Z) (space_id api_key url : string)
  (release_workflow_runs : option (list WorkflowRun))
  (deployment_highlights : option (list DeploymentHighlight))
  (tenant : Tenant) (environment : Environment) :
  Forall (fun d => dep_EnvironmentId d <> env_Id environment
                   \/ py_eq (dep_TenantId d) (ten_Id tenant) = false) before ->
  dep_EnvironmentId deployment = env_Id environment ->
  py_eq (dep_TenantId deployment) (ten_Id tenant) = true ->
  tenant_column parse_unknown_format_date get_date_difference_summary get_channel_cached
    now space_id api_key url dashboard release_workflow_runs deployment_highlights
    tenant environment
  = (messages ← tenant_deployment_messages parse_unknown_format_date
                  get_date_difference_summary get_channel_cached now space_id api_key url
                  release_workflow_runs deployment_highlights deployment;
     Ok (join "<br/>" messages)).
Proof.
  intros Hbefore Henvironment Htenant.
  unfold tenant_column, tenant_deployment. rewrite Hitems. simpl.
  rewrite (find_first_match _ before after deployment); [reflexivity | | ].
  - eapply Forall_impl; [exact Hbefore | ]. intros d Hd. simpl in Hd.
    unfold tenant_deployment_match. apply andb_false_iff.
    rewrite String.eqb_neq. exact Hd.
  - unfold tenant_deployment_match. apply andb_true_iff.
    rewrite String.eqb_eq. auto.
Qed.

End FirstDeployment.

Lemma space_dashboard_shows_first_deployment_witness :
  environment_cell Sample.parse_seconds date_difference_summary 7200
    "https://octopus.example" "Spaces-1" TenantedSample.dashboard Sample.webapp "E1"
  = Ok ("| 🟢 [1.0.0](https://octopus.example/app#/Spaces-1/projects/P1/deployments/releases/1.0.0/deployments/D1)<br/>🕗 1 hour ago").
Proof.
  apply (space_dashboard_shows_first_deployment Sample.parse_seconds date_difference_summary
           TenantedSample.dashboard [] [TenantedSample.later_deployment]
           TenantSample.deployment eq_refl 7200%Z "https://octopus.example" "Spaces-1"
           Sample.webapp "E1").
  - constructor.
  - reflexivity.
  - reflexivity.
Defined.

Lemma tenant_column_shows_first_deployment_witness :
  tenant_column Sample.parse_seconds date_difference_summary Sample.one_channel 7200
    "Spaces-1" "API-KEY" "https://octopus.example" TenantedSample.dashboard None None
    TenantSample.untenanted Sample.dev
  = Ok "🟢 [1.0.0](https://octopus.example/app#/Spaces-1/projects/P1/deployments/releases/1.0.0/deployments/D1)<br/>🔀 Default<br/>🕗 1 hour ago".
Proof.
  apply (tenant_column_shows_first_deployment Sample.parse_seconds date_difference_summary
           Sample.one_channel TenantedSample.dashboard [] [TenantedSample.later_deployment]
           TenantSample.deployment eq_refl 7200%Z "Spaces-1" "API-KEY"
           "https://octopus.example" None None TenantSample.untenanted Sample.dev).
  - constructor.
  - reflexivity.
  - reflexivity.
Defined.

(** ** The row of the project dashboard *)

Lemma concat_length_sum {A B} (g : A -> nat) (l : list A) (k : list (list B)) :
  Forall2 (fun x y => length y = g x) l k ->
  length (concat k) = list_sum (List.map g l).
Proof.
  induction 1 as [ | x y l k Hxy _ IH]; simpl; [reflexivity | ].
  rewrite length_app, Hxy, IH. reflexivity.
Qed.

Section ProjectDashboardRow.

Variable parse_unknown_format_date : string -> Result Z.
Variable get_date_difference_summary : Z -> string.

Variables (now : Z) (octopus_url space_id : string) (dashboard : Dashboard).
Variables (release_workflow_runs : option (list WorkflowRun)).
Variables (deployment_highlights : option (list DeploymentHighlight)).

Lemma release_cells_length (environment : Environment) (release : ReleaseEntry)
  (cells : list string) :
  release_cells parse_unknown_format_date get_date_difference_summary now octopus_url
    space_id release_workflow_runs deployment_highlights environment release = Ok cells ->
  length cells = release_cell_count environment release.
Proof.
  unfold release_cells, release_cell_count.
  destruct (rel_Deployments release !! env_Id environment) as [deployments | ].
  - apply mapM_Ok_length.
  - intros [= <-]. reflexivity.
Qed.

(** X11. The data row of the project dashboard is, environment by
    environment of the snapshot and release by release, the cells of the
    deployments the release lists for the environment, each a pipe and
    the lines of the deployment, or the one placeholder cell when the
    release has no entry for the environment; a release that lists no
    deployment for an environment gives no cell for it.  The text
    returned is the heading, the header row of the environment names,
    the separator and these cells one after the other.  Releases is
    subscripted only when there is an environment. *)
Theorem project_dashboard_row_cells :
  (forall environments releases cells,
     Environments dashboard = Some environments ->
     Releases dashboard = Some releases ->
     project_dashboard_cells parse_unknown_format_date get_date_difference_summary now
       octopus_url space_id dashboard release_workflow_runs deployment_highlights
     = Ok cells ->
     exists layout : list (list (list string)),
       cells = concat (List.map (@concat string) layout)
       /\ Forall2
            (fun environment per_release =>
               Forall2
                 (fun release cells_of_release =>
                    match rel_Deployments release !! env_Id environment with
                    | Some deployments =>
                        Forall2
                          (fun deployment cell =>
                             exists created,
                               parse_unknown_format_date (dep_Created deployment)
                               = Ok created
                               /\ cell
                                  = "| "
                                    +:+ join "<br/>"
                                          ([get_state_icon (dep_State deployment)
                                              (dep_HasWarningsOrErrors deployment)
                                            +:+ " [" +:+ dep_ReleaseVersion deployment
                                            +:+ "]("
                                            +:+ build_deployment_url octopus_url space_id
                                                  (dep_ProjectId deployment)
                                                  (dep_ReleaseVersion deployment)
                                                  (dep_DeploymentId deployment)
                                            +:+ ")";
                                            "🕗 "
                                            +:+ get_date_difference_summary
                                                  (now - created)%Z
                                            +:+ " ago"]
                                           ++ workflow_messages (rel_Id release)
                                                release_workflow_runs
                                           ++ highlight_messages
                                                (dep_DeploymentId deployment)
                                                deployment_highlights))
                          deployments cells_of_release
                    | None => cells_of_release = ["| ⨂ "]
                    end)
                 releases per_release)
            environments layout
       /\ length cells
          = list_sum (List.map (fun environment =>
                                  list_sum (List.map (release_cell_count environment)
                                                     releases))
                               environments))
  /\ (Environments dashboard = Some [] ->
      project_dashboard_cells parse_unknown_format_date get_date_difference_summary now
        octopus_url space_id dashboard release_workflow_runs deployment_highlights
      = Ok [])
  /\ (forall clock space_name project_name project_id github_repo github_actions_statuses
             pull_requests issues n out n',
        get_project_dashboard_response clock parse_unknown_format_date
          get_date_difference_summary octopus_url space_id space_name project_name
          project_id dashboard github_repo github_actions_statuses pull_requests issues
          release_workflow_runs deployment_highlights n = Ok (out, n') ->
        exists message environments cells,
          Environments dashboard = Some environments
          /\ project_dashboard_cells parse_unknown_format_date get_date_difference_summary
               (clock n) octopus_url space_id dashboard release_workflow_runs
               deployment_highlights = Ok cells
          /\ out = project_heading space_name project_name message
                   +:+ table_row_text (List.map env_Name environments)
                   +:+ build_markdown_table_header_separator (length environments)
                   +:+ join "" cells +:+ "|  ").
Proof.
  split; [ | split].
  - intros environments releases cells Henvironments Hreleases.
    unfold project_dashboard_cells. rewrite Henvironments, Hreleases. simpl.
    intros Hcells. apply mapM_then_Ok in Hcells as (per_environment & Hper & ->).
    assert (Hlength : length (concat per_environment)
                      = list_sum (List.map
                                    (fun environment =>
                                       list_sum (List.map (release_cell_count environment)
                                                          releases))
                                    environments)).
    { apply concat_length_sum. eapply Forall2_impl; [exact Hper | ]. cbv beta.
      intros environment cells Hcells.
      apply mapM_then_Ok in Hcells as (per_release & Hper_release & ->).
      apply concat_length_sum. eapply Forall2_impl; [exact Hper_release | ].
      intros release cells. apply release_cells_length. }
    assert (Hlayout : Forall2
              (fun environment cells_of_environment =>
                 exists per_release,
                   cells_of_environment = concat per_release
                   /\ Forall2
                        (fun release cells_of_release =>
                           release_cells parse_unknown_format_date
                             get_date_difference_summary now octopus_url space_id
                             release_workflow_runs deployment_highlights environment
                             release = Ok cells_of_release)
                        releases per_release)
              environments per_environment).
    { eapply Forall2_impl; [exact Hper | ]. cbv beta.
      intros environment cells Hcells.
      apply mapM_then_Ok in Hcells as (per_release & Hper_release & ->).
      exists per_release. split; [reflexivity | exact Hper_release]. }
    apply Forall2_exists_map in Hlayout as (layout & -> & Hlayout).
    exists layout. split; [reflexivity | ]. split; [ | exact Hlength].
    eapply Forall2_impl; [exact Hlayout | ]. cbv beta.
    intros environment per_release Hper_release.
    eapply Forall2_impl; [exact Hper_release | ]. cbv beta.
    intros release cells_of_release. unfold release_cells.
    destruct (rel_Deployments release !! env_Id environment) as [deployments | ].
    + intros Hcells. apply mapM_Ok_Forall2 in Hcells.
      eapply Forall2_impl; [exact Hcells | ]. cbv beta.
      intros deployment cell. unfold release_deployment_cell, deployment_messages.
      destruct (parse_unknown_format_date (dep_Created deployment)) as [created | e];
        simpl; [ | discriminate].
      intros [= <-]. exists created. split; reflexivity.
    + intros [= <-]. reflexivity.
  - intros Henvironments. unfold project_dashboard_cells. rewrite Henvironments.
    reflexivity.
  - intros clock space_name project_name project_id github_repo github_actions_statuses
      pull_requests issues n out n' Hcall.
    unfold get_project_dashboard_response in Hcall. rewrite datetime_now_bind in Hcall.
    apply Clocked_bind_Ok in Hcall as (message & n1 & _ & Hcall).
    apply Clocked_bind_Ok in Hcall as (environments & n2 & Henvironments & Hcall).
    apply lift_Ok in Henvironments as [Henvironments _].
    apply subscript_Ok in Henvironments.
    apply Clocked_bind_Ok in Hcall as (header & n3 & Hheader & Hcall).
    apply lift_Ok in Hheader as [Hheader _].
    apply Clocked_bind_Ok in Hcall as (cells & n4 & Hcells & Hcall).
    apply lift_Ok in Hcells as [Hcells _].
    apply mret_Ok in Hcall as [-> _].
    exists message, environments, cells.
    split; [exact Henvironments | ]. split; [exact Hcells | ].
    change (List.map (fun e => Some (env_Name e)) environments)
      with (List.map (fun e => (Some ∘ env_Name) e) environments) in Hheader.
    rewrite <- (List.map_map env_Name Some), build_markdown_table_row_texts in Hheader.
    injection Hheader as <-. rewrite !length_map. reflexivity.
Qed.

End ProjectDashboardRow.

Lemma project_dashboard_row_cells_witness :
  exists cells layout,
    project_dashboard_cells Sample.parse_seconds date_difference_summary 7200
      "https://octopus.example" "Spaces-1" ReleaseSample.dashboard None None = Ok cells
    /\ cells = concat (List.map (@concat string) layout)
    /\ length layout = 2
    /\ length cells = 4.
Proof.
  assert (Hrow : exists cells,
            project_dashboard_cells Sample.parse_seconds date_difference_summary 7200
              "https://octopus.example" "Spaces-1" ReleaseSample.dashboard None None
            = Ok cells) by (eexists; vm_compute; reflexivity).
  destruct Hrow as [cells Hcells].
  destruct (project_dashboard_row_cells Sample.parse_seconds date_difference_summary 7200
              "https://octopus.example" "Spaces-1" ReleaseSample.dashboard None None)
    as [Hlayout _].
  destruct (Hlayout [Sample.dev; TenantedSample.test]
                    [ReleaseSample.deployed; ProjectSample.release "R2"] cells
                    eq_refl eq_refl Hcells) as (layout & Hconcat & Hper & Hlength).
  exists cells, layout. split; [exact Hcells | ]. split; [exact Hconcat | ].
  split; [symmetry; exact (Forall2_length _ _ _ Hper) | exact Hlength].
Defined.

(** ** One row for each run *)

Lemma run_tenant_not_empty (run : RunbookRun) : run_tenant run <> "".
Proof.
  unfold run_tenant. destruct (run_TenantId run) as [tenant_id | ]; simpl; [ | discriminate].
  destruct (String.eqb_spec tenant_id "") as [-> | Hne]; simpl; [discriminate | exact Hne].
Qed.

(** For a tenant of the dashboard, the runs selected are those
    normalised to it. *)
Lemma run_matches_run_tenant (tenant : string) (run : RunbookRun) :
  tenant <> "" -> run_matches tenant run = String.eqb (run_tenant run) tenant.
Proof.
  intros Hne. unfold run_matches, run_tenant.
  destruct (run_TenantId run) as [tenant_id | ]; cbn [py_eq truthy negb orb andb].
  - destruct (String.eqb_spec tenant_id "") as [-> | Hid]; cbn [negb andb].
    + destruct (String.eqb_spec "" tenant) as [<- | _]; [congruence | ].
      apply String.eqb_sym.
    + apply orb_false_r.
  - apply String.eqb_sym.
Qed.

Section RunbookRows.

Variable parse_unknown_format_date : string -> Result Z.
Variable get_date_difference_summary : Z -> string.

Variables (dashboard : Dashboard) (runbook_runs : list (string * list RunbookRun)).
Hypothesis Hruns : RunbookRuns dashboard = Some runbook_runs.
Hypothesis Hkeys : NoDup (List.map fst runbook_runs).

(** The row a run is given when it is rendered, the empty text when it
    cannot be. *)
Lemma rows_of_runs {A} (f : A -> Result string) (l : list A) (k : list string) :
  Forall2 (fun x y => f x = Ok y) l k ->
  k = List.map (fun x => match f x with Ok y => y | Raise _ => "" end) l
  /\ Forall (fun x => exists y, f x = Ok y) l.
Proof.
  induction 1 as [ | x y l k Hxy _ [-> IH] ]; [split; [reflexivity | constructor] | ].
  split; [simpl; rewrite Hxy; reflexivity | constructor; [eauto | exact IH] ].
Qed.

Lemma rows_of_tenant_runs (dt : Z) (get_tenant : string -> string) (tenant : string)
  (rest : list (string * list RunbookRun)) (per_environment : list (list string)) :
  (forall entry, entry ∈ rest -> entry ∈ runbook_runs) ->
  Forall2 (fun environment rows =>
             runbook_rows parse_unknown_format_date get_date_difference_summary dt
               get_tenant runbook_runs tenant environment = Ok rows)
          (List.map fst rest) per_environment ->
  concat per_environment
  = List.map (fun run =>
                match runbook_row parse_unknown_format_date get_date_difference_summary
                        dt get_tenant run with
                | Ok row => row
                | Raise _ => ""
                end)
             (List.filter (run_matches tenant) (concat (List.map snd rest)))
  /\ Forall (fun run =>
               exists row,
                 runbook_row parse_unknown_format_date get_date_difference_summary dt
                   get_tenant run = Ok row)
            (List.filter (run_matches tenant) (concat (List.map snd rest))).
Proof.
  revert per_environment. induction rest as [ | [environment runs] rest IH];
    intros per_environment Hin Hper; simpl in Hper.
  - inversion Hper. split; [reflexivity | constructor].
  - inversion Hper as [ | ? rows ? per_rest Hrows Hper_rest]; subst.
    destruct (IH per_rest) as [Hrest Hrendered];
      [intros entry Hentry; apply Hin; right; exact Hentry | exact Hper_rest | ].
    apply (runbook_rows_Forall2 _ _ _ Hkeys dt get_tenant tenant environment runs rows)
      in Hrows; [ | apply Hin; left ].
    apply rows_of_runs in Hrows as [-> Hruns_rendered].
    simpl. rewrite List.filter_app, List.map_app, Hrest.
    split; [reflexivity | apply Forall_app; split; assumption].
Qed.

Lemma filter_partition {A} (f : A -> bool) (l : list A) :
  l ≡ₚ List.filter f l ++ List.filter (fun x => negb (f x)) l.
Proof.
  induction l as [ | x l IH]; simpl; [reflexivity | ].
  destruct (f x); simpl.
  - constructor. exact IH.
  - etransitivity; [apply Permutation_cons; [reflexivity | exact IH] | ].
    apply Permutation_middle.
Qed.

(** Grouped by distinct tenants, the runs are all there, each once. *)
Lemma runs_grouped_by_tenant (tenants : list string) (runs : list RunbookRun) :
  NoDup tenants ->
  Forall (fun t => t <> "") tenants ->
  (forall run, run ∈ runs -> run_tenant run ∈ tenants) ->
  concat (List.map (fun t => List.filter (run_matches t) runs) tenants) ≡ₚ runs.
Proof.
  intros Hnodup. revert runs.
  induction Hnodup as [ | t tenants Ht Hnodup IH]; intros runs Hnonempty Hall.
  - destruct runs as [ | run runs]; [reflexivity | ].
    specialize (Hall run). rewrite elem_of_cons in Hall.
    assert (Hnone : run_tenant run ∈ []) by (apply Hall; left; reflexivity).
    inversion Hnone.
  - apply Forall_cons in Hnonempty as [Htne Hnonempty].
    rewrite List.map_cons. cbn [concat].
    etransitivity; [ | symmetry; apply (filter_partition (run_matches t) runs) ].
    apply Permutation_app_head.
    rewrite <- (IH (List.filter (fun run => negb (run_matches t run)) runs)).
    + apply Permutation_refl'. f_equal. apply List.map_ext_in. intros t' Ht'.
      apply list_elem_of_In in Ht'.
      rewrite filter_filter_and. apply List.filter_ext. intros run.
      rewrite (run_matches_run_tenant t run Htne).
      rewrite Forall_forall in Hnonempty.
      rewrite (run_matches_run_tenant t' run (Hnonempty t' Ht')).
      destruct (String.eqb_spec (run_tenant run) t') as [Heq | _];
        [ | symmetry; apply andb_false_r].
      destruct (String.eqb_spec (run_tenant run) t) as [Heq' | _]; [ | reflexivity].
      exfalso. apply Ht. rewrite <- Heq', Heq. exact Ht'.
    + exact Hnonempty.
    + intros run Hrun. apply list_elem_of_In, List.filter_In in Hrun as [Hrun Hnot].
      apply list_elem_of_In in Hrun. specialize (Hall run Hrun).
      apply elem_of_cons in Hall as [Heq | Hin]; [ | exact Hin].
      rewrite (run_matches_run_tenant t run Htne), Heq, String.eqb_refl in Hnot.
      discriminate.
Qed.

(** X12. When the runbook dashboard is rendered every run of the snapshot
    has exactly one row: the rows of the body are, up to their order, the
    rows of the runs of all the environments together, each the line of
    the name of the tenant of the run and of the icon and the age of the
    run; there are as many rows as runs. *)
Theorem runbook_body_one_row_per_run (dt : Z) (get_tenant : string -> string)
  (tenants rows : list string) :
  get_tenants dashboard = Ok tenants ->
  runbook_body parse_unknown_format_date get_date_difference_summary dt get_tenant
    dashboard tenants (List.map fst runbook_runs) = Ok rows ->
  exists shown,
    Forall2 (run_shown_as parse_unknown_format_date get_date_difference_summary dt
               get_tenant)
            (concat (List.map snd runbook_runs)) shown
    /\ rows ≡ₚ shown
    /\ length rows = length (concat (List.map snd runbook_runs)).
Proof.
  intros Htenants Hbody.
  rewrite (get_tenants_distinct _ _ Hruns Hkeys) in Htenants. injection Htenants as <-.
  apply (runbook_body_Forall2 _ _ _ _ Hruns) in Hbody as (per_tenant & Hper & ->).
  set (all_runs := concat (List.map snd runbook_runs)) in *.
  set (row_of := fun run =>
                   match runbook_row parse_unknown_format_date
                           get_date_difference_summary dt get_tenant run with
                   | Ok row => row
                   | Raise _ => ""
                   end).
  assert (Htenants : Forall2
            (fun tenant rows_of_tenant =>
               rows_of_tenant
               = List.map row_of (List.filter (run_matches tenant) all_runs)
               /\ Forall (fun run =>
                            exists row,
                              runbook_row parse_unknown_format_date
                                get_date_difference_summary dt get_tenant run = Ok row)
                         (List.filter (run_matches tenant) all_runs))
            (distinct (List.map run_tenant all_runs)) per_tenant).
  { eapply Forall2_impl; [exact Hper | ]. cbv beta.
    intros tenant rows_of_tenant (per_environment & Hper_environment & ->).
    apply (rows_of_tenant_runs dt get_tenant); [auto | exact Hper_environment]. }
  assert (Hgrouped : concat (List.map (fun t => List.filter (run_matches t) all_runs)
                                      (distinct (List.map run_tenant all_runs)))
                     ≡ₚ all_runs).
  { apply runs_grouped_by_tenant.
    - apply distinct_NoDup.
    - apply Forall_forall. intros tenant Hin.
      apply distinct_elem_of, list_elem_of_fmap in Hin as (run & -> & _).
      apply run_tenant_not_empty.
    - intros run Hrun. apply distinct_elem_of, list_elem_of_fmap_2. exact Hrun. }
  assert (Hrows : concat per_tenant
                  = List.map row_of
                      (concat (List.map (fun t => List.filter (run_matches t) all_runs)
                                        (distinct (List.map run_tenant all_runs))))).
  { clear Hgrouped Hper. induction Htenants as [ | t rows_t ts per [-> _] _ IH];
      [reflexivity | ].
    simpl. rewrite List.map_app, IH. reflexivity. }
  assert (Hrendered : Forall (fun run =>
                                exists row,
                                  runbook_row parse_unknown_format_date
                                    get_date_difference_summary dt get_tenant run
                                  = Ok row)
                             all_runs).
  { apply Forall_forall. intros run Hrun.
    assert (Hin : run ∈ concat (List.map (fun t => List.filter (run_matches t) all_runs)
                                         (distinct (List.map run_tenant all_runs))))
      by (rewrite Hgrouped; exact Hrun).
    apply list_elem_of_concat in Hin as (runs_of_tenant & Hin & Hgroup).
    apply list_elem_of_fmap in Hgroup as (tenant & -> & Htenant).
    apply list_elem_of_lookup in Htenant as [i Hi].
    destruct (Forall2_lookup_l _ _ _ _ _ Htenants Hi) as (rows_t & _ & _ & Hall).
    rewrite Forall_forall in Hall. exact (Hall run Hin). }
  exists (List.map row_of all_runs).
  split; [ | split].
  - clear -Hrendered. induction Hrendered as [ | run runs [row Hrow] _ IH];
      simpl; constructor; [ | exact IH].
    apply runbook_row_shown. unfold row_of. rewrite Hrow. reflexivity.
  - rewrite Hrows. apply Permutation_map. exact Hgrouped.
  - rewrite Hrows, length_map. apply Permutation_length. exact Hgrouped.
Qed.

End RunbookRows.

Lemma runbook_body_one_row_per_run_witness :
  exists rows shown,
    runbook_body Sample.parse_seconds date_difference_summary 7200
      RunbookSample.tenant_name RunbookSample.dashboard
      ["Tenants-1"; "Untenanted"; "Tenants-2"] ["E1"; "E2"] = Ok rows
    /\ Forall2 (run_shown_as Sample.parse_seconds date_difference_summary 7200
                  RunbookSample.tenant_name)
               (concat (List.map snd RunbookSample.runs)) shown
    /\ rows ≡ₚ shown
    /\ length rows = 5.
Proof.
  assert (Hbody : exists rows,
            runbook_body Sample.parse_seconds date_difference_summary 7200
              RunbookSample.tenant_name RunbookSample.dashboard
              ["Tenants-1"; "Untenanted"; "Tenants-2"] ["E1"; "E2"] = Ok rows)
    by (eexists; vm_compute; reflexivity).
  destruct Hbody as [rows Hrows].
  assert (Hkeys : NoDup (List.map fst RunbookSample.runs)).
  { apply (bool_decide_unpack _). vm_compute. exact I. }
  destruct (runbook_body_one_row_per_run Sample.parse_seconds date_difference_summary
              RunbookSample.dashboard RunbookSample.runs eq_refl Hkeys 7200%Z
              RunbookSample.tenant_name ["Tenants-1"; "Untenanted"; "Tenants-2"] rows
              eq_refl Hrows) as (shown & Hshown & Hperm & Hlength).
  exists rows, shown. auto.
Defined.

(** ** Readings of the clock *)

Section Readings.

Variable clock : nat -> Z.
Variable parse_unknown_format_date : string -> Result Z.
Variable get_date_difference_summary : Z -> string.
Variable get_channel_cached : string -> string -> string -> string -> Result Channel.

Lemma get_project_workflow_status_reading (clock' : nat -> Z) statuses project_id n :
  clock n = clock' n ->
  get_project_workflow_status clock get_date_difference_summary statuses project_id n
  = get_project_workflow_status clock' get_date_difference_summary statuses project_id n.
Proof.
  intros Hn. unfold get_project_workflow_status. rewrite !datetime_now_bind, Hn. reflexivity.
Qed.

Lemma project_message_reading (clock' : nat -> Z) project_id github_repo statuses
  pull_requests issues n :
  clock n = clock' n ->
  project_message clock get_date_difference_summary project_id github_repo statuses
    pull_requests issues n
  = project_message clock' get_date_difference_summary project_id github_repo statuses
      pull_requests issues n.
Proof.
  intros Hn. unfold project_message.
  apply Clocked_bind_ext; [apply get_project_workflow_status_reading; exact Hn | reflexivity].
Qed.

(** X13. [get_runbook_dashboard_response] reads the clock once, when it
    starts: its result is the same under any clock that gives the same
    first reading, and a call that returns has taken one reading. *)
Theorem runbook_dashboard_reads_clock_once
  (project : Project) (runbook : Runbook) (dashboard : Dashboard)
  (get_tenant : string -> string) (n : nat) :
  (forall clock' : nat -> Z,
     clock n = clock' n ->
     get_runbook_dashboard_response clock parse_unknown_format_date
       get_date_difference_summary project runbook dashboard get_tenant n
     = get_runbook_dashboard_response clock' parse_unknown_format_date
         get_date_difference_summary project runbook dashboard get_tenant n)
  /\ (forall out n',
        get_runbook_dashboard_response clock parse_unknown_format_date
          get_date_difference_summary project runbook dashboard get_tenant n
        = Ok (out, n') ->
        n' = S n).
Proof.
  split.
  - intros clock' Hn. unfold get_runbook_dashboard_response.
    rewrite !datetime_now_bind, Hn. reflexivity.
  - intros out n' Hcall. unfold get_runbook_dashboard_response in Hcall.
    rewrite datetime_now_bind in Hcall.
    repeat (apply Clocked_bind_Ok in Hcall as (? & ? & Hstep & Hcall);
            apply lift_Ok in Hstep as [_ ->]).
    apply mret_Ok in Hcall as [_ ->]. reflexivity.
Qed.

(** X14. [get_project_dashboard_response] and
    [get_project_tenant_progression_response] read the clock twice, when
    they start and in [get_project_workflow_status]: the result is the
    same under any clock that gives the same two readings, and a call
    that returns has taken two readings. *)
Theorem project_renderers_read_clock_twice (dashboard : Dashboard) (n : nat) :
  (forall octopus_url space_id space_name project_name project_id github_repo
          github_actions_statuses pull_requests issues release_workflow_runs
          deployment_highlights,
     (forall clock' : nat -> Z,
        clock n = clock' n -> clock (S n) = clock' (S n) ->
        get_project_dashboard_response clock parse_unknown_format_date
          get_date_difference_summary octopus_url space_id space_name project_name
          project_id dashboard github_repo github_actions_statuses pull_requests issues
          release_workflow_runs deployment_highlights n
        = get_project_dashboard_response clock' parse_unknown_format_date
            get_date_difference_summary octopus_url space_id space_name project_name
            project_id dashboard github_repo github_actions_statuses pull_requests issues
            release_workflow_runs deployment_highlights n)
     /\ (forall out n',
           get_project_dashboard_response clock parse_unknown_format_date
             get_date_difference_summary octopus_url space_id space_name project_name
             project_id dashboard github_repo github_actions_statuses pull_requests issues
             release_workflow_runs deployment_highlights n = Ok (out, n') ->
           n' = S (S n)))
  /\ (forall space_id space_name project_name project_id github_repo
             github_actions_statuses release_workflow_runs pull_requests issues
             deployment_highlights api_key url,
        (forall clock' : nat -> Z,
           clock n = clock' n -> clock (S n) = clock' (S n) ->
           get_project_tenant_progression_response clock parse_unknown_format_date
             get_date_difference_summary get_channel_cached space_id space_name
             project_name project_id dashboard github_repo github_actions_statuses
             release_workflow_runs pull_requests issues deployment_highlights api_key url n
           = get_project_tenant_progression_response clock' parse_unknown_format_date
               get_date_difference_summary get_channel_cached space_id space_name
               project_name project_id dashboard github_repo github_actions_statuses
               release_workflow_runs pull_requests issues deployment_highlights api_key
               url n)
        /\ (forall out n',
              get_project_tenant_progression_response clock parse_unknown_format_date
                get_date_difference_summary get_channel_cached space_id space_name
                project_name project_id dashboard github_repo github_actions_statuses
                release_workflow_runs pull_requests issues deployment_highlights api_key
                url n = Ok (out, n') ->
              n' = S (S n))).
Proof.
  split.
  - intros. split.
    + intros clock' Hn HSn. unfold get_project_dashboard_response.
      rewrite !datetime_now_bind, Hn.
      apply Clocked_bind_ext; [apply project_message_reading; exact HSn | reflexivity].
    + intros out n' Hcall. unfold get_project_dashboard_response in Hcall.
      rewrite datetime_now_bind in Hcall.
      apply Clocked_bind_Ok in Hcall as (message & n1 & Hmessage & Hcall).
      apply project_message_counter in Hmessage as ->.
      repeat (apply Clocked_bind_Ok in Hcall as (? & ? & Hstep & Hcall);
              apply lift_Ok in Hstep as [_ ->]).
      apply mret_Ok in Hcall as [_ ->]. reflexivity.
  - intros. split.
    + intros clock' Hn HSn. unfold get_project_tenant_progression_response.
      rewrite !datetime_now_bind, Hn.
      apply Clocked_bind_ext; [apply project_message_reading; exact HSn | reflexivity].
    + intros out n' Hcall. unfold get_project_tenant_progression_response in Hcall.
      rewrite datetime_now_bind in Hcall.
      apply Clocked_bind_Ok in Hcall as (message & n1 & Hmessage & Hcall).
      apply project_message_counter in Hmessage as ->.
      repeat (apply Clocked_bind_Ok in Hcall as (? & ? & Hstep & Hcall);
              apply lift_Ok in Hstep as [_ ->]).
      apply mret_Ok in Hcall as [_ ->]. reflexivity.
Qed.

(** X15. [get_dashboard_response] reads the clock when it starts and once
    more for each project row it renders when workflow statuses are
    given: a call that returns has taken one reading, plus, with a list
    of statuses that is not empty, one for each project of each project
    group. *)
Theorem space_dashboard_clock_readings
  (octopus_url space_id space_name : string) (dashboard : Dashboard)
  (github_actions : option (list GithubRepo))
  (github_actions_status : option (list GithubActionStatus))
  (pull_requests issues : option (list CountSummary))
  (project_groups : list ProjectGroup) (projects : list Project) (n n' : nat)
  (out : string) :
  ProjectGroups dashboard = Some project_groups ->
  Projects dashboard = Some projects ->
  get_dashboard_response clock parse_unknown_format_date get_date_difference_summary
    octopus_url space_id space_name dashboard github_actions github_actions_status
    pull_requests issues n = Ok (out, n') ->
  n' = S n + github_columns github_actions_status
             * rendered_projects project_groups projects.
Proof.
  intros Hgroups Hprojects Hcall. unfold get_dashboard_response in Hcall.
  rewrite datetime_now_bind in Hcall.
  apply Clocked_bind_Ok in Hcall as (groups & n1 & Hstep & Hcall).
  apply lift_Ok in Hstep as [Hstep ->]. rewrite Hgroups in Hstep. injection Hstep as <-.
  apply Clocked_bind_Ok in Hcall as (tables & n2 & Htables & Hcall).
  apply mret_Ok in Hcall as [_ ->].
  apply (Clocked_mapM_counter _
           (fun project_group =>
              github_columns github_actions_status
              * length (List.filter (fun p => String.eqb (proj_ProjectGroupId p)
                                                         (pg_Id project_group))
                                    projects))) in Htables.
  - rewrite Htables. unfold rendered_projects. f_equal.
    generalize (github_columns github_actions_status). intros c. clear.
    induction project_groups as [ | pg pgs IH]; [simpl; lia | ].
    rewrite !List.map_cons, !list_sum_cons, IH. lia.
  - intros project_group m table m' Htable. unfold project_group_table in Htable.
    apply Clocked_bind_Ok in Htable as (columns & m1 & Hstep & Htable).
    apply lift_Ok in Hstep as [_ ->].
    apply Clocked_bind_Ok in Htable as (header & m1 & Hstep & Htable).
    apply lift_Ok in Hstep as [_ ->].
    apply Clocked_bind_Ok in Htable as (all_projects & m1 & Hstep & Htable).
    apply lift_Ok in Hstep as [Hstep ->].
    rewrite Hprojects in Hstep. injection Hstep as <-.
    apply Clocked_bind_Ok in Htable as (rows & m2 & Hrows & Htable).
    apply mret_Ok in Htable as [_ ->].
    apply (Clocked_mapM_counter _ (fun _ => github_columns github_actions_status))
      in Hrows; [ | intros project k row k'; apply project_row_counter ].
    rewrite Hrows. f_equal.
    generalize (github_columns github_actions_status). intros c. clear.
    induction (List.filter _ projects) as [ | p l IH]; [simpl; lia | ].
    rewrite List.map_cons, list_sum_cons, IH. simpl length. lia.
Qed.

End Readings.

Lemma runbook_dashboard_reads_clock_once_witness :
  get_runbook_dashboard_response (Sample.frozen 7200) Sample.parse_seconds
    date_difference_summary Sample.webapp RunbookSample.backup RunbookSample.dashboard
    RunbookSample.tenant_name 0
  = get_runbook_dashboard_response ClockSample.ticking Sample.parse_seconds
      date_difference_summary Sample.webapp RunbookSample.backup RunbookSample.dashboard
      RunbookSample.tenant_name 0.
Proof.
  apply (runbook_dashboard_reads_clock_once (Sample.frozen 7200) Sample.parse_seconds
           date_difference_summary Sample.webapp RunbookSample.backup
           RunbookSample.dashboard RunbookSample.tenant_name 0).
  reflexivity.
Defined.

Lemma project_renderers_read_clock_twice_witness :
  get_project_dashboard_response (Sample.frozen 7200) Sample.parse_seconds
    date_difference_summary "https://octopus.example" "Spaces-1" "Default" "WebApp" "P1"
    ReleaseSample.dashboard None (Some ClockSample.statuses) None None None None 0
  = get_project_dashboard_response ClockSample.twice Sample.parse_seconds
      date_difference_summary "https://octopus.example" "Spaces-1" "Default" "WebApp" "P1"
      ReleaseSample.dashboard None (Some ClockSample.statuses) None None None None 0.
Proof.
  destruct (project_renderers_read_clock_twice (Sample.frozen 7200) Sample.parse_seconds
              date_difference_summary Sample.one_channel ReleaseSample.dashboard 0)
    as [Hproject _].
  apply Hproject; reflexivity.
Defined.

Lemma space_dashboard_clock_readings_witness :
  exists out n',
    get_dashboard_response ClockSample.ticking Sample.parse_seconds date_difference_summary
      "https://octopus.example" "Spaces-1" "Default" Sample.space_dashboard None
      (Some ClockSample.statuses) None None 0 = Ok (out, n')
    /\ n' = 2.
Proof.
  assert (Hcall : exists out n',
            get_dashboard_response ClockSample.ticking Sample.parse_seconds
              date_difference_summary "https://octopus.example" "Spaces-1" "Default"
              Sample.space_dashboard None (Some ClockSample.statuses) None None 0
            = Ok (out, n')) by (do 2 eexists; vm_compute; reflexivity).
  destruct Hcall as (out & n' & Hcall). exists out, n'. split; [exact Hcall | ].
  exact (space_dashboard_clock_readings ClockSample.ticking Sample.parse_seconds
           date_difference_summary "https://octopus.example" "Spaces-1" "Default"
           Sample.space_dashboard None (Some ClockSample.statuses) None None
           [Sample.default_group] [Sample.webapp] 0 n' out eq_refl eq_refl Hcall).
Defined.

(** ** Repository lines *)

Section RepositoryLines.

Variable clock : nat -> Z.
Variable get_date_difference_summary : Z -> string.

(** X17. On the space dashboard the pull request and issue counts of a
    project are shown only when a repository is known for it: when no
    entry of [github_actions] is of the project with both an owner and a
    name that are not empty, the GitHub cell is the one rendered without
    any pull request or issue summaries. *)
Theorem counts_need_repository
  (github_actions : option (list GithubRepo))
  (github_actions_status : option (list GithubActionStatus))
  (pull_requests issues : option (list CountSummary)) (project : Project) (n : nat) :
  (forall x, x ∈ or_empty github_actions -> repo_ProjectId x = proj_Id project ->
             repo_Repo x = "" \/ repo_Owner x = "") ->
  github_cell clock get_date_difference_summary github_actions github_actions_status
    pull_requests issues project n
  = github_cell clock get_date_difference_summary github_actions github_actions_status
      None None project n.
Proof.
  intros Hrepo. unfold github_cell.
  assert (Hfind : List.find (fun x => String.eqb (repo_ProjectId x) (proj_Id project)
                                      && truthy (Some (repo_Repo x))
                                      && truthy (Some (repo_Owner x)))
                            (or_empty github_actions) = None).
  { apply find_none_iff. intros x Hx.
    destruct (String.eqb_spec (repo_ProjectId x) (proj_Id project)) as [Heq | _];
      [ | reflexivity].
    destruct (Hrepo x Hx Heq) as [-> | ->]; simpl; [reflexivity | apply andb_false_r]. }
  rewrite Hfind.
  assert (Hpr : build_pr_response_for_project pull_requests (proj_Id project) None = []).
  { unfold build_pr_response_for_project, build_pr_response.
    destruct (nonempty pull_requests); [ | reflexivity].
    destruct (List.find _ (or_empty pull_requests)); reflexivity. }
  assert (Hissue : build_issue_response_for_project issues (proj_Id project) None = []).
  { unfold build_issue_response_for_project, build_issue_response.
    destruct (nonempty issues); [ | reflexivity].
    destruct (List.find _ (or_empty issues)); reflexivity. }
  destruct (nonempty github_actions); rewrite Hpr, Hissue; reflexivity.
Qed.

End RepositoryLines.

Lemma counts_need_repository_witness :
  github_cell (Sample.frozen 7200) date_difference_summary
    (Some [RepositorySample.ownerless]) (Some ClockSample.statuses)
    (Some [RepositorySample.three_open]) (Some [RepositorySample.three_open])
    Sample.webapp 0
  = github_cell (Sample.frozen 7200) date_difference_summary
      (Some [RepositorySample.ownerless]) (Some ClockSample.statuses) None None
      Sample.webapp 0.
Proof.
  apply (counts_need_repository (Sample.frozen 7200) date_difference_summary).
  intros x Hx _. apply list_elem_of_singleton in Hx. subst x. right. reflexivity.
Defined.

(** ** The warnings flag *)

(** X18. The warnings flag changes the icon of the state Success only:
    the yellow circle is shown exactly for Success with warnings, and for
    every other state the icon is the same with and without warnings. *)
Theorem warnings_matter_for_success_only :
  (forall state has_warnings,
     get_state_icon state has_warnings = "🟡"
     <-> state = "Success" /\ has_warnings = true)
  /\ (forall state,
        state <> "Success" -> get_state_icon state true = get_state_icon state false).
Proof.
  split.
  - intros state has_warnings. split.
    + unfold get_state_icon.
      repeat match goal with
      | |- context [String.eqb state ?k] =>
          destruct (String.eqb_spec state k) as [-> | _]
      end; try discriminate.
      destruct has_warnings; [auto | discriminate].
    + intros [-> ->]. reflexivity.
  - intros state Hstate. unfold get_state_icon.
    destruct (String.eqb_spec state "Executing") as [_ | _]; [reflexivity | ].
    destruct (String.eqb_spec state "Success") as [-> | _]; [congruence | reflexivity].
Qed.

Lemma warnings_matter_for_success_only_witness :
  get_state_icon "Failed" true = get_state_icon "Failed" false
  /\ ("Success" = "Success" /\ true = true -> get_state_icon "Success" true = "🟡").
Proof.
  destruct warnings_matter_for_success_only as [Hyellow Hother].
  split; [apply Hother; discriminate | apply (Hyellow "Success" true)].
Defined.

(** ** Tenants without environments and empty snapshots *)

Section EmptyInputs.

Variable clock : nat -> Z.
Variable parse_unknown_format_date : string -> Result Z.
Variable get_date_difference_summary : Z -> string.
Variable get_channel_cached : string -> string -> string -> string -> Result Channel.

Lemma get_tenant_environments_unlisted (tenant : Tenant) (dashboard : Dashboard)
  (project_id : string) (environments : list Environment) (tenant_id : string) :
  Environments dashboard = Some environments ->
  ten_Id tenant = Some tenant_id -> tenant_id <> "" ->
  ten_ProjectEnvironments tenant !! project_id = None ->
  get_tenant_environments tenant dashboard project_id = Ok [].
Proof.
  intros Henvironments Hid Hne Hnone. unfold get_tenant_environments.
  rewrite Henvironments, Hid, Hnone. simpl.
  apply String.eqb_neq in Hne. rewrite Hne. simpl. do 2 f_equal.
  clear Henvironments. induction environments as [ | e l IH]; [reflexivity | exact IH].
Qed.

(** X19. A tenant that has an id and no entry for the project in its
    ProjectEnvironments gets a section with its name and the text "No
    deployments" and nothing else; the deployments of the snapshot are
    not looked at, so that the section is rendered even when the
    snapshot has no Items. *)
Theorem tenant_without_project_environments
  (now : Z) (space_id project_id api_key url : string) (dashboard : Dashboard)
  (release_workflow_runs : option (list WorkflowRun))
  (deployment_highlights : option (list DeploymentHighlight))
  (tenant : Tenant) (environments : list Environment) (tenant_id : string) :
  Environments dashboard = Some environments ->
  ten_Id tenant = Some tenant_id -> tenant_id <> "" ->
  ten_ProjectEnvironments tenant !! project_id = None ->
  tenant_section parse_unknown_format_date get_date_difference_summary get_channel_cached
    now space_id project_id api_key url dashboard release_workflow_runs
    deployment_highlights tenant
  = Ok ("## " +:+ ten_Name tenant +:+ nl +:+ nl +:+ "No deployments" +:+ nl +:+ nl).
Proof.
  intros Henvironments Hid Hne Hnone. unfold tenant_section.
  rewrite (get_tenant_environments_unlisted _ _ _ _ _ Henvironments Hid Hne Hnone).
  reflexivity.
Qed.

(** X20. Empty collections render without any other key of the snapshot
    being needed: a space dashboard without project groups is its title,
    a project dashboard without environments is its heading followed by
    the closing of an empty row, a progression without tenants is its
    heading, and a runbook dashboard without runs is its title and a
    header with one empty column. *)
Theorem empty_collections_render (dashboard : Dashboard) (n : nat) :
  (forall octopus_url space_id space_name github_actions github_actions_status
          pull_requests issues,
     ProjectGroups dashboard = Some [] ->
     get_dashboard_response clock parse_unknown_format_date get_date_difference_summary
       octopus_url space_id space_name dashboard github_actions github_actions_status
       pull_requests issues n
     = Ok ("# " +:+ space_name +:+ nl +:+ nl, S n))
  /\ (forall octopus_url space_id space_name project_name project_id github_repo
             github_actions_statuses pull_requests issues release_workflow_runs
             deployment_highlights,
        Environments dashboard = Some [] ->
        exists message,
          get_project_dashboard_response clock parse_unknown_format_date
            get_date_difference_summary octopus_url space_id space_name project_name
            project_id dashboard github_repo github_actions_statuses pull_requests issues
            release_workflow_runs deployment_highlights n
          = Ok (project_heading space_name project_name message +:+ "|  ", S (S n)))
  /\ (forall space_id space_name project_name project_id github_repo
             github_actions_statuses release_workflow_runs pull_requests issues
             deployment_highlights api_key url,
        Tenants dashboard = Some [] ->
        exists message,
          get_project_tenant_progression_response clock parse_unknown_format_date
            get_date_difference_summary get_channel_cached space_id space_name project_name
            project_id dashboard github_repo github_actions_statuses release_workflow_runs
            pull_requests issues deployment_highlights api_key url n
          = Ok (project_heading space_name project_name message, S (S n)))
  /\ (forall project runbook get_tenant,
        RunbookRuns dashboard = Some [] ->
        get_runbook_dashboard_response clock parse_unknown_format_date
          get_date_difference_summary project runbook dashboard get_tenant n
        = Ok (proj_Name project +:+ " / " +:+ rb_Name runbook +:+ nl +:+ nl
              +:+ "|  |" +:+ nl +:+ "|-|" +:+ nl, S n)).
Proof.
  split; [ | split; [ | split ] ].
  - intros. unfold get_dashboard_response. rewrite datetime_now_bind.
    unfold mbind, Clocked_bind. rewrite H. reflexivity.
  - intros. unfold get_project_dashboard_response. rewrite datetime_now_bind.
    unfold mbind at 1, Clocked_bind at 1.
    destruct (project_message_returns clock get_date_difference_summary project_id
                github_repo github_actions_statuses pull_requests issues (S n))
      as [message ->].
    exists message. unfold mbind, Clocked_bind, project_dashboard_cells. rewrite H.
    reflexivity.
  - intros. unfold get_project_tenant_progression_response. rewrite datetime_now_bind.
    unfold mbind at 1, Clocked_bind at 1.
    destruct (project_message_returns clock get_date_difference_summary project_id
                github_repo github_actions_statuses pull_requests issues (S n))
      as [message ->].
    exists message. unfold mbind, Clocked_bind. rewrite H. simpl.
    change (join "" []) with "". rewrite append_empty_r. reflexivity.
  - intros. unfold get_runbook_dashboard_response. rewrite datetime_now_bind.
    unfold get_tenants, mbind, Clocked_bind. rewrite H. reflexivity.
Qed.

End EmptyInputs.

Lemma tenant_without_project_environments_witness :
  tenant_section Sample.parse_seconds date_difference_summary Sample.one_channel 7200
    "Spaces-1" "P1" "API-KEY" "https://octopus.example" RunbookSample.dashboard None None
    TenantedSample.newcomer
  = Ok ("## Newcomer" +:+ nl +:+ nl +:+ "No deployments" +:+ nl +:+ nl).
Proof.
  apply (tenant_without_project_environments Sample.parse_seconds date_difference_summary
           Sample.one_channel 7200%Z "Spaces-1" "P1" "API-KEY" "https://octopus.example"
           RunbookSample.dashboard None None TenantedSample.newcomer
           [Sample.dev; {| env_Id := "E2"; env_Name := "Test" |}] "Tenants-3").
  - reflexivity.
  - reflexivity.
  - discriminate.
  - reflexivity.
Defined.

Lemma empty_collections_render_witness :
  get_dashboard_response (Sample.frozen 7200) Sample.parse_seconds date_difference_summary
    "https://octopus.example" "Spaces-1" "Default" EmptySample.no_groups None None None
    None 0
  = Ok ("# Default" +:+ nl +:+ nl, 1)
  /\ get_runbook_dashboard_response (Sample.frozen 7200) Sample.parse_seconds
       date_difference_summary Sample.webapp RunbookSample.backup EmptySample.no_runs
       RunbookSample.tenant_name 0
     = Ok ("WebApp / Backup" +:+ nl +:+ nl +:+ "|  |" +:+ nl +:+ "|-|" +:+ nl, 1).
Proof.
  split.
  - destruct (empty_collections_render (Sample.frozen 7200) Sample.parse_seconds
                date_difference_summary Sample.one_channel EmptySample.no_groups 0)
      as [Hspace _].
    exact (Hspace "https://octopus.example" "Spaces-1" "Default" None None None None
             eq_refl).
  - destruct (empty_collections_render (Sample.frozen 7200) Sample.parse_seconds
                date_difference_summary Sample.one_channel EmptySample.no_runs 0)
      as (_ & _ & _ & Hrunbook).
    exact (Hrunbook Sample.webapp RunbookSample.backup RunbookSample.tenant_name eq_refl).
Defined.

(** ** General queries *)

Section GeneralQueryProperties.

Context {Value Messages Answer : Type}.
Variable sanitizers : Sanitizers Value.

Lemma general_query_body_keys (query : string) (args : Entities Value)
  (body : list (string * Value)) :
  general_query_body sanitizers query args = Ok body ->
  List.map fst body = general_query_keys.
Proof.
  unfold general_query_body. intros H.
  repeat match type of H with
         | mbind _ ?r = _ => destruct r as [? | ?]; simpl in H; [ | discriminate]
         end.
  injection H as <-. reflexivity.
Qed.

Lemma merge_kwargs_conflict (key : string) (kwargs body : list (string * Value)) :
  key ∈ List.map fst body -> key ∈ List.map fst kwargs ->
  merge_kwargs false body kwargs
  = ([], Raise (TypeError "'NoneType' object is not callable")).
Proof.
  revert body. induction kwargs as [ | [k v] kwargs IH]; intros body Hbody Hkwargs.
  - inversion Hkwargs.
  - simpl. destruct (bool_decide_reflect (k ∈ List.map fst body)) as [Hk | Hk];
      [reflexivity | ].
    apply IH.
    + rewrite List.map_app. apply elem_of_app. left. exact Hbody.
    + simpl in Hkwargs. apply elem_of_cons in Hkwargs as [-> | Hkwargs];
        [contradiction | exact Hkwargs].
Qed.

Lemma merge_kwargs_logged (keys : list string) (kwargs body : list (string * Value)) :
  NoDup (List.map fst kwargs) ->
  (forall kwarg, kwarg ∈ kwargs ->
                 (fst kwarg ∈ List.map fst body <-> fst kwarg ∈ keys)) ->
  merge_kwargs true body kwargs
  = (List.map (fun kwarg => ("Conflicting Key: " +:+ fst kwarg, "Value: {value}"))
       (List.filter (fun kwarg => bool_decide (fst kwarg ∈ keys)) kwargs),
     Ok (body ++ List.filter (fun kwarg => negb (bool_decide (fst kwarg ∈ keys))) kwargs)).
Proof.
  revert body. induction kwargs as [ | [k v] kwargs IH]; intros body Hnodup Hkeys.
  - simpl. rewrite app_nil_r. reflexivity.
  - simpl in Hnodup. apply NoDup_cons in Hnodup as [Hk Hnodup].
    pose proof (Hkeys (k, v) ltac:(left)) as Hhead. simpl in Hhead.
    simpl. destruct (bool_decide_reflect (k ∈ List.map fst body)) as [Hin | Hnotin].
    + rewrite bool_decide_eq_true_2 by (apply Hhead; exact Hin). simpl.
      rewrite IH; [reflexivity | exact Hnodup | ].
      intros kwarg Hkwarg. apply Hkeys. right. exact Hkwarg.
    + rewrite bool_decide_eq_false_2 by (rewrite <- Hhead; exact Hnotin). simpl.
      rewrite IH; [rewrite <- app_assoc; reflexivity | exact Hnodup | ].
      intros kwarg Hkwarg. rewrite <- (Hkeys kwarg) by (right; exact Hkwarg).
      rewrite List.map_app, elem_of_app. simpl. rewrite list_elem_of_singleton.
      split; [ | tauto]. intros [Hbody | Heq]; [exact Hbody | ].
      exfalso. apply Hk. rewrite <- Heq. apply list_elem_of_fmap_2. exact Hkwarg.
Qed.



End GeneralQueryProperties.



(** ** Deployment logs *)

Section ProjectLogsProperties.

Context {Value Messages Answer : Type}.

Lemma log_unexpected_calls (logging : bool) (kwargs : list (string * Value)) :
  log_unexpected logging kwargs
  = (if logging
     then List.map (fun kwarg => ("Unexpected Key: " +:+ fst kwarg, "Value: {value}")) kwargs
     else [],
     Ok tt).
Proof.
  induction kwargs as [ | [key value] kwargs IH]; simpl.
  - destruct logging; reflexivity.
  - rewrite IH. destruct logging; reflexivity.
Qed.

(** X23. The keyword arguments [answer_project_deployment_logs] does not
    know are only logged: whatever they are, the call returns what the
    callback returns for the query, the prompt and the named arguments,
    and it does not fail on them even without a logger, in which case
    nothing is logged. *)
Theorem unexpected_keywords_are_only_logged
  (build_plain_text_prompt : Result Messages) (query : string)
  (callback : string -> Messages -> LogsArguments Value -> Result Answer)
  (logging : bool) (args : LogsArguments Value) (kwargs : list (string * Value)) :
  answer_project_deployment_logs build_plain_text_prompt query callback logging args kwargs
  = (if logging
     then ("Enter:", "answer_logs_usage")
          :: List.map (fun kwarg => ("Unexpected Key: " +:+ fst kwarg, "Value: {value}"))
               kwargs
     else [],
     messages ← build_plain_text_prompt; callback query messages args).
Proof.
  unfold answer_project_deployment_logs. rewrite log_unexpected_calls.
  destruct logging; destruct build_plain_text_prompt as [messages | e];
    unfold mbind, Logged_bind, unlogged, call_logging; simpl;
    rewrite ?app_nil_r; reflexivity.
Qed.

End ProjectLogsProperties.
